(** * Seal GitHub Actions: entity resolution, artifact processing and linking

    A shallow embedding of the TypeScript actions of this repository:

    - [common/src/seal-api.ts] in its two revisions: the current client
      ([findSealEntity], CRC32C upload, [archiveEntities]) is [SealApi], the
      older client ([findSealEntityId]) is [LegacySealApi];
    - [common/src/github-context.ts] is [GithubContext];
    - [upload-artifacts/src/index.ts] in its two revisions is
      [UploadArtifacts] (changeset-aware, archives the previous references)
      and [LegacyUploadArtifacts];
    - [codebase-snapshot/src/index.ts] is [CodebaseSnapshot].

    Asynchronous functions are computations in the monad [M]: they read the
    outside world (HTTP transport, file system, CI context) from a [World],
    see the events emitted so far, emit new events and either return a value
    or throw a [JsError].  The events kept are the ones an operator or the
    platform can observe: HTTP requests, error and warning annotations,
    [core.setFailed], and the process and file-system commands of the
    snapshot action.  [core.info], [core.debug] and the log groups are not
    events: they never throw and carry no data back into the program.

    Strings are byte strings (UTF-8); the whitespace class of [trim] and of
    [split(/\s+/)] is the ASCII one. *)

From Stdlib Require Import ZArith String Ascii List Lia.
From stdpp Require Import base gmap strings list pretty.
Import ListNotations.
Open Scope string_scope.
Open Scope list_scope.

(** ** JavaScript values and string operations *)

Module Js.

(** A duck-typed scalar read off a parsed JSON body. *)
Inductive JsVal : Type :=
| VUndefined
| VNull
| VBool (b : bool)
| VNum (n : Z)
| VStr (s : string).

(** [!!v] *)
Definition truthy (v : JsVal) : bool :=
  match v with
  | VUndefined | VNull => false
  | VBool b => b
  | VNum n => negb (n =? 0)%Z
  | VStr s => negb (String.eqb s "")
  end.

(** [!s] on a string. *)
Definition is_empty (s : string) : bool := String.eqb s "".

(** Template-literal rendering of an integer number. *)
Definition num (n : Z) : string := pretty n.

Definition is_ws (c : ascii) : bool :=
  let n := nat_of_ascii c in
  ((n =? 32) || ((9 <=? n) && (n <=? 13)))%nat.

Fixpoint dropWhile (p : ascii -> bool) (l : list ascii) : list ascii :=
  match l with
  | [] => []
  | c :: l' => if p c then dropWhile p l' else l
  end.

Fixpoint takeWhile (p : ascii -> bool) (l : list ascii) : list ascii :=
  match l with
  | [] => []
  | c :: l' => if p c then c :: takeWhile p l' else []
  end.

(** [s.trim()] *)
Definition trim (s : string) : string :=
  string_of_list_ascii
    (rev (dropWhile is_ws (rev (dropWhile is_ws (list_ascii_of_string s))))).

(** [s.split(/\s+/).filter(p => p.length > 0)]: the maximal runs of
    non-whitespace characters, in order.  [cur] is the run being read,
    reversed. *)
Fixpoint tokens_from (cur : list ascii) (l : list ascii) : list string :=
  match l with
  | [] =>
      match cur with
      | [] => []
      | _ => [string_of_list_ascii (rev cur)]
      end
  | c :: l' =>
      if is_ws c then
        match cur with
        | [] => tokens_from [] l'
        | _ => string_of_list_ascii (rev cur) :: tokens_from [] l'
        end
      else tokens_from (c :: cur) l'
  end.

Definition split_ws (s : string) : list string :=
  tokens_from [] (list_ascii_of_string s).

(** [s.endsWith(suffix)] *)
Definition endsWith (s suffix : string) : bool :=
  let ls := String.length s in
  let lf := String.length suffix in
  (lf <=? ls)%nat && String.eqb (substring (ls - lf) lf s) suffix.

(** [xs.join(sep)] *)
Definition join (sep : string) (xs : list string) : string :=
  String.concat sep xs.

Definition is_slash (c : ascii) : bool := (nat_of_ascii c =? 47)%nat.

(** [path.basename(p)] of node:path (POSIX): trailing slashes are
    dropped, then the last segment is kept. *)
Definition basename (p : string) : string :=
  let r := dropWhile is_slash (rev (list_ascii_of_string p)) in
  string_of_list_ascii (rev (takeWhile (fun c => negb (is_slash c)) r)).

Definition hex_digit (n : nat) : ascii :=
  ascii_of_nat (if (n <? 10)%nat then 48 + n else 55 + n).

(** The characters [encodeURIComponent] leaves alone:
    [A-Z a-z 0-9 - _ . ! ~ * ' ( )]. *)
Definition uri_unreserved (c : ascii) : bool :=
  let n := nat_of_ascii c in
  (((65 <=? n) && (n <=? 90)) || ((97 <=? n) && (n <=? 122))
   || ((48 <=? n) && (n <=? 57))
   || (n =? 45) || (n =? 95) || (n =? 46) || (n =? 33) || (n =? 126)
   || (n =? 42) || (n =? 39) || (n =? 40) || (n =? 41))%nat.

(** [encodeURIComponent(s)] on the UTF-8 bytes of [s]. *)
Fixpoint encodeURIComponent (s : string) : string :=
  match s with
  | EmptyString => EmptyString
  | String c s' =>
      if uri_unreserved c then String c (encodeURIComponent s')
      else
        let n := nat_of_ascii c in
        String "%" (String (hex_digit (n / 16)) (String (hex_digit (n mod 16))
          (encodeURIComponent s')))
  end.

(** [haystack.includes(needle)] *)
Fixpoint includes (haystack needle : string) : bool :=
  String.prefix needle haystack
  || match haystack with
     | EmptyString => false
     | String _ h' => includes h' needle
     end.

End Js.

(** ** Data model of the platform client ([seal-api.ts]) *)

Record SealFileReference : Type := {
  ref_id : string;                 (* id: string *)
  ref_version : option Z           (* version: number | null *)
}.

Record Template : Type := { template_id : option string }.
Record SourceInfo : Type := { template : option Template }.

Inductive FieldType : Type := REFERENCE.

Record ReferenceField : Type := {
  field_type : FieldType;
  value : list SealFileReference
}.

(** [interface SealEntityLite] *)
Record SealEntityLite : Type := {
  ent_id : string;
  ent_title : string;
  ent_version : option (option Z);
  ent_sourceInfo : option SourceInfo;
  ent_fields : option (gmap string ReferenceField)
}.

(** What the client reads off [response.data]: the rendering
    [JSON.stringify(data)], whether [data] is [null] or [undefined], the
    entity list when [Array.isArray(data)], and the properties [data?.id],
    [data?.index], [data?.version] and [data?.message]. *)
Record ResponseData : Type := {
  data_json : string;
  data_nullish : bool;
  data_array : option (list SealEntityLite);
  data_id : option string;
  data_index : Js.JsVal;
  data_version : Js.JsVal;
  data_message : Js.JsVal
}.

Record AxiosResponse : Type := {
  status : Z;
  statusText : string;
  data : ResponseData
}.

(** A thrown value: its [message], whether [axios.isAxiosError] holds of it,
    its [response] when it has one, and its rendering by [JSON.stringify]. *)
Record JsError : Type := {
  message : string;
  isAxiosError : bool;
  response : option AxiosResponse;
  error_json : string
}.

(** [new Error(msg)] *)
Definition Error (msg : string) : JsError :=
  {| message := msg; isAxiosError := false; response := None; error_json := "{}" |}.

Inductive Method : Type := GET | POST | PATCH.

Inductive RequestData : Type :=
| NoData
| AddToChangeSetBody (changeSetIndex : string)     (* { changeSetIndex } *)
| ValueBody (value : list SealFileReference)       (* { value: [...] } *)
| FileStream (filePath : string).                  (* fs.createReadStream *)

(** [AxiosRequestConfig].  [validateStatus] is the same function in every
    request of the client and is applied by [axios] below. *)
Record AxiosRequestConfig : Type := {
  headers : gmap string string;
  method : Method;
  url : string;
  params : list (string * string);
  req_data : RequestData
}.

Inductive Level : Type := LError | LWarning.

Inductive Event : Type :=
| Http (config : AxiosRequestConfig)
| Annotation (lvl : Level) (msg : string)      (* core.error, core.warning *)
| SetFailed (msg : string)                     (* core.setFailed *)
| Mkdtemp (dir : string)                       (* fs.mkdtemp, its result *)
| Exec (command : string) (args : list string) (cwd : string)
| Rm (dir : string).

Inductive Result (A : Type) : Type :=
| Ok (a : A)
| Throw (e : JsError).
Arguments Ok {A} a.
Arguments Throw {A} e.

Inductive HttpOutcome : Type :=
| Rejected (e : JsError)            (* no usable response: the call throws *)
| Responded (r : AxiosResponse).

(** [github.context.payload.pull_request] *)
Record PullRequestPayload : Type := {
  pr_number : Z;
  pr_title : option string;
  pr_head_ref : option string;
  pr_base_ref : option string
}.

(** [github.context] *)
Record Context : Type := {
  eventName : string;
  payload_pull_request : option PullRequestPayload;
  repo_owner : string;
  repo_repo : string;
  sha : string
}.

(** Everything outside the program.  Each oracle that stands for an external
    system sees the events emitted so far, so its answers may depend on what
    the run has already done. *)
Record World : Type := {
  (* the HTTP transport and the platform behind it *)
  transport : list Event -> AxiosRequestConfig -> HttpOutcome;
  (* reading a file through the CRC32C hasher: [inl] the stream's error
     message, [inr] the digest *)
  hashFile : list Event -> string -> string + N;
  (* [fs.statSync(p).size] and [fs.stat]: [inl] the thrown error *)
  statSize : list Event -> string -> JsError + N;
  (* [glob.create(patterns, options)] then [globber.glob()]; the second
     argument is [options.cwd] when given *)
  glob : list Event -> string -> option string -> JsError + list string;
  (* [new Date().valueOf()] *)
  now : list Event -> Z;
  (* [fs.mkdtemp(path.join(os.tmpdir(), prefix))] *)
  mkdtemp : list Event -> string -> JsError + string;
  (* [exec.exec(command, args, { cwd })]: the exit code *)
  exec : list Event -> string -> list string -> string -> JsError + Z;
  (* [fs.rm(dir, { recursive: true, force: true })] *)
  rm : list Event -> string -> option JsError;
  (* node:path *)
  path_join : string -> string -> string;
  path_relative : string -> string -> string;
  (* [core.getInput(name)]: the trimmed value, empty when not supplied *)
  input : string -> string;
  (* [github.context] and [process.env.GITHUB_WORKSPACE] *)
  context : Context;
  env_GITHUB_WORKSPACE : option string
}.

(** ** The monad of asynchronous functions *)

Definition M (A : Type) : Type :=
  World -> list Event -> list Event * Result A.

Definition ret {A} (a : A) : M A := fun _ _ => ([], Ok a).

Definition throw {A} (e : JsError) : M A := fun _ _ => ([], Throw e).

Definition bind {A B} (m : M A) (k : A -> M B) : M B :=
  fun w h =>
    match m w h with
    | (t1, Ok a) =>
        match k a w (h ++ t1) with
        | (t2, r) => (t1 ++ t2, r)
        end
    | (t1, Throw e) => (t1, Throw e)
    end.

(** [try { m } catch (error) { handler error }] *)
Definition try_catch {A} (m : M A) (handler : JsError -> M A) : M A :=
  fun w h =>
    match m w h with
    | (t1, Ok a) => (t1, Ok a)
    | (t1, Throw e) =>
        match handler e w (h ++ t1) with
        | (t2, r) => (t1 ++ t2, r)
        end
    end.

(** [try { m } finally { cleanup }], for a [cleanup] that may throw. *)
Definition try_finally {A} (m : M A) (cleanup : M unit) : M A :=
  fun w h =>
    match m w h with
    | (t1, r) =>
        match cleanup w (h ++ t1) with
        | (t2, Ok _) => (t1 ++ t2, r)
        | (t2, Throw e) => (t1 ++ t2, Throw e)
        end
    end.

Definition emit (e : Event) : M unit := fun _ _ => ([e], Ok tt).

Definition lift {A} (r : Result A) : M A := fun _ _ => ([], r).

(** Ask the world, given the events so far. *)
Definition ask {A} (f : World -> list Event -> A) : M A :=
  fun w h => ([], Ok (f w h)).

(** [M] is a monad in the sense of stdpp, whose notations [x ← m; k] and
    [m;; k] write the sequencing of [await]ed calls. *)
#[global] Instance M_ret : MRet M := @ret.
#[global] Instance M_bind : MBind M := fun A B k m => bind m k.

Definition core_error (msg : string) : M unit := emit (Annotation LError msg).
Definition core_warning (msg : string) : M unit := emit (Annotation LWarning msg).
Definition core_setFailed (msg : string) : M unit := emit (SetFailed msg).

(** The [catch] of the [run] functions: [core.setFailed(error.message)]. *)
Definition setFailedWith (error : JsError) : M unit :=
  core_setFailed (message error).

(** [String(error)] for an [Error] object. *)
Definition String_of_error (e : JsError) : string := "Error: " +:+ message e.

(** [JSON.stringify(error.response?.data)] inside a template literal. *)
Definition stringify_response_data (e : JsError) : string :=
  match response e with
  | Some r => data_json (data r)
  | None => "undefined"
  end.

(** [validateStatus: (status) => status >= 200 && status < 500] *)
Definition validateStatus (st : Z) : bool := (200 <=? st)%Z && (st <? 500)%Z.

(** [await axios(config)]: the request is sent; a response whose status fails
    [validateStatus] is thrown as an axios error carrying the response. *)
Definition axios (config : AxiosRequestConfig) : M AxiosResponse :=
  outcome ← ask (fun w h => transport w h config);
  emit (Http config);;
  match outcome with
  | Rejected e => throw e
  | Responded r =>
      if validateStatus (status r) then ret r
      else throw {| message := "Request failed with status code " +:+ Js.num (status r);
                    isAxiosError := true;
                    response := Some r;
                    error_json := "{}" |}
  end.

(** The observations made on traces. *)
Fixpoint http_requests (t : list Event) : list AxiosRequestConfig :=
  match t with
  | [] => []
  | Http c :: t' => c :: http_requests t'
  | _ :: t' => http_requests t'
  end.

Definition is_setFailed (e : Event) : bool :=
  match e with
  | SetFailed _ => true
  | _ => false
  end.

(** The action is reported as failed when [core.setFailed] was called. *)
Definition failed (t : list Event) : bool := existsb is_setFailed t.

(** The double-quote character, and a string between double quotes. *)
Definition dq : string := String (ascii_of_nat 34) EmptyString.
Definition quoted (s : string) : string := dq +:+ s +:+ dq.

(** Template-literal rendering of a scalar. *)
Definition toString (v : Js.JsVal) : string :=
  match v with
  | Js.VUndefined => "undefined"
  | Js.VNull => "null"
  | Js.VBool true => "true"
  | Js.VBool false => "false"
  | Js.VNum n => Js.num n
  | Js.VStr s => s
  end.

(** ** The platform client, current revision ([seal-api.ts]) *)

Module SealApi.

Definition normalizeApiUrl (url : string) : string :=
  if Js.endsWith url "/" then url else url +:+ "/".

(** The headers of [createApiConfig(apiToken, extraHeaders)]; the spread of
    [extraHeaders] comes last and wins. *)
Definition createApiConfig (apiToken : string)
    (extraHeaders : gmap string string) : Result (gmap string string) :=
  if Js.is_empty apiToken then Throw (Error "Seal API token is required.")
  else Ok (extraHeaders ∪
           <["Authorization" := "Bearer " +:+ Js.trim apiToken]>
           (<["Content-Type" := "application/json"]>
           {["Accept" := "application/json"]})).

(** The stream either fails with [err.message] or is hashed to a number,
    returned as a decimal string.  The two other rejections of the source
    (a string chunk, a digest that is not a number) do not arise with a
    stream opened without an encoding and the CRC32C hasher. *)
Definition calculateCRC32CHash (filePath : string) : M string :=
  r ← ask (fun w h => hashFile w h filePath);
  match r with
  | inr hashNumber => ret (pretty hashNumber)
  | inl msg =>
      throw (Error ("Error reading file " +:+ quoted filePath
                    +:+ " for CRC32C calculation: " +:+ msg))
  end.

(** [entity?.sourceInfo?.template?.id] *)
Definition templateIdOf (entity : SealEntityLite) : option string :=
  match ent_sourceInfo entity with
  | Some si =>
      match template si with
      | Some t => template_id t
      | None => None
      end
  | None => None
  end.

(** The filter callback: [entity?.sourceInfo?.template?.id === templateId] *)
Definition matches (templateId : string) (entity : SealEntityLite) : bool :=
  match templateIdOf entity with
  | Some i => String.eqb i templateId
  | None => false
  end.

(** The [catch] shared by the search, upload and link requests: log, then
    throw [prefix + message], marking axios errors. *)
Definition request_failed (functionName prefix : string) (withStatus : bool)
    {A} (error : JsError) : M A :=
  let message := message error in
  if isAxiosError error then
    core_error ("[" +:+ functionName +:+ "] API request failed: " +:+ message);;
    (if withStatus then
       core_error ("[" +:+ functionName +:+ "] Response Status: " +:+
                   match response error with
                   | Some r => Js.num (status r)
                   | None => "undefined"
                   end)
     else ret tt);;
    core_error ("[" +:+ functionName +:+ "] Response Data: "
                +:+ stringify_response_data error);;
    throw (Error (prefix +:+ "Axios error: " +:+ message))
  else
    core_error ("[" +:+ functionName +:+ "] Non-axios error during request: "
                +:+ String_of_error error);;
    throw (Error (prefix +:+ message)).

Definition notFoundMessage (searchTerm templateId : string) : string :=
  "No Seal entity found matching title " +:+ quoted searchTerm
  +:+ " and template ID " +:+ quoted templateId +:+ ".".

Definition multipleMessage (searchTerm templateId : string) : string :=
  "Found multiple entities matching title " +:+ quoted searchTerm
  +:+ " and template ID " +:+ quoted templateId
  +:+ ". Cannot link artifact/snapshot.".

(** The body shared by [findSealEntity] and [findSealEntityId] up to the
    filtered list: guard on the template id, search by title, check the
    response, filter by template. *)
Definition searchMatching (functionName : string)
    (apiUrl apiToken : string) (prNumber : Z) (templateId : string)
    : M (list SealEntityLite) :=
  let searchTerm := "#" +:+ Js.num prNumber in
  if Js.is_empty templateId then
    throw (Error "Seal Template ID is required for filtering search results.")
  else
    let baseUrl := normalizeApiUrl apiUrl in
    let url := baseUrl +:+ "entities/search" in
    hdrs ← lift (createApiConfig apiToken ∅);
    let config := {| headers := hdrs; method := GET; url := url;
                     params := [("titleContains", searchTerm)];
                     req_data := NoData |} in
    response ← try_catch (axios config)
      (request_failed functionName "Failed to search for Seal entity: " false);
    if negb (status response =? 200)%Z then
      core_error ("[" +:+ functionName +:+ "] API search error: "
                  +:+ Js.num (status response) +:+ " " +:+ statusText response);;
      core_error ("[" +:+ functionName +:+ "] API search error body: "
                  +:+ data_json (data response));;
      throw (Error ("Seal API search failed with status "
                    +:+ Js.num (status response) +:+ ": "
                    +:+ data_json (data response)))
    else
      match data_array (data response) with
      | None =>
          core_error ("[" +:+ functionName
                      +:+ "] API search response was not an array.");;
          throw (Error "Invalid response format from Seal API search.")
      | Some searchResults =>
          let matchingEntities := List.filter (matches templateId) searchResults in
          if (length matchingEntities =? 0)%nat then
            core_error ("[" +:+ functionName +:+ "] No entity found matching title "
                        +:+ quoted searchTerm +:+ " and template ID "
                        +:+ quoted templateId +:+ ".");;
            throw (Error (notFoundMessage searchTerm templateId))
          else if (1 <? length matchingEntities)%nat then
            core_error ("[" +:+ functionName +:+ "] Found multiple entities ("
                        +:+ Js.join ", " (map ent_id matchingEntities)
                        +:+ ") matching criteria. Cannot proceed.");;
            throw (Error (multipleMessage searchTerm templateId))
          else ret matchingEntities
      end.

Definition findSealEntity (apiUrl apiToken : string) (prNumber : Z)
    (templateId : string) : M SealEntityLite :=
  let functionName := "findSealEntity" in
  matchingEntities ← searchMatching functionName apiUrl apiToken prNumber templateId;
  match head matchingEntities with
  | None =>
      core_error ("[" +:+ functionName +:+ "] Found unique Seal entity: undefined");;
      throw (Error "Found unique Seal entity: undefined")
  | Some entity => ret entity
  end.

(** The [catch] shared by the two changeset requests. *)
Definition changeset_request_failed (functionName : string) {A}
    (error : JsError) : M A :=
  core_error ("[" +:+ functionName +:+ "] API request failed: " +:+ message error);;
  if isAxiosError error then
    let status := match response error with
                  | Some r => Js.num (status r)
                  | None => "Unknown Status"
                  end in
    let data := match response error with
                | Some r => if data_nullish (data r)
                            then quoted "No response data"
                            else data_json (data r)
                | None => quoted "No response data"
                end in
    core_error ("[" +:+ functionName +:+ "] Response Status: " +:+ status);;
    core_error ("[" +:+ functionName +:+ "] Response Data: " +:+ data);;
    throw (Error ("[" +:+ functionName +:+ "] API Error: " +:+ status
                  +:+ " - " +:+ data))
  else throw error.

Definition getSealEntityChangeSetIndex (apiUrl apiToken entityId : string)
    : M string :=
  let functionName := "getSealEntityChangeSetIndex" in
  let baseUrl := normalizeApiUrl apiUrl in
  let url := baseUrl +:+ "entities/" +:+ entityId +:+ "/change-set" in
  hdrs ← lift (createApiConfig apiToken ∅);
  let config := {| headers := hdrs; method := GET; url := url;
                   params := []; req_data := NoData |} in
  response ← try_catch (axios config) (changeset_request_failed functionName);
  if negb (status response =? 200)%Z then
    core_error ("[" +:+ functionName +:+ "] API error getting changeset: "
                +:+ Js.num (status response) +:+ " " +:+ statusText response);;
    core_error ("[" +:+ functionName +:+ "] API error body: "
                +:+ data_json (data response));;
    throw (Error ("[" +:+ functionName +:+ "] API Error: "
                  +:+ Js.num (status response) +:+ " - "
                  +:+ data_json (data response)))
  else
    match data_index (data response) with
    | Js.VStr changeSetIndex =>
        if Js.is_empty changeSetIndex then
          core_error ("[" +:+ functionName +:+ "] Changeset request succeeded (Status: "
                      +:+ Js.num (status response) +:+ "), but failed to extract index.");;
          core_error ("[" +:+ functionName +:+ "] Response Body: "
                      +:+ data_json (data response));;
          throw (Error ("[" +:+ functionName
                        +:+ "] Missing or invalid changeset index in API response."))
        else ret changeSetIndex
    | _ =>
        core_error ("[" +:+ functionName +:+ "] Changeset request succeeded (Status: "
                    +:+ Js.num (status response) +:+ "), but failed to extract index.");;
        core_error ("[" +:+ functionName +:+ "] Response Body: "
                    +:+ data_json (data response));;
        throw (Error ("[" +:+ functionName
                      +:+ "] Missing or invalid changeset index in API response."))
    end.

Definition addEntityToChangeSet (apiUrl apiToken entityIdToAdd changeSetIndex : string)
    : M unit :=
  let functionName := "addEntityToChangeSet" in
  let baseUrl := normalizeApiUrl apiUrl in
  let url := baseUrl +:+ "entities/" +:+ entityIdToAdd +:+ "/add-to-change-set" in
  let payload := AddToChangeSetBody changeSetIndex in
  hdrs ← lift (createApiConfig apiToken ∅);
  let config := {| headers := hdrs; method := POST; url := url;
                   params := []; req_data := payload |} in
  response ← try_catch (axios config) (changeset_request_failed functionName);
  if negb (status response =? 200)%Z then
    core_error ("[" +:+ functionName +:+ "] API error adding to changeset: "
                +:+ Js.num (status response) +:+ " " +:+ statusText response);;
    core_error ("[" +:+ functionName +:+ "] API error body: "
                +:+ data_json (data response));;
    throw (Error ("[" +:+ functionName +:+ "] API Error: "
                  +:+ Js.num (status response) +:+ " - "
                  +:+ data_json (data response)))
  else ret tt.

(** [uploadSealFile]; [withCrc] tells the current revision, which hashes
    the file first and sends the digest, from the older one. *)
Definition uploadSealFileWith (withCrc : bool)
    (apiUrl apiToken filePath sealFilename fileTypeTitle : string) : M string :=
  let functionName := "uploadSealFile" in
  crc32cHash ← (if withCrc then calculateCRC32CHash filePath else ret "");
  let baseUrl := normalizeApiUrl apiUrl in
  let url := baseUrl +:+ "files" in
  stats ← ask (fun w h => statSize w h filePath);
  match stats with
  | inl e => throw e
  | inr fileSizeInBytes =>
      hdrs ← lift (createApiConfig apiToken
                     (<["Content-Type" := "application/octet-stream"]>
                      {["Content-Length" := pretty fileSizeInBytes]}));
      let config := {| headers := hdrs; method := POST; url := url;
                       params := [("filename", sealFilename);
                                  ("typeTitle", fileTypeTitle)]
                                 ++ (if withCrc then [("crc32cHash", crc32cHash)]
                                     else []);
                       req_data := FileStream filePath |} in
      response ← try_catch (axios config)
        (request_failed functionName
           ("Failed to upload file " +:+ quoted sealFilename
            +:+ (if withCrc then " (CRC32C: " +:+ crc32cHash +:+ ")" else "")
            +:+ ": ") withCrc);
      if negb (status response =? 200)%Z && negb (status response =? 201)%Z then
        core_error ("[" +:+ functionName +:+ "] API upload error: "
                    +:+ Js.num (status response) +:+ " " +:+ statusText response);;
        core_error ("[" +:+ functionName +:+ "] API upload error body: "
                    +:+ data_json (data response));;
        throw (Error ("Seal API file upload failed with status "
                      +:+ Js.num (status response) +:+ ": "
                      +:+ data_json (data response)))
      else
        match data_id (data response) with
        | Some fileId =>
            if Js.is_empty fileId then
              core_error ("[" +:+ functionName +:+ "] File upload succeeded (Status: "
                          +:+ Js.num (status response)
                          +:+ "), but failed to extract file ID from response.");;
              core_error ("[" +:+ functionName +:+ "] Response Body: "
                          +:+ data_json (data response));;
              throw (Error "Missing file ID in Seal API response after upload.")
            else ret fileId
        | None =>
            core_error ("[" +:+ functionName +:+ "] File upload succeeded (Status: "
                        +:+ Js.num (status response)
                        +:+ "), but failed to extract file ID from response.");;
            core_error ("[" +:+ functionName +:+ "] Response Body: "
                        +:+ data_json (data response));;
            throw (Error "Missing file ID in Seal API response after upload.")
        end
  end.

Definition uploadSealFile := uploadSealFileWith true.

(** Returns the version, or [None] for the [null] of the source. *)
Definition getSealFileVersion (apiUrl apiToken fileId : string) : M (option Z) :=
  let functionName := "getSealFileVersion" in
  let baseUrl := normalizeApiUrl apiUrl in
  let url := baseUrl +:+ "entities/" +:+ fileId in
  hdrs ← lift (createApiConfig apiToken ∅);
  let config := {| headers := hdrs; method := GET; url := url;
                   params := []; req_data := NoData |} in
  response ← try_catch (r ← axios config; ret (Some r))
    (fun error =>
       core_error ("[" +:+ functionName +:+ "] Error fetching entity details for "
                   +:+ fileId +:+ ": " +:+ message error);;
       (if isAxiosError error then
          core_error ("[" +:+ functionName +:+ "] Response Data: "
                      +:+ stringify_response_data error)
        else ret tt);;
       ret None);
  match response with
  | None => ret None
  | Some response =>
      if negb (status response =? 200)%Z then
        core_warning ("[" +:+ functionName +:+ "] Failed to fetch entity details for "
                      +:+ fileId +:+ ". Status: " +:+ Js.num (status response)
                      +:+ ". Response: " +:+ data_json (data response)
                      +:+ ". Proceeding with version=null.");;
        ret None
      else
        match data_version (data response) with
        | Js.VUndefined | Js.VNull => ret None
        | Js.VNum version => ret (Some version)
        | _ => ret None
        end
  end.

Definition linkFilesToEntityField (apiUrl apiToken entityId fieldName : string)
    (fileReferences : list SealFileReference) : M unit :=
  let functionName := "linkFilesToEntityField" in
  if (length fileReferences =? 0)%nat then
    core_warning ("[" +:+ functionName
                  +:+ "] No file references provided. Skipping linking.");;
    ret tt
  else
    let baseUrl := normalizeApiUrl apiUrl in
    let encodedFieldName := Js.encodeURIComponent fieldName in
    let url := baseUrl +:+ "entities/" +:+ entityId +:+ "/fields/"
               +:+ encodedFieldName in
    let payload := ValueBody fileReferences in
    hdrs ← lift (createApiConfig apiToken ∅);
    let config := {| headers := hdrs; method := PATCH; url := url;
                     params := []; req_data := payload |} in
    response ← try_catch (axios config)
      (request_failed functionName
         ("Failed to link files to entity field " +:+ quoted fieldName +:+ ": ")
         false);
    if negb (status response =? 200)%Z then
      core_error ("[" +:+ functionName +:+ "] API linking error: "
                  +:+ Js.num (status response) +:+ " " +:+ statusText response);;
      core_error ("[" +:+ functionName +:+ "] API linking error body: "
                  +:+ data_json (data response));;
      throw (Error ("Seal API linking failed with status "
                    +:+ Js.num (status response) +:+ ": "
                    +:+ data_json (data response)
                    +:+ ". Files were uploaded but not linked."))
    else if Js.truthy (data_message (data response)) then
      core_warning ("[" +:+ functionName
                    +:+ "] Linking attempt seemed successful (Status "
                    +:+ Js.num (status response)
                    +:+ ") but response might indicate an issue: "
                    +:+ toString (data_message (data response)))
    else ret tt.

(** What each promise of [archivePromises] settles to. *)
Inductive ArchiveOutcome : Type :=
| Skipped                                    (* { id: 'invalid', status: 'skipped' } *)
| Success (id : string)                      (* { id, status: 'success' } *)
| Failed (id : string) (error : string)      (* { id, status: 'failed', error } *)
| RejectedPromise (reason : JsError).        (* the callback itself threw *)

(** A promise of [archivePromises] once its callback has run up to its
    first [await]. *)
Inductive ArchivePromise : Type :=
| Settled (o : ArchiveOutcome)
| Pending (entityId : string) (outcome : Result AxiosResponse).

(** [JSON.stringify(ref)] for a reference. *)
Definition stringify_ref (ref : SealFileReference) : string :=
  "{" +:+ quoted "id" +:+ ":" +:+ quoted (ref_id ref) +:+ ","
  +:+ quoted "version" +:+ ":"
  +:+ match ref_version ref with
      | Some v => Js.num v
      | None => "null"
      end +:+ "}".

(** The callback of [fileRefs.map] up to [await axios(config)]: all
    requests are sent, in the order of the list, before any response is
    handled. *)
Definition archiveStart (baseUrl apiToken : string) (ref : SealFileReference)
    : M ArchivePromise :=
  let functionName := "archiveEntities" in
  if Js.is_empty (ref_id ref) then
    core_warning ("[" +:+ functionName +:+ "] Skipping invalid file reference: "
                  +:+ stringify_ref ref);;
    ret (Settled Skipped)
  else
    let entityId := ref_id ref in
    let url := baseUrl +:+ "entities/" +:+ entityId +:+ "/archive" in
    match createApiConfig apiToken ∅ with
    | Throw e => ret (Settled (RejectedPromise e))
    | Ok hdrs =>
        let config := {| headers := hdrs; method := POST; url := url;
                         params := []; req_data := NoData |} in
        outcome ← try_catch (r ← axios config; ret (Ok r))
                            (fun error => ret (Throw error));
        ret (Pending entityId outcome)
    end.

(** The rest of the callback, once the request has settled. *)
Definition archiveSettle (p : ArchivePromise) : M ArchiveOutcome :=
  let functionName := "archiveEntities" in
  match p with
  | Settled o => ret o
  | Pending entityId (Ok response) =>
      if (status response =? 200)%Z then ret (Success entityId)
      else
        core_warning ("[" +:+ functionName +:+ "] Received non-200 status ("
                      +:+ Js.num (status response)
                      +:+ ") attempting to archive entity ID " +:+ entityId
                      +:+ ": " +:+ data_json (data response));;
        ret (Failed entityId ("Status " +:+ Js.num (status response)))
  | Pending entityId (Throw error) =>
      core_error ("[" +:+ functionName +:+ "] Failed to archive entity ID "
                  +:+ entityId +:+ ": " +:+ message error);;
      (if isAxiosError error then
         core_error ("[" +:+ functionName +:+ "] Response Data: "
                     +:+ stringify_response_data error)
       else ret tt);;
      ret (Failed entityId (message error))
  end.

(** [for] over a list inside [M], collecting the results. *)
Fixpoint mapM {A B} (f : A -> M B) (l : list A) : M (list B) :=
  match l with
  | [] => ret []
  | x :: l' => y ← f x; ys ← mapM f l'; ret (y :: ys)
  end.

(** [fileRefs.map(async ...)] followed by [Promise.allSettled]: the
    outcomes, one per reference, in the order of the list. *)
Definition archiveOutcomes (apiUrl apiToken : string)
    (fileRefs : list SealFileReference) : M (list ArchiveOutcome) :=
  let baseUrl := normalizeApiUrl apiUrl in
  archivePromises ← mapM (archiveStart baseUrl apiToken) fileRefs;
  mapM archiveSettle archivePromises.

(** [fileRefs] is [None] for [undefined]. *)
Definition archiveEntities (apiUrl apiToken : string)
    (fileRefs : option (list SealFileReference)) : M unit :=
  match fileRefs with
  | None => ret tt
  | Some [] => ret tt
  | Some fileRefs => archiveOutcomes apiUrl apiToken fileRefs;; ret tt
  end.

End SealApi.

(** ** The platform client, older revision *)

Module LegacySealApi.

Definition findSealEntityId (apiUrl apiToken : string) (prNumber : Z)
    (templateId : string) : M string :=
  let functionName := "findSealEntityId" in
  matchingEntities ← SealApi.searchMatching functionName apiUrl apiToken
                       prNumber templateId;
  (* matchingEntities[0]?.id *)
  match head matchingEntities with
  | Some entity =>
      let entityId := ent_id entity in
      if Js.is_empty entityId then
        core_error ("[" +:+ functionName +:+ "] Found unique Seal entity ID: "
                    +:+ entityId);;
        throw (Error ("Found unique Seal entity ID: " +:+ entityId))
      else ret entityId
  | None =>
      core_error ("[" +:+ functionName
                  +:+ "] Found unique Seal entity ID: undefined");;
      throw (Error "Found unique Seal entity ID: undefined")
  end.

Definition uploadSealFile := SealApi.uploadSealFileWith false.

End LegacySealApi.

(** ** The CI context ([github-context.ts]) *)

Module GithubContext.

Inductive ArchiveType : Type := zip | tar.

Record CodebaseSnapshotInputs : Type := {
  cs_sealApiToken : string;
  cs_sealApiBaseUrl : string;
  cs_sealTemplateId : string;
  cs_sealFileTypeTitle : string;
  snapshotFieldName : string;
  excludePatterns : string;
  archiveType : ArchiveType
}.

Record UploadArtifactsInputs : Type := {
  sealApiToken : string;
  sealApiBaseUrl : string;
  sealTemplateId : string;
  sealFileTypeTitle : string;
  fieldName : string;
  artifactPatterns : string
}.

Record PullRequestContext : Type := {
  repoOwner : string;
  repoName : string;
  prNumber : Z;
  prTitle : string;
  headRef : string;
  baseRef : string;
  commitSha : string;
  workspace : string
}.

(** [core.getInput(name, { required })] of the actions toolkit: a required
    input that is not supplied throws. *)
Definition getInput (name : string) (required : bool) : M string :=
  val ← ask (fun w _ => input w name);
  if required && Js.is_empty val
  then throw (Error ("Input required and not supplied: " +:+ name))
  else ret val.

(** [a || b] on strings. *)
Definition or_default (a b : string) : string :=
  if Js.is_empty a then b else a.

Definition isPullRequestEvent : M bool :=
  ev ← ask (fun w _ => eventName (context w));
  ret (String.eqb ev "pull_request" || String.eqb ev "pull_request_target").

Definition getCodebaseSnapshotInputs : M CodebaseSnapshotInputs :=
  token ← getInput "seal_api_token" true;
  baseUrl ← getInput "seal_api_base_url" true;
  templateId ← getInput "seal_template_id" true;
  snapshotField ← getInput "seal_snapshot_field_name" false;
  fileTypeTitle ← getInput "seal_file_type_title" false;
  exclude ← getInput "exclude_patterns" false;
  archive ← getInput "archive_type" false;
  let archive := or_default archive "zip" in
  let mk t := {| cs_sealApiToken := token;
                 cs_sealApiBaseUrl := baseUrl;
                 cs_sealTemplateId := templateId;
                 cs_sealFileTypeTitle := or_default fileTypeTitle "GitHub Artifacts";
                 snapshotFieldName := or_default snapshotField "Code Snapshot";
                 excludePatterns := exclude;
                 archiveType := t |} in
  if String.eqb archive "zip" then ret (mk zip)
  else if String.eqb archive "tar" then ret (mk tar)
  else throw (Error ("Unsupported archive_type: " +:+ archive
                     +:+ ". Must be 'zip' or 'tar'.")).

Definition getUploadArtifactsInputs : M UploadArtifactsInputs :=
  token ← getInput "seal_api_token" true;
  baseUrl ← getInput "seal_api_base_url" true;
  templateId ← getInput "seal_template_id" true;
  field ← getInput "seal_field_name" false;
  fileTypeTitle ← getInput "seal_file_type_title" false;
  patterns ← getInput "artifact_patterns" true;
  ret {| sealApiToken := token;
         sealApiBaseUrl := baseUrl;
         sealTemplateId := templateId;
         fieldName := or_default field "Release Artifact(s)";
         sealFileTypeTitle := or_default fileTypeTitle "GitHub-Artifacts";
         artifactPatterns := patterns |}.

(** Template-literal rendering of a possibly [undefined] string. *)
Definition show_opt (o : option string) : string :=
  match o with
  | Some s => s
  | None => "undefined"
  end.

(** [!o] for a possibly [undefined] string. *)
Definition falsy_opt (o : option string) : bool :=
  match o with
  | Some s => Js.is_empty s
  | None => true
  end.

Definition getPullRequestContext : M (option PullRequestContext) :=
  isPr ← isPullRequestEvent;
  if negb isPr then ret None
  else
    ctx ← ask (fun w _ => context w);
    match payload_pull_request ctx with
    | None =>
        core_warning "Event is pull_request type, but payload.pull_request is missing.";;
        ret None
    | Some prPayload =>
        let prNumber := pr_number prPayload in
        let prTitle := default "" (pr_title prPayload) in
        let headRef := pr_head_ref prPayload in
        let baseRef := pr_base_ref prPayload in
        let repoOwner := repo_owner ctx in
        let repoName := repo_repo ctx in
        let commitSha := sha ctx in
        workspace ← ask (fun w _ => env_GITHUB_WORKSPACE w);
        match headRef, baseRef, workspace with
        | Some headRef', Some baseRef', Some workspace' =>
            if (prNumber =? 0)%Z || Js.is_empty headRef' || Js.is_empty baseRef'
               || Js.is_empty workspace'
            then
              core_warning ("Missing essential PR context data: prNumber="
                            +:+ Js.num prNumber +:+ ", headRef=" +:+ headRef'
                            +:+ ", baseRef=" +:+ baseRef'
                            +:+ ", workspace=" +:+ workspace');;
              ret None
            else
              ret (Some {| repoOwner := repoOwner;
                           repoName := repoName;
                           prNumber := prNumber;
                           prTitle := prTitle;
                           headRef := headRef';
                           baseRef := baseRef';
                           commitSha := commitSha;
                           workspace := workspace' |})
        | _, _, _ =>
            core_warning ("Missing essential PR context data: prNumber="
                          +:+ Js.num prNumber +:+ ", headRef=" +:+ show_opt headRef
                          +:+ ", baseRef=" +:+ show_opt baseRef
                          +:+ ", workspace=" +:+ show_opt workspace);;
            ret None
        end
    end.

End GithubContext.

(** A [for ... of] loop threading the variables it mutates. *)
Fixpoint forEach {S A} (body : S -> A -> M S) (s : S) (l : list A) : M S :=
  match l with
  | [] => ret s
  | x :: l' => s' ← body s x; forEach body s' l'
  end.

Definition newline : string := String (ascii_of_nat 10) EmptyString.

(** [globber.glob()] after [glob.create(patterns.join('\n'), { cwd })]. *)
Definition globFiles (patterns : list string) (cwd : option string)
    : M (list string) :=
  r ← ask (fun w h => glob w h (Js.join newline patterns) cwd);
  match r with
  | inl e => throw e
  | inr foundFiles => ret foundFiles
  end.

(** ** The upload-artifacts action, current revision *)

Module UploadArtifacts.
Import GithubContext.

(** The remote name given to a file: the timestamp is the one read once,
    before the loop. *)
Definition sealFilename (originalFilename : string) (prNumber timestamp : Z)
    : string :=
  "artifact-" +:+ originalFilename +:+ "-PR" +:+ Js.num prNumber
  +:+ "-" +:+ Js.num timestamp.

(** The loop variables [uploadedFileRefs] and [processingFailedCount]. *)
Definition Acc : Type := (list SealFileReference * nat)%type.

(** The [catch] of the loop body; [fileId] is the variable assigned by a
    successful upload, [None] while it is still [null]. *)
Definition processingFailed (acc : Acc) (relativePath : string)
    (fileId : option string) (error : JsError) : M Acc :=
  let action := match fileId with
                | Some _ => "add to changeset or get version"
                | None => "upload"
                end in
  core_error ("Processing failed for " +:+ quoted relativePath +:+ " during "
              +:+ action +:+ ": " +:+ message error);;
  ret (fst acc, S (snd acc)).

(** One iteration of the loop over [foundFiles]. *)
Definition processArtifact (inputs : UploadArtifactsInputs)
    (prContext : PullRequestContext) (changeSetIndex : string) (timestamp : Z)
    (acc : Acc) (filePath : string) : M Acc :=
  let originalFilename := Js.basename filePath in
  relativePath ← ask (fun w _ => path_relative w (workspace prContext) filePath);
  let sealFilename := sealFilename originalFilename (prNumber prContext) timestamp in
  uploaded ← try_catch
    (fileId ← SealApi.uploadSealFile (sealApiBaseUrl inputs) (sealApiToken inputs)
                filePath sealFilename (sealFileTypeTitle inputs);
     ret (inr fileId))
    (fun error => ret (inl error));
  match uploaded with
  | inl error => processingFailed acc relativePath None error
  | inr fileId =>
      try_catch
        (SealApi.addEntityToChangeSet (sealApiBaseUrl inputs) (sealApiToken inputs)
           fileId changeSetIndex;;
         fileVersion ← SealApi.getSealFileVersion (sealApiBaseUrl inputs)
                         (sealApiToken inputs) fileId;
         ret (fst acc ++ [{| ref_id := fileId; ref_version := fileVersion |}],
              snd acc))
        (processingFailed acc relativePath (Some fileId))
  end.

(** Step 3: the loop. *)
Definition processArtifacts (inputs : UploadArtifactsInputs)
    (prContext : PullRequestContext) (changeSetIndex : string) (timestamp : Z)
    (foundFiles : list string) : M Acc :=
  forEach (processArtifact inputs prContext changeSetIndex timestamp)
          ([], 0%nat) foundFiles.

(** [entity.fields?.[fieldName]?.value] *)
Definition existingFileRefs (entity : SealEntityLite) (fieldName : string)
    : option (list SealFileReference) :=
  match ent_fields entity with
  | Some fields =>
      match fields !! fieldName with
      | Some field => Some (value field)
      | None => None
      end
  | None => None
  end.

(** Steps 4a and 4b: archive what the field held, then patch the field. *)
Definition archiveAndLink (inputs : UploadArtifactsInputs)
    (entity : SealEntityLite) (uploadedFileRefs : list SealFileReference)
    : M unit :=
  SealApi.archiveEntities (sealApiBaseUrl inputs) (sealApiToken inputs)
    (existingFileRefs entity (fieldName inputs));;
  SealApi.linkFilesToEntityField (sealApiBaseUrl inputs) (sealApiToken inputs)
    (ent_id entity) (fieldName inputs) uploadedFileRefs.

(** Step 4, from the end of the loop on. *)
Definition linkStep (inputs : UploadArtifactsInputs) (entity : SealEntityLite)
    (acc : Acc) : M unit :=
  let '(uploadedFileRefs, processingFailedCount) := acc in
  if (length uploadedFileRefs =? 0)%nat then
    if (0 <? processingFailedCount)%nat then
      throw (Error (pretty processingFailedCount
                    +:+ " artifact processing step(s) failed."))
    else ret tt
  else archiveAndLink inputs entity uploadedFileRefs.

(** Steps 2 to 4, for a non-empty list of found files. *)
Definition uploadAndLink (inputs : UploadArtifactsInputs)
    (prContext : PullRequestContext) (foundFiles : list string) : M unit :=
  entity ← SealApi.findSealEntity (sealApiBaseUrl inputs) (sealApiToken inputs)
             (prNumber prContext) (sealTemplateId inputs);
  let entityId := ent_id entity in
  changeSetIndex ← SealApi.getSealEntityChangeSetIndex (sealApiBaseUrl inputs)
                     (sealApiToken inputs) entityId;
  timestamp ← ask now;
  acc ← processArtifacts inputs prContext changeSetIndex timestamp foundFiles;
  linkStep inputs entity acc.

(** The body of the [try] of [run]. *)
Definition main (inputs : UploadArtifactsInputs) (prContext : PullRequestContext)
    : M unit :=
  let patterns := Js.split_ws (artifactPatterns inputs) in
  if (length patterns =? 0)%nat then
    core_warning "No artifact patterns provided.";;
    ret tt
  else
    foundFiles ← globFiles patterns (Some (workspace prContext));
    if (length foundFiles =? 0)%nat then ret tt
    else uploadAndLink inputs prContext foundFiles.

Definition run : M unit :=
  inputs ← getUploadArtifactsInputs;
  prContext ← getPullRequestContext;
  match prContext with
  | None => ret tt
  | Some prContext =>
      try_catch (main inputs prContext)
                setFailedWith
  end.

End UploadArtifacts.

(** ** The upload-artifacts action, older revision *)

Module LegacyUploadArtifacts.
Import GithubContext.

(** The remote name given to the file at position [uploadCounter]. *)
Definition sealFilename (originalFilename : string) (prNumber : Z)
    (uploadCounter : nat) : string :=
  "artifact-" +:+ originalFilename +:+ "-pr" +:+ Js.num prNumber
  +:+ "-index" +:+ pretty uploadCounter.

(** The loop variables [uploadedFileRefs], [uploadFailedCount] and
    [uploadCounter]. *)
Definition Acc : Type := (list SealFileReference * nat * nat)%type.

Definition uploadArtifact (inputs : UploadArtifactsInputs)
    (prContext : PullRequestContext) (acc : Acc) (filePath : string) : M Acc :=
  let '(uploadedFileRefs, uploadFailedCount, uploadCounter) := acc in
  let uploadCounter := S uploadCounter in
  let originalFilename := Js.basename filePath in
  let sealFilename := sealFilename originalFilename (prNumber prContext)
                        uploadCounter in
  try_catch
    (fileId ← LegacySealApi.uploadSealFile (sealApiBaseUrl inputs)
                (sealApiToken inputs) filePath sealFilename
                (sealFileTypeTitle inputs);
     fileVersion ← SealApi.getSealFileVersion (sealApiBaseUrl inputs)
                     (sealApiToken inputs) fileId;
     ret (uploadedFileRefs ++ [{| ref_id := fileId; ref_version := fileVersion |}],
          uploadFailedCount, uploadCounter))
    (fun error =>
       core_warning ("Upload failed for " +:+ quoted filePath +:+ ": "
                     +:+ message error);;
       ret (uploadedFileRefs, S uploadFailedCount, uploadCounter)).

Definition uploadArtifacts (inputs : UploadArtifactsInputs)
    (prContext : PullRequestContext) (foundFiles : list string) : M Acc :=
  forEach (uploadArtifact inputs prContext) ([], 0%nat, 0%nat) foundFiles.

Definition main (inputs : UploadArtifactsInputs) (prContext : PullRequestContext)
    : M unit :=
  let patterns := Js.split_ws (artifactPatterns inputs) in
  if (length patterns =? 0)%nat then
    core_warning "No artifact patterns provided.";;
    ret tt
  else
    foundFiles ← globFiles patterns None;
    if (length foundFiles =? 0)%nat then ret tt
    else
      entityId ← LegacySealApi.findSealEntityId (sealApiBaseUrl inputs)
                   (sealApiToken inputs) (prNumber prContext)
                   (sealTemplateId inputs);
      '(uploadedFileRefs, uploadFailedCount, _) ←
        uploadArtifacts inputs prContext foundFiles;
      if (length uploadedFileRefs =? 0)%nat then
        if (0 <? uploadFailedCount)%nat then
          throw (Error (pretty uploadFailedCount +:+ " artifact upload(s) failed."))
        else ret tt
      else
        SealApi.linkFilesToEntityField (sealApiBaseUrl inputs)
          (sealApiToken inputs) entityId (fieldName inputs) uploadedFileRefs.

Definition run : M unit :=
  inputs ← getUploadArtifactsInputs;
  prContext ← getPullRequestContext;
  match prContext with
  | None => ret tt
  | Some prContext =>
      try_catch (main inputs prContext)
                setFailedWith
  end.

End LegacyUploadArtifacts.

(** ** The codebase-snapshot action *)

Module CodebaseSnapshot.
Import GithubContext.

Definition archiveName (inputs : CodebaseSnapshotInputs)
    (prContext : PullRequestContext) (timestamp : Z) : string :=
  let extension := match archiveType inputs with
                   | zip => "zip"
                   | tar => "tar.gz"
                   end in
  repoName prContext +:+ "-PR" +:+ Js.num (prNumber prContext) +:+ "-"
  +:+ Js.num timestamp +:+ "." +:+ extension.

Definition archiveArgs (inputs : CodebaseSnapshotInputs) (archivePath : string)
    : list string :=
  let patterns := Js.split_ws (excludePatterns inputs) in
  match archiveType inputs with
  | zip => ["-r"; archivePath; "."] ++ flat_map (fun pattern => ["-x"; pattern]) patterns
  | tar => ["czf"; archivePath] ++ map (fun pattern => "--exclude=" +:+ pattern) patterns
           ++ ["."]
  end.

Definition createArchive (inputs : CodebaseSnapshotInputs)
    (prContext : PullRequestContext) (snapshotDir : string) : M string :=
  timestamp ← ask now;
  let archiveName := archiveName inputs prContext timestamp in
  archivePath ← ask (fun w _ => path_join w snapshotDir archiveName);
  let command := match archiveType inputs with
                 | zip => "zip"
                 | tar => "tar"
                 end in
  let args := archiveArgs inputs archivePath in
  r ← ask (fun w h => exec w h command args (workspace prContext));
  emit (Exec command args (workspace prContext));;
  match r with
  | inl e => throw e
  | inr exitCode =>
      if negb (exitCode =? 0)%Z then
        throw (Error ("Archiving command '" +:+ command
                      +:+ "' failed with exit code " +:+ Js.num exitCode))
      else
        try_catch
          (stats ← ask (fun w h => statSize w h archivePath);
           match stats with
           | inl e => throw e
           | inr size =>
               if (size =? 0)%N then
                 throw (Error ("Created archive file is empty: " +:+ archivePath))
               else ret tt
           end)
          (fun statError =>
             throw (Error ("Failed to stat created archive file "
                           +:+ quoted archivePath +:+ ": "
                           +:+ error_json statError)));;
        ret archivePath
  end.

(** The body of the [try] once the temporary directory exists. *)
Definition snapshotAndLink (inputs : CodebaseSnapshotInputs)
    (prContext : PullRequestContext) (snapshotDir : string) : M unit :=
  archivePath ← createArchive inputs prContext snapshotDir;
  entityId ← LegacySealApi.findSealEntityId (cs_sealApiBaseUrl inputs)
               (cs_sealApiToken inputs) (prNumber prContext)
               (cs_sealTemplateId inputs);
  let sealFilename := Js.basename archivePath in
  fileId ← LegacySealApi.uploadSealFile (cs_sealApiBaseUrl inputs)
             (cs_sealApiToken inputs) archivePath sealFilename
             (cs_sealFileTypeTitle inputs);
  fileVersion ← SealApi.getSealFileVersion (cs_sealApiBaseUrl inputs)
                  (cs_sealApiToken inputs) fileId;
  let fileReferences := [{| ref_id := fileId; ref_version := fileVersion |}] in
  SealApi.linkFilesToEntityField (cs_sealApiBaseUrl inputs)
    (cs_sealApiToken inputs) entityId (snapshotFieldName inputs) fileReferences.

(** The [finally] block, for a directory that was created. *)
Definition cleanup (snapshotDir : string) : M unit :=
  if Js.is_empty snapshotDir then ret tt
  else
    r ← ask (fun w h => rm w h snapshotDir);
    emit (Rm snapshotDir);;
    match r with
    | Some cleanupError =>
        core_warning ("Failed to remove temporary directory "
                      +:+ quoted snapshotDir +:+ ": " +:+ message cleanupError)
    | None => ret tt
    end.

Definition run : M unit :=
  inputs ← getCodebaseSnapshotInputs;
  prContext ← getPullRequestContext;
  match prContext with
  | None => ret tt
  | Some prContext =>
      made ← ask (fun w h => mkdtemp w h "codebase-snapshot-");
      match made with
      | inl error => setFailedWith error
      | inr snapshotDir =>
          emit (Mkdtemp snapshotDir);;
          try_finally
            (try_catch (snapshotAndLink inputs prContext snapshotDir)
                       setFailedWith)
            (cleanup snapshotDir)
      end
  end.

End CodebaseSnapshot.

(** The events that reach outside the runner: requests, commands and
    file-system changes. *)
Definition is_external (e : Event) : bool :=
  match e with
  | Http _ | Mkdtemp _ | Exec _ _ _ | Rm _ => true
  | Annotation _ _ | SetFailed _ => false
  end.

(** [prepend t p]: the outcome [p] of a continuation, after the events [t]. *)
Definition prepend {A} (t : list Event) (p : list Event * Result A)
    : list Event * Result A :=
  (t ++ fst p, snd p).

(** ** Requests and observations used to state the properties *)

(** The request of [findSealEntity] and [findSealEntityId]. *)
Definition searchRequest (apiUrl : string) (hdrs : gmap string string)
    (prNumber : Z) : AxiosRequestConfig :=
  {| headers := hdrs; method := GET;
     url := SealApi.normalizeApiUrl apiUrl +:+ "entities/search";
     params := [("titleContains", "#" +:+ Js.num prNumber)];
     req_data := NoData |}.

(** An entity whose template id is the given one. *)
Definition hasTemplate (templateId : string) (entity : SealEntityLite) : Prop :=
  SealApi.templateIdOf entity = Some templateId.

#[global] Instance hasTemplate_dec templateId entity :
  Decision (hasTemplate templateId entity).
Proof. unfold hasTemplate. apply _. Defined.

(** How many elements of the search results have the given template id. *)
Fixpoint matchCount (templateId : string) (results : list SealEntityLite) : nat :=
  match results with
  | [] => 0
  | entity :: rest =>
      (if decide (hasTemplate templateId entity) then 1 else 0)
      + matchCount templateId rest
  end.

(** The request of [linkFilesToEntityField]. *)
Definition patchRequest (apiUrl : string) (hdrs : gmap string string)
    (entityId fieldName : string) (fileReferences : list SealFileReference)
    : AxiosRequestConfig :=
  {| headers := hdrs; method := PATCH;
     url := SealApi.normalizeApiUrl apiUrl +:+ "entities/" +:+ entityId
            +:+ "/fields/" +:+ Js.encodeURIComponent fieldName;
     params := [];
     req_data := ValueBody fileReferences |}.

(** The request that archives one entity. *)
Definition archiveRequest (apiUrl : string) (hdrs : gmap string string)
    (entityId : string) : AxiosRequestConfig :=
  {| headers := hdrs; method := POST;
     url := SealApi.normalizeApiUrl apiUrl +:+ "entities/" +:+ entityId +:+ "/archive";
     params := [];
     req_data := NoData |}.

(** The archive requests due for a list of references: one for each
    reference that has an id, in the order of the list. *)
Definition archiveRequestOf (apiUrl : string) (hdrs : gmap string string)
    (ref : SealFileReference) : list AxiosRequestConfig :=
  if Js.is_empty (ref_id ref) then []
  else [archiveRequest apiUrl hdrs (ref_id ref)].

Definition archiveRequests (apiUrl : string) (hdrs : gmap string string)
    (fileRefs : list SealFileReference) : list AxiosRequestConfig :=
  flat_map (archiveRequestOf apiUrl hdrs) fileRefs.

(** An outcome that belongs to the given reference: a reference without an
    id is skipped, any other one succeeds or fails under its own id. *)
Definition outcomeOf (ref : SealFileReference) (o : SealApi.ArchiveOutcome) : Prop :=
  match o with
  | SealApi.Skipped => ref_id ref = ""
  | SealApi.Success id => id = ref_id ref /\ id <> ""
  | SealApi.Failed id _ => id = ref_id ref /\ id <> ""
  | SealApi.RejectedPromise _ => False
  end.

(** A promise that belongs to the given reference. *)
Definition promiseOf (ref : SealFileReference) (p : SealApi.ArchivePromise) : Prop :=
  match p with
  | SealApi.Settled o => outcomeOf ref o
  | SealApi.Pending id _ => id = ref_id ref /\ id <> ""
  end.

(** [sends m reqs]: whatever the world and the history, and whether it
    returns or throws, [m] sends exactly the requests [reqs], in this order. *)
Definition sends {A} (m : M A) (reqs : list AxiosRequestConfig) : Prop :=
  forall w h, http_requests (fst (m w h)) = reqs.

(** The request of [getSealFileVersion]. *)
Definition detailsRequest (apiUrl : string) (hdrs : gmap string string)
    (fileId : string) : AxiosRequestConfig :=
  {| headers := hdrs; method := GET;
     url := SealApi.normalizeApiUrl apiUrl +:+ "entities/" +:+ fileId;
     params := [];
     req_data := NoData |}.

(** The version carried by the outcome of the details request: the one of a
    200 response whose [version] is a number, none otherwise. *)
Definition versionFrom (o : HttpOutcome) : option Z :=
  match o with
  | Responded r =>
      if (status r =? 200)%Z then
        match data_version (data r) with
        | Js.VNum version => Some version
        | _ => None
        end
      else None
  | Rejected _ => None
  end.

(** An event that is not a PATCH with an empty list of references. *)
Definition safeEvent (e : Event) : Prop :=
  match e with
  | Http c => method c = PATCH ->
              exists refs, req_data c = ValueBody refs /\ refs <> []
  | _ => True
  end.

(** [emits m Q]: whatever the world and the history, every event emitted by
    [m] satisfies [Q]. *)
Definition emits {A} (m : M A) (Q : Event -> Prop) : Prop :=
  forall w h, Forall Q (fst (m w h)).

(** [total m P]: whatever the world and the history, [m] returns a value
    (it does not throw), and the value satisfies [P]. *)
Definition total {A} (m : M A) (P : A -> Prop) : Prop :=
  forall w h, exists t a, m w h = (t, Ok a) /\ P a.

(** ** A simulated platform for worked examples *)

Module Scenario.

Definition noData : ResponseData :=
  {| data_json := "{}"; data_nullish := false; data_array := None;
     data_id := None; data_index := Js.VUndefined;
     data_version := Js.VUndefined; data_message := Js.VUndefined |}.

Definition respond (st : Z) (d : ResponseData) : HttpOutcome :=
  Responded {| status := st; statusText := ""; data := d |}.

(** An entity of the given template whose artifact field holds [refs]. *)
Definition entity (id templateId : string) (refs : list SealFileReference)
    : SealEntityLite :=
  {| ent_id := id; ent_title := "Change #7"; ent_version := None;
     ent_sourceInfo := Some {| template := Some {| template_id := Some templateId |} |};
     ent_fields := Some {[ "Release Artifact(s)" :=
                             {| field_type := REFERENCE; value := refs |} ]} |}.

(** What the simulated platform is set up to answer. *)
Record Platform : Type := {
  searchResults : list SealEntityLite;
  uploadStatus : string -> Z;        (* by the [filename] parameter *)
  versionStatus : Z;
  archiveStatus : Z
}.

Definition uploadsSoFar (h : list Event) : nat :=
  length (List.filter (fun c => match req_data c with
                                | FileStream _ => true
                                | _ => false
                                end) (http_requests h)).

Definition filenameOf (c : AxiosRequestConfig) : string :=
  match params c with
  | (_, name) :: _ => name
  | [] => ""
  end.

Definition route (p : Platform) (h : list Event) (c : AxiosRequestConfig)
    : HttpOutcome :=
  match method c with
  | PATCH => respond 200 noData
  | GET =>
      if Js.endsWith (url c) "entities/search" then
        respond 200 {| data_json := "[...]"; data_nullish := false;
                       data_array := Some (searchResults p); data_id := None;
                       data_index := Js.VUndefined; data_version := Js.VUndefined;
                       data_message := Js.VUndefined |}
      else if Js.endsWith (url c) "/change-set" then
        respond 200 {| data_json := "{...}"; data_nullish := false;
                       data_array := None; data_id := Some "cs";
                       data_index := Js.VStr "CS-1"; data_version := Js.VUndefined;
                       data_message := Js.VUndefined |}
      else
        respond (versionStatus p)
                {| data_json := "{...}"; data_nullish := false;
                   data_array := None; data_id := None;
                   data_index := Js.VUndefined; data_version := Js.VNum 3;
                   data_message := Js.VUndefined |}
  | POST =>
      if Js.endsWith (url c) "/files" then
        respond (uploadStatus p (filenameOf c))
                {| data_json := "{...}"; data_nullish := false;
                   data_array := None;
                   data_id := Some ("file-" +:+ pretty (S (uploadsSoFar h)));
                   data_index := Js.VUndefined; data_version := Js.VUndefined;
                   data_message := Js.VUndefined |}
      else if Js.endsWith (url c) "/archive" then respond (archiveStatus p) noData
      else respond 200 noData
  end.

Definition pullRequest : Context :=
  {| eventName := "pull_request";
     payload_pull_request :=
       Some {| pr_number := 7; pr_title := Some "Change";
               pr_head_ref := Some "feature"; pr_base_ref := Some "main" |};
     repo_owner := "opvia"; repo_repo := "demo"; sha := "abc123" |}.

Definition push : Context :=
  {| eventName := "push"; payload_pull_request := None;
     repo_owner := "opvia"; repo_repo := "demo"; sha := "abc123" |}.

Definition inputsOf (name : string) : string :=
  if String.eqb name "seal_api_token" then "tok"
  else if String.eqb name "seal_api_base_url" then "https://seal.test/api"
  else if String.eqb name "seal_template_id" then "tpl"
  else if String.eqb name "artifact_patterns" then "*/README.md"
  else "".

(** A runner on the simulated platform: the event context and the files
    the glob finds. *)
Definition world (p : Platform) (ctx : Context) (files : list string) : World :=
  {| transport := route p;
     hashFile := fun _ _ => inr 305419896%N;
     statSize := fun _ _ => inr 1024%N;
     glob := fun _ _ _ => inr files;
     now := fun _ => 1700000000000%Z;
     mkdtemp := fun _ prefix => inr ("/tmp/" +:+ prefix +:+ "XXXX");
     exec := fun _ _ _ _ => inr 0%Z;
     rm := fun _ _ => None;
     path_join := fun a b => a +:+ "/" +:+ b;
     path_relative := fun _ file => file;
     input := inputsOf;
     context := ctx;
     env_GITHUB_WORKSPACE := Some "/ws" |}.

Definition platform (results : list SealEntityLite) : Platform :=
  {| searchResults := results; uploadStatus := fun _ => 201%Z;
     versionStatus := 200; archiveStatus := 200 |}.

(** The headers sent with the token ["tok"]. *)
Definition hdrs : gmap string string :=
  match SealApi.createApiConfig "tok" ∅ with
  | Ok hdrs => hdrs
  | Throw _ => ∅
  end.

Definition inputs : GithubContext.UploadArtifactsInputs :=
  {| GithubContext.sealApiToken := "tok";
     GithubContext.sealApiBaseUrl := "https://seal.test/api";
     GithubContext.sealTemplateId := "tpl";
     GithubContext.sealFileTypeTitle := "GitHub-Artifacts";
     GithubContext.fieldName := "Release Artifact(s)";
     GithubContext.artifactPatterns := "*/README.md" |}.

Definition prContext : GithubContext.PullRequestContext :=
  {| GithubContext.repoOwner := "opvia"; GithubContext.repoName := "demo";
     GithubContext.prNumber := 7; GithubContext.prTitle := "Change";
     GithubContext.headRef := "feature"; GithubContext.baseRef := "main";
     GithubContext.commitSha := "abc123"; GithubContext.workspace := "/ws" |}.

Definition A : SealFileReference := {| ref_id := "f1"; ref_version := Some 1%Z |}.
Definition B : SealFileReference := {| ref_id := "f2"; ref_version := Some 3%Z |}.
Definition C : SealFileReference := {| ref_id := "f3"; ref_version := None |}.

(** Scenario 1: the search returns two entities, one of the template. *)
Definition oneOfTwo : World :=
  world (platform [entity "E1" "tpl" []; entity "E2" "other" []])
        pullRequest ["/ws/a/README.md"].

(** Scenario 2: the search returns two entities, both of the template. *)
Definition twoMatches : World :=
  world (platform [entity "ENT-A" "tpl" []; entity "ENT-B" "tpl" []])
        pullRequest ["/ws/a/README.md"].

(** Scenario 3: three files, the upload of the second one fails. *)
Definition secondFails : World :=
  world {| searchResults := [entity "E1" "tpl" []];
           uploadStatus := fun name =>
             if String.eqb name "artifact-b.txt-PR7-1700000000000"
             then 500%Z else 201%Z;
           versionStatus := 200; archiveStatus := 200 |}
        pullRequest ["/ws/a.txt"; "/ws/b.txt"; "/ws/c.txt"].

(** Every upload fails. *)
Definition allFail : World :=
  world {| searchResults := [entity "E1" "tpl" []];
           uploadStatus := fun _ => 500%Z;
           versionStatus := 200; archiveStatus := 200 |}
        pullRequest ["/ws/a.txt"; "/ws/b.txt"].

(** Scenario 4: the field holds [A]; one file is uploaded. *)
Definition relink : World :=
  world (platform [entity "E1" "tpl" [A]]) pullRequest ["/ws/a.txt"].

(** Scenario 5: not a pull-request event. *)
Definition onPush : World :=
  world (platform [entity "E1" "tpl" []]) push ["/ws/a.txt"].

(** Scenario 6: the details request is answered with a 404. *)
Definition noVersion : World :=
  world {| searchResults := [entity "E1" "tpl" []];
           uploadStatus := fun _ => 201%Z;
           versionStatus := 404; archiveStatus := 200 |}
        pullRequest ["/ws/a.txt"].

(** No file matches the patterns. *)
Definition noFiles : World :=
  world (platform [entity "E1" "tpl" []]) pullRequest [].

(** Two files that share their base name. *)
Definition readmes : World :=
  world (platform [entity "E1" "tpl" []]) pullRequest
        ["/ws/a/README.md"; "/ws/b/README.md"].

End Scenario.

(** The observations made on the requests of a run. *)
Definition isUpload (c : AxiosRequestConfig) : bool :=
  match req_data c with
  | FileStream _ => true
  | _ => false
  end.

(** The remote names under which a run uploaded its files, in order. *)
Definition uploadedNames (t : list Event) : list string :=
  map Scenario.filenameOf (List.filter isUpload (http_requests t)).

(** ** Further requests of the client *)

(** The request of [getSealEntityChangeSetIndex]. *)
Definition changeSetRequest (apiUrl : string) (hdrs : gmap string string)
    (entityId : string) : AxiosRequestConfig :=
  {| headers := hdrs; method := GET;
     url := SealApi.normalizeApiUrl apiUrl +:+ "entities/" +:+ entityId
            +:+ "/change-set";
     params := [];
     req_data := NoData |}.

(** The request of [addEntityToChangeSet]. *)
Definition addToChangeSetRequest (apiUrl : string) (hdrs : gmap string string)
    (entityIdToAdd changeSetIndex : string) : AxiosRequestConfig :=
  {| headers := hdrs; method := POST;
     url := SealApi.normalizeApiUrl apiUrl +:+ "entities/" +:+ entityIdToAdd
            +:+ "/add-to-change-set";
     params := [];
     req_data := AddToChangeSetBody changeSetIndex |}.

(** The request of [uploadSealFile], current revision. *)
Definition uploadRequest (apiUrl : string) (hdrs : gmap string string)
    (filePath sealFilename fileTypeTitle crc32cHash : string) : AxiosRequestConfig :=
  {| headers := hdrs; method := POST;
     url := SealApi.normalizeApiUrl apiUrl +:+ "files";
     params := [("filename", sealFilename); ("typeTitle", fileTypeTitle);
                ("crc32cHash", crc32cHash)];
     req_data := FileStream filePath |}.

(** The error thrown by the [catch] of the two changeset calls. *)
Definition changeSetError (fn : string) (e : JsError) : JsError :=
  if isAxiosError e then
    Error ("[" +:+ fn +:+ "] API Error: "
           +:+ match response e with
               | Some r => Js.num (status r)
               | None => "Unknown Status"
               end
           +:+ " - "
           +:+ match response e with
               | Some r => if data_nullish (data r) then quoted "No response data"
                           else data_json (data r)
               | None => quoted "No response data"
               end)
  else e.

(** The headers [uploadSealFile] passes to [createApiConfig]. *)
Definition uploadHeaders (fileSizeInBytes : N) : gmap string string :=
  <["Content-Type" := "application/octet-stream"]>
    {["Content-Length" := pretty fileSizeInBytes]}.

(** ** Runners with faults, for worked examples *)

Module Faults.

(** The runner of scenario 4 with another transport. *)
Definition answering (tr : list Event -> AxiosRequestConfig -> HttpOutcome) : World :=
  {| transport := tr;
     hashFile := hashFile Scenario.relink;
     statSize := statSize Scenario.relink;
     glob := glob Scenario.relink;
     now := now Scenario.relink;
     mkdtemp := mkdtemp Scenario.relink;
     exec := exec Scenario.relink;
     rm := rm Scenario.relink;
     path_join := path_join Scenario.relink;
     path_relative := path_relative Scenario.relink;
     input := input Scenario.relink;
     context := context Scenario.relink;
     env_GITHUB_WORKSPACE := env_GITHUB_WORKSPACE Scenario.relink |}.

(** Every request is answered with a 404. *)
Definition notFound : World :=
  answering (fun _ _ => Scenario.respond 404 Scenario.noData).

(** The files cannot be read. *)
Definition unreadable : World :=
  {| transport := transport Scenario.relink;
     hashFile := fun _ _ => inl "ENOENT: no such file or directory";
     statSize := statSize Scenario.relink;
     glob := glob Scenario.relink;
     now := now Scenario.relink;
     mkdtemp := mkdtemp Scenario.relink;
     exec := exec Scenario.relink;
     rm := rm Scenario.relink;
     path_join := path_join Scenario.relink;
     path_relative := path_relative Scenario.relink;
     input := input Scenario.relink;
     context := context Scenario.relink;
     env_GITHUB_WORKSPACE := env_GITHUB_WORKSPACE Scenario.relink |}.

End Faults.

(** The request of [uploadSealFile], older revision: no digest. *)
Definition legacyUploadRequest (apiUrl : string) (hdrs : gmap string string)
    (filePath sealFilename fileTypeTitle : string) : AxiosRequestConfig :=
  {| headers := hdrs; method := POST;
     url := SealApi.normalizeApiUrl apiUrl +:+ "files";
     params := [("filename", sealFilename); ("typeTitle", fileTypeTitle)];
     req_data := FileStream filePath |}.

(** A decimal digit. *)
Definition is_digit (c : ascii) : bool :=
  let n := nat_of_ascii c in ((48 <=? n) && (n <=? 57))%nat.

(** A string of decimal digits. *)
Definition digits (s : string) : Prop :=
  forallb is_digit (list_ascii_of_string s) = true.

(** An event that is not the upload of a file. *)
Definition nonUpload (e : Event) : Prop :=
  match e with
  | Http c => isUpload c = false
  | _ => True
  end.

(** The names the older loop gives to the found files, the counter being
    [uploadCounter] before the first of them. *)
Fixpoint legacyNames (prNumber : Z) (uploadCounter : nat) (foundFiles : list string)
    : list string :=
  match foundFiles with
  | [] => []
  | filePath :: rest =>
      LegacyUploadArtifacts.sealFilename (Js.basename filePath) prNumber
        (S uploadCounter)
      :: legacyNames prNumber (S uploadCounter) rest
  end.

(** * Properties *)

(** ** A small program logic for [M] *)

Section Logic.
Context {A B : Type}.
Implicit Types (Q : Event -> Prop).

Lemma run_bind (m : M A) (k : A -> M B) w h :
  (m ≫= k) w h =
  match m w h with
  | (t1, Ok a) => prepend t1 (k a w (h ++ t1))
  | (t1, Throw e) => (t1, Throw e)
  end.
Proof.
  unfold mbind, M_bind, bind, prepend.
  destruct (m w h) as [t1 [a|e]]; [|reflexivity].
  destruct (k a w (h ++ t1)); reflexivity.
Qed.

Lemma run_try_catch (m : M A) (handler : JsError -> M A) w h :
  try_catch m handler w h =
  match m w h with
  | (t1, Ok a) => (t1, Ok a)
  | (t1, Throw e) => prepend t1 (handler e w (h ++ t1))
  end.
Proof.
  unfold try_catch, prepend.
  destruct (m w h) as [t1 [a|e]]; [reflexivity|].
  destruct (handler e w (h ++ t1)); reflexivity.
Qed.

Lemma bind_ok (m : M A) (k : A -> M B) w h t1 a :
  m w h = (t1, Ok a) -> (m ≫= k) w h = prepend t1 (k a w (h ++ t1)).
Proof. intros H. rewrite run_bind, H. reflexivity. Qed.

Lemma bind_throw (m : M A) (k : A -> M B) w h t1 e :
  m w h = (t1, Throw e) -> (m ≫= k) w h = (t1, Throw e).
Proof. intros H. rewrite run_bind, H. reflexivity. Qed.

Lemma try_catch_ok (m : M A) (handler : JsError -> M A) w h t1 a :
  m w h = (t1, Ok a) -> try_catch m handler w h = (t1, Ok a).
Proof. intros H. rewrite run_try_catch, H. reflexivity. Qed.

Lemma try_catch_throw (m : M A) (handler : JsError -> M A) w h t1 e :
  m w h = (t1, Throw e) ->
  try_catch m handler w h = prepend t1 (handler e w (h ++ t1)).
Proof. intros H. rewrite run_try_catch, H. reflexivity. Qed.

Lemma emits_ret (a : A) Q : emits (mret a) Q.
Proof. intros w h. constructor. Qed.

Lemma emits_throw (e : JsError) Q : emits (throw e : M A) Q.
Proof. intros w h. constructor. Qed.

Lemma emits_lift (r : Result A) Q : emits (lift r) Q.
Proof. intros w h. constructor. Qed.

Lemma emits_ask (f : World -> list Event -> A) Q : emits (ask f) Q.
Proof. intros w h. constructor. Qed.

Lemma emits_bind (m : M A) (k : A -> M B) Q :
  emits m Q -> (forall a, emits (k a) Q) -> emits (m ≫= k) Q.
Proof.
  intros Hm Hk w h. rewrite run_bind.
  specialize (Hm w h). destruct (m w h) as [t1 [a|e]]; simpl in *; [|exact Hm].
  apply Forall_app. split; [exact Hm | apply Hk].
Qed.

Lemma emits_try_catch (m : M A) (handler : JsError -> M A) Q :
  emits m Q -> (forall e, emits (handler e) Q) -> emits (try_catch m handler) Q.
Proof.
  intros Hm Hk w h. rewrite run_try_catch.
  specialize (Hm w h). destruct (m w h) as [t1 [a|e]]; simpl in *; [exact Hm|].
  apply Forall_app. split; [exact Hm | apply Hk].
Qed.

Lemma emits_try_finally (m : M A) (cleanup : M unit) Q :
  emits m Q -> emits cleanup Q -> emits (try_finally m cleanup) Q.
Proof.
  intros Hm Hc w h. unfold try_finally.
  specialize (Hm w h). destruct (m w h) as [t1 r]; simpl in *.
  specialize (Hc w (h ++ t1)).
  destruct (cleanup w (h ++ t1)) as [t2 [[]|e]]; simpl in *;
    apply Forall_app; split; assumption.
Qed.

Lemma total_ret (a : A) (P : A -> Prop) : P a -> total (mret a) P.
Proof. intros Ha w h. exists [], a. split; [reflexivity | exact Ha]. Qed.

Lemma total_bind (m : M A) (k : A -> M B) (P : A -> Prop) (R : B -> Prop) :
  total m P -> (forall a, P a -> total (k a) R) -> total (m ≫= k) R.
Proof.
  intros Hm Hk w h. rewrite run_bind.
  destruct (Hm w h) as (t1 & a & -> & Ha).
  destruct (Hk a Ha w (h ++ t1)) as (t2 & b & Hb & Hr).
  exists (t1 ++ t2), b. rewrite Hb. split; [reflexivity | exact Hr].
Qed.

(** A [try] whose handler returns cannot throw. *)
Lemma total_try_catch (m : M A) (handler : JsError -> M A) (P : A -> Prop) :
  (forall w h t a, m w h = (t, Ok a) -> P a) ->
  (forall e, total (handler e) P) ->
  total (try_catch m handler) P.
Proof.
  intros Hm Hh w h. rewrite run_try_catch.
  destruct (m w h) as [t1 [a|e]] eqn:E.
  - exists t1, a. split; [reflexivity | eapply Hm; exact E].
  - destruct (Hh e w (h ++ t1)) as (t2 & a & Ha & HP).
    exists (t1 ++ t2), a. rewrite Ha. split; [reflexivity | exact HP].
Qed.

End Logic.

Lemma emits_forEach {S A} (body : S -> A -> M S) (Q : Event -> Prop) :
  (forall s x, emits (body s x) Q) -> forall l s, emits (forEach body s l) Q.
Proof.
  intros Hb l. induction l as [|x l IH]; intros s; simpl.
  - apply emits_ret.
  - apply emits_bind; [apply Hb | intros s'; apply IH].
Qed.

Lemma emits_mapM {A B} (f : A -> M B) (Q : Event -> Prop) :
  (forall x, emits (f x) Q) -> forall l, emits (SealApi.mapM f l) Q.
Proof.
  intros Hf l. induction l as [|x l IH]; simpl.
  - intros w h. constructor.
  - intros w h. rewrite run_bind.
    specialize (Hf x w h). destruct (f x w h) as [t1 [y|e]]; simpl in *; [|exact Hf].
    apply Forall_app. split; [exact Hf|].
    rewrite run_bind. specialize (IH w (h ++ t1)).
    destruct (SealApi.mapM f l w (h ++ t1)) as [t2 [ys|e]]; simpl in *; [|exact IH].
    rewrite app_nil_r. exact IH.
Qed.

Lemma axios_eq config w h :
  axios config w h =
  ([Http config],
   match transport w h config with
   | Rejected e => Throw e
   | Responded r =>
       if validateStatus (status r) then Ok r
       else Throw {| message := "Request failed with status code " +:+ Js.num (status r);
                     isAxiosError := true;
                     response := Some r;
                     error_json := "{}" |}
   end).
Proof.
  unfold axios, ask, emit, mbind, M_bind, bind. simpl.
  destruct (transport w h config) as [e|r]; [reflexivity|].
  destruct (validateStatus (status r)); reflexivity.
Qed.

Lemma emits_emit (e : Event) (Q : Event -> Prop) : Q e -> emits (emit e) Q.
Proof. intros He w h. repeat constructor. exact He. Qed.

Lemma total_emit (e : Event) : total (emit e) (fun _ => True).
Proof. intros w h. exists [e], tt. split; [reflexivity | exact I]. Qed.

Lemma is_empty_false (s : string) : s <> "" -> Js.is_empty s = false.
Proof. intros H. unfold Js.is_empty. apply String.eqb_neq. exact H. Qed.

Lemma is_empty_true (s : string) : Js.is_empty s = true -> s = "".
Proof. unfold Js.is_empty. apply String.eqb_eq. Qed.

(** ** The resolver *)

Lemma matches_hasTemplate templateId entity :
  SealApi.matches templateId entity = true <-> hasTemplate templateId entity.
Proof.
  unfold SealApi.matches, hasTemplate.
  destruct (SealApi.templateIdOf entity) as [i|]; [|split; discriminate].
  rewrite String.eqb_eq. split; [intros ->; reflexivity | intros [= ->]; reflexivity].
Qed.

Lemma length_filter_matches templateId results :
  length (List.filter (SealApi.matches templateId) results)
  = matchCount templateId results.
Proof.
  induction results as [|e l IH]; simpl; [reflexivity|].
  destruct (SealApi.matches templateId e) eqn:E; destruct (decide _) as [H|H]; simpl.
  - rewrite IH. reflexivity.
  - apply matches_hasTemplate in E. contradiction.
  - apply matches_hasTemplate in H. congruence.
  - exact IH.
Qed.

(** What [searchMatching] does once the search has returned a list. *)
Lemma searchMatching_results w h fn apiUrl apiToken prNumber templateId hdrs r results :
  SealApi.createApiConfig apiToken ∅ = Ok hdrs ->
  templateId <> "" ->
  transport w h (searchRequest apiUrl hdrs prNumber) = Responded r ->
  status r = 200%Z ->
  data_array (data r) = Some results ->
  SealApi.searchMatching fn apiUrl apiToken prNumber templateId w h =
  let searchTerm := "#" +:+ Js.num prNumber in
  let matching := List.filter (SealApi.matches templateId) results in
  match matching with
  | [] =>
      ([Http (searchRequest apiUrl hdrs prNumber);
        Annotation LError ("[" +:+ fn +:+ "] No entity found matching title "
                           +:+ quoted searchTerm +:+ " and template ID "
                           +:+ quoted templateId +:+ ".")],
       Throw (Error (SealApi.notFoundMessage searchTerm templateId)))
  | [entity] => ([Http (searchRequest apiUrl hdrs prNumber)], Ok [entity])
  | _ :: _ :: _ =>
      ([Http (searchRequest apiUrl hdrs prNumber);
        Annotation LError ("[" +:+ fn +:+ "] Found multiple entities ("
                           +:+ Js.join ", " (map ent_id matching)
                           +:+ ") matching criteria. Cannot proceed.")],
       Throw (Error (SealApi.multipleMessage searchTerm templateId)))
  end.
Proof.
  intros Hcfg Htpl Htr Hst Harr.
  unfold SealApi.searchMatching.
  rewrite (is_empty_false _ Htpl).
  erewrite bind_ok; [|unfold lift; rewrite Hcfg; reflexivity].
  erewrite bind_ok.
  2:{ apply try_catch_ok. rewrite axios_eq, app_nil_r.
      change {| headers := hdrs; method := GET; url := _; params := _; req_data := _ |}
        with (searchRequest apiUrl hdrs prNumber).
      rewrite Htr, Hst. reflexivity. }
  rewrite Hst. cbn [Z.eqb Pos.eqb negb]. rewrite Harr.
  destruct (List.filter (SealApi.matches templateId) results) as [|e [|e' ms]] eqn:E;
    reflexivity.
Qed.

(** Facts on [includes], to read a name off a log line. *)
Lemma prefix_append_l (n h s : string) :
  String.prefix n h = true -> String.prefix n (h +:+ s) = true.
Proof.
  revert h. induction n as [|c n IH]; intros h H.
  - destruct (h +:+ s); reflexivity.
  - destruct h as [|c' h]; simpl in H; [discriminate|].
    simpl. destruct (ascii_dec c c'); [apply IH; exact H | discriminate].
Qed.

Lemma prefix_self_append (n s : string) : String.prefix n (n +:+ s) = true.
Proof.
  induction n as [|c n IH]; simpl.
  - destruct s; reflexivity.
  - destruct (ascii_dec c c); [exact IH | congruence].
Qed.

Lemma includes_unfold (h n : string) :
  Js.includes h n =
  String.prefix n h || match h with
                       | EmptyString => false
                       | String _ h' => Js.includes h' n
                       end.
Proof. destruct h; reflexivity. Qed.

Lemma includes_append_l (h n s : string) :
  Js.includes h n = true -> Js.includes (h +:+ s) n = true.
Proof.
  induction h as [|c h IH]; intros H; rewrite includes_unfold in H.
  - rewrite orb_false_r in H. rewrite includes_unfold.
    rewrite (prefix_append_l _ _ s H). reflexivity.
  - apply orb_true_iff in H. destruct H as [H|H].
    + rewrite includes_unfold, (prefix_append_l _ _ s H). reflexivity.
    + change (String c h +:+ s) with (String c (h +:+ s)).
      rewrite includes_unfold, (IH H). apply orb_true_r.
Qed.

Lemma includes_append_r (h n s : string) :
  Js.includes h n = true -> Js.includes (s +:+ h) n = true.
Proof.
  intros H. induction s as [|c s IH]; [exact H|].
  change (String c s +:+ h) with (String c (s +:+ h)).
  rewrite includes_unfold, IH. apply orb_true_r.
Qed.

Lemma includes_self_append (n s : string) : Js.includes (n +:+ s) n = true.
Proof. rewrite includes_unfold, prefix_self_append. reflexivity. Qed.

Lemma append_empty_r (s : string) : s +:+ "" = s.
Proof.
  induction s as [|c s IH]; [reflexivity|].
  change (String c s +:+ "") with (String c (s +:+ "")). rewrite IH. reflexivity.
Qed.

Lemma includes_join (sep x : string) (l : list string) :
  In x l -> Js.includes (Js.join sep l) x = true.
Proof.
  unfold Js.join. induction l as [|y l IH]; intros Hin; [destruct Hin|].
  destruct Hin as [->|Hin].
  - destruct l as [|z l]; simpl.
    + rewrite <- (append_empty_r x) at 1. apply includes_self_append.
    + apply includes_self_append.
  - destruct l as [|z l]; [destruct Hin|].
    change (String.concat sep (y :: z :: l))
      with (y +:+ sep +:+ String.concat sep (z :: l)).
    apply includes_append_r, includes_append_r, IH, Hin.
Qed.

(** C1: once the search has returned a list, [findSealEntity] returns an
    entity if and only if exactly one element of the list has the given
    template id, and then it is that element; with no such element it throws
    the not-found error, with two or more the multiple-entities error, and
    these are two different errors. *)
Theorem findSealEntity_exactly_one w h apiUrl apiToken prNumber templateId
    hdrs r results :
  SealApi.createApiConfig apiToken ∅ = Ok hdrs ->
  templateId <> "" ->
  transport w h (searchRequest apiUrl hdrs prNumber) = Responded r ->
  status r = 200%Z ->
  data_array (data r) = Some results ->
  let outcome :=
    snd (SealApi.findSealEntity apiUrl apiToken prNumber templateId w h) in
  let searchTerm := "#" +:+ Js.num prNumber in
  let notFound := Error (SealApi.notFoundMessage searchTerm templateId) in
  let ambiguous := Error (SealApi.multipleMessage searchTerm templateId) in
  ((exists entity, outcome = Ok entity) <-> matchCount templateId results = 1)
  /\ (forall entity, outcome = Ok entity ->
        In entity results /\ hasTemplate templateId entity)
  /\ (matchCount templateId results = 0 -> outcome = Throw notFound)
  /\ (2 <= matchCount templateId results -> outcome = Throw ambiguous)
  /\ notFound <> ambiguous.
Proof.
  intros Hcfg Htpl Htr Hst Harr. cbv zeta.
  unfold SealApi.findSealEntity.
  rewrite run_bind,
    (searchMatching_results _ _ _ _ _ _ _ _ _ _ Hcfg Htpl Htr Hst Harr).
  rewrite <- (length_filter_matches templateId results).
  cbv zeta.
  assert (Hne : Error (SealApi.notFoundMessage ("#" +:+ Js.num prNumber) templateId)
                <> Error (SealApi.multipleMessage ("#" +:+ Js.num prNumber) templateId))
    by (intros [=]).
  destruct (List.filter (SealApi.matches templateId) results) as [|e [|e' ms]] eqn:E;
    cbn [length prepend fst snd head mret M_ret ret app].
  - split; [split; [intros [entity H]; discriminate | discriminate]|].
    split; [intros entity H; discriminate|].
    split; [reflexivity|]. split; [lia | exact Hne].
  - assert (He : In e (List.filter (SealApi.matches templateId) results))
      by (rewrite E; left; reflexivity).
    apply filter_In in He. destruct He as [Hin Hm].
    apply matches_hasTemplate in Hm.
    split; [split; [reflexivity | exists e; reflexivity]|].
    split; [intros entity [= <-]; split; assumption|].
    split; [discriminate|]. split; [lia | exact Hne].
  - split; [split; [intros [entity H]; discriminate | discriminate]|].
    split; [intros entity H; discriminate|].
    split; [discriminate|]. split; [reflexivity | exact Hne].
Qed.

(** X22: The same for the older resolver, which returns the id: it also refuses
    a unique match whose id is empty. *)
Lemma findSealEntityId_exactly_one w h apiUrl apiToken prNumber templateId
    hdrs r results :
  SealApi.createApiConfig apiToken ∅ = Ok hdrs ->
  templateId <> "" ->
  transport w h (searchRequest apiUrl hdrs prNumber) = Responded r ->
  status r = 200%Z ->
  data_array (data r) = Some results ->
  let outcome :=
    snd (LegacySealApi.findSealEntityId apiUrl apiToken prNumber templateId w h) in
  forall entityId,
    outcome = Ok entityId <->
    entityId <> "" /\
    exists entity, List.filter (SealApi.matches templateId) results = [entity]
                   /\ ent_id entity = entityId.
Proof.
  intros Hcfg Htpl Htr Hst Harr. cbv zeta. intros entityId.
  unfold LegacySealApi.findSealEntityId.
  rewrite run_bind,
    (searchMatching_results _ _ _ _ _ _ _ _ _ _ Hcfg Htpl Htr Hst Harr).
  cbv zeta.
  destruct (List.filter (SealApi.matches templateId) results) as [|e [|e' ms]] eqn:E;
    cbn [length prepend fst snd head mret M_ret ret app].
  - split; [discriminate | intros [_ (entity & [=] & _)]].
  - destruct (Js.is_empty (ent_id e)) eqn:Hid.
    + apply is_empty_true in Hid. split; [discriminate|].
      intros [Hne (entity & [= <-] & <-)]. contradiction.
    + split.
      * intros [= <-]. split; [|exists e; split; reflexivity].
        intros He. rewrite He in Hid. discriminate.
      * intros [_ (entity & [= <-] & <-)]. reflexivity.
  - split; [discriminate | intros [_ (entity & [=] & _)]].
Qed.

(** C9, as the code has it: when two or more entities match, the ids of the
    matching entities are listed, joined by a comma, in the error annotation
    that [findSealEntity] emits right after the search request; the error it
    then throws carries the message built from the search term and the
    template id alone. *)
Theorem findSealEntity_multiple_logs_ids w h apiUrl apiToken prNumber templateId
    hdrs r results :
  SealApi.createApiConfig apiToken ∅ = Ok hdrs ->
  templateId <> "" ->
  transport w h (searchRequest apiUrl hdrs prNumber) = Responded r ->
  status r = 200%Z ->
  data_array (data r) = Some results ->
  2 <= matchCount templateId results ->
  let ids := map ent_id (List.filter (SealApi.matches templateId) results) in
  let line := "[findSealEntity] Found multiple entities (" +:+ Js.join ", " ids
              +:+ ") matching criteria. Cannot proceed." in
  SealApi.findSealEntity apiUrl apiToken prNumber templateId w h
  = ([Http (searchRequest apiUrl hdrs prNumber); Annotation LError line],
     Throw (Error (SealApi.multipleMessage ("#" +:+ Js.num prNumber) templateId)))
  /\ Forall (fun id => Js.includes line id = true) ids.
Proof.
  intros Hcfg Htpl Htr Hst Harr Hcount. cbv zeta. split.
  - unfold SealApi.findSealEntity.
    rewrite run_bind,
      (searchMatching_results _ _ _ _ _ _ _ _ _ _ Hcfg Htpl Htr Hst Harr).
    rewrite <- (length_filter_matches templateId results) in Hcount.
    cbv zeta.
    destruct (List.filter (SealApi.matches templateId) results) as [|e [|e' ms]];
      simpl in Hcount; try lia.
    reflexivity.
  - apply List.Forall_forall. intros id Hin.
    apply includes_append_r, includes_append_l, includes_join, Hin.
Qed.

(** ** Requests sent *)

Lemma http_requests_app (t1 t2 : list Event) :
  http_requests (t1 ++ t2) = http_requests t1 ++ http_requests t2.
Proof.
  induction t1 as [|e t1 IH]; [reflexivity|].
  destruct e; simpl; rewrite ?IH; reflexivity.
Qed.

Lemma sends_ret {A} (a : A) : sends (mret a) [].
Proof. intros w h. reflexivity. Qed.

Lemma sends_bind {A B} (m : M A) (k : A -> M B) (P : A -> Prop) r1 r2 :
  total m P -> sends m r1 -> (forall a, P a -> sends (k a) r2) ->
  sends (m ≫= k) (r1 ++ r2).
Proof.
  intros Ht Hm Hk w h. rewrite run_bind.
  destruct (Ht w h) as (t1 & a & E & Ha). specialize (Hm w h).
  rewrite E in *. unfold prepend. cbn [fst snd] in *.
  rewrite http_requests_app, Hm, (Hk a Ha). reflexivity.
Qed.

Lemma total_mapM {A B} (f : A -> M B) (R : A -> B -> Prop) :
  (forall x, total (f x) (R x)) -> forall l, total (SealApi.mapM f l) (Forall2 R l).
Proof.
  intros Hf l. induction l as [|x l IH]; cbn [SealApi.mapM].
  - apply total_ret. constructor.
  - eapply total_bind; [apply Hf|]. intros y Hy.
    eapply total_bind; [apply IH|]. intros ys Hys.
    apply total_ret. constructor; assumption.
Qed.

Lemma sends_mapM {A B} (f : A -> M B) (R : A -> B -> Prop)
    (g : A -> list AxiosRequestConfig) :
  (forall x, total (f x) (R x)) -> (forall x, sends (f x) (g x)) ->
  forall l, sends (SealApi.mapM f l) (flat_map g l).
Proof.
  intros Ht Hs l. induction l as [|x l IH]; cbn [SealApi.mapM flat_map].
  - apply sends_ret.
  - eapply sends_bind; [apply Ht | apply Hs |]. intros y _.
    rewrite <- (app_nil_r (flat_map g l)).
    eapply sends_bind; [apply (total_mapM _ _ Ht) | apply IH |].
    intros ys _. apply sends_ret.
Qed.

(** ** Archiving *)

Section Archive.
Variables (apiUrl apiToken : string) (hdrs : gmap string string).
Hypothesis Hcfg : SealApi.createApiConfig apiToken ∅ = Ok hdrs.

Lemma archiveStart_eq ref w h :
  SealApi.archiveStart (SealApi.normalizeApiUrl apiUrl) apiToken ref w h =
  if Js.is_empty (ref_id ref) then
    ([Annotation LWarning ("[archiveEntities] Skipping invalid file reference: "
                           +:+ SealApi.stringify_ref ref)],
     Ok (SealApi.Settled SealApi.Skipped))
  else
    ([Http (archiveRequest apiUrl hdrs (ref_id ref))],
     Ok (SealApi.Pending (ref_id ref)
           (snd (axios (archiveRequest apiUrl hdrs (ref_id ref)) w h)))).
Proof.
  unfold SealApi.archiveStart. destruct (Js.is_empty (ref_id ref)); [reflexivity|].
  rewrite Hcfg.
  change {| headers := hdrs; method := POST; url := _; params := _; req_data := _ |}
    with (archiveRequest apiUrl hdrs (ref_id ref)).
  rewrite run_bind, run_try_catch, run_bind, axios_eq. cbn [fst snd].
  destruct (transport w h _) as [e|r]; [reflexivity|].
  destruct (validateStatus (status r)); reflexivity.
Qed.

Lemma archiveStart_total ref :
  total (SealApi.archiveStart (SealApi.normalizeApiUrl apiUrl) apiToken ref)
        (promiseOf ref).
Proof.
  intros w h. rewrite archiveStart_eq.
  destruct (Js.is_empty (ref_id ref)) eqn:E.
  - eexists _, _. split; [reflexivity|]. apply is_empty_true, E.
  - eexists _, _. split; [reflexivity|]. split; [reflexivity|].
    intros H. rewrite H in E. discriminate.
Qed.

Lemma archiveStart_sends ref :
  sends (SealApi.archiveStart (SealApi.normalizeApiUrl apiUrl) apiToken ref)
        (archiveRequestOf apiUrl hdrs ref).
Proof.
  intros w h. rewrite archiveStart_eq. unfold archiveRequestOf.
  destruct (Js.is_empty (ref_id ref)); reflexivity.
Qed.
End Archive.

(** Settling a promise sends nothing, never throws, and keeps the outcome
    with its reference. *)
Lemma archiveSettle_total p :
  total (SealApi.archiveSettle p) (fun o => forall ref, promiseOf ref p -> outcomeOf ref o).
Proof.
  intros w h. destruct p as [o|id [r|e]]; cbn [SealApi.archiveSettle].
  - eexists _, _. split; [reflexivity|]. intros ref H. exact H.
  - destruct (status r =? 200)%Z.
    + eexists _, _. split; [reflexivity|]. intros ref H. exact H.
    + eexists _, _. split; [reflexivity|]. intros ref H. exact H.
  - destruct (isAxiosError e).
    + eexists _, _. split; [reflexivity|]. intros ref H. exact H.
    + eexists _, _. split; [reflexivity|]. intros ref H. exact H.
Qed.

Lemma archiveSettle_sends p : sends (SealApi.archiveSettle p) [].
Proof.
  intros w h. destruct p as [o|id [r|e]]; cbn [SealApi.archiveSettle].
  - reflexivity.
  - destruct (status r =? 200)%Z; reflexivity.
  - destruct (isAxiosError e); reflexivity.
Qed.

Lemma Forall2_outcomes refs ps os :
  Forall2 promiseOf refs ps ->
  Forall2 (fun p o => forall ref, promiseOf ref p -> outcomeOf ref o) ps os ->
  Forall2 outcomeOf refs os.
Proof.
  intros H. revert os. induction H as [|ref p refs ps Hp _ IH]; intros os Hos.
  - inversion Hos. constructor.
  - inversion Hos as [|? o ? os' Ho Hos']; subst.
    constructor; [apply Ho, Hp | apply IH, Hos'].
Qed.

Lemma flat_map_nil {A B} (l : list A) :
  flat_map (fun _ : A => @nil B) l = [].
Proof. induction l as [|x l IH]; [reflexivity | exact IH]. Qed.

(** With a usable token, [archiveOutcomes] returns one outcome per
    reference, each under its own reference, and sends one request per
    reference that has an id. *)
Lemma archiveOutcomes_total apiUrl apiToken hdrs refs :
  SealApi.createApiConfig apiToken ∅ = Ok hdrs ->
  total (SealApi.archiveOutcomes apiUrl apiToken refs) (Forall2 outcomeOf refs).
Proof.
  intros Hcfg. unfold SealApi.archiveOutcomes.
  eapply total_bind.
  - apply total_mapM. intros ref. apply (archiveStart_total _ _ _ Hcfg).
  - intros ps Hps w h.
    destruct (total_mapM _ _ archiveSettle_total ps w h) as (t & os & E & Hos).
    exists t, os. split; [exact E|]. eapply Forall2_outcomes; eassumption.
Qed.

Lemma archiveOutcomes_sends apiUrl apiToken hdrs refs :
  SealApi.createApiConfig apiToken ∅ = Ok hdrs ->
  sends (SealApi.archiveOutcomes apiUrl apiToken refs)
        (archiveRequests apiUrl hdrs refs).
Proof.
  intros Hcfg. unfold SealApi.archiveOutcomes.
  rewrite <- (app_nil_r (archiveRequests apiUrl hdrs refs)).
  eapply sends_bind.
  - apply total_mapM. intros ref. apply (archiveStart_total _ _ _ Hcfg).
  - unfold archiveRequests. eapply sends_mapM.
    + intros ref. apply (archiveStart_total _ _ _ Hcfg).
    + intros ref. apply (archiveStart_sends _ _ _ Hcfg).
  - intros ps _.
    rewrite <- (flat_map_nil (B := AxiosRequestConfig) ps).
    eapply sends_mapM; [apply archiveSettle_total | intros p; apply archiveSettle_sends].
Qed.

Lemma archiveStart_never_throws baseUrl apiToken ref :
  total (SealApi.archiveStart baseUrl apiToken ref) (fun _ => True).
Proof.
  intros w h. unfold SealApi.archiveStart.
  destruct (Js.is_empty (ref_id ref)); [eexists _, _; split; [reflexivity | exact I]|].
  destruct (SealApi.createApiConfig apiToken ∅) as [hdrs|e];
    [|eexists _, _; split; [reflexivity | exact I]].
  rewrite run_bind, run_try_catch, run_bind, axios_eq. cbn [fst snd].
  destruct (transport w h _) as [e|r]; [eexists _, _; split; [reflexivity | exact I]|].
  destruct (validateStatus (status r)); eexists _, _; split; reflexivity || exact I.
Qed.

(** [archiveEntities] returns, whatever the token, the references and the
    answers of the platform. *)
Lemma archiveEntities_total apiUrl apiToken fileRefs :
  total (SealApi.archiveEntities apiUrl apiToken fileRefs) (fun _ => True).
Proof.
  destruct fileRefs as [[|ref refs]|]; cbn [SealApi.archiveEntities];
    try (apply total_ret; exact I).
  eapply total_bind with (P := fun _ => True); [|intros _ _; apply total_ret; exact I].
  unfold SealApi.archiveOutcomes.
  eapply total_bind with (P := fun _ => True).
  - intros w h.
    destruct (total_mapM _ _ (fun x => archiveStart_never_throws
                (SealApi.normalizeApiUrl apiUrl) apiToken x) (ref :: refs) w h)
      as (t & ps & E & _).
    exists t, ps. split; [exact E | exact I].
  - intros ps _ w h.
    destruct (total_mapM _ _ archiveSettle_total ps w h) as (t & os & E & _).
    exists t, os. split; [exact E | exact I].
Qed.

Lemma archiveEntities_sends apiUrl apiToken hdrs fileRefs :
  SealApi.createApiConfig apiToken ∅ = Ok hdrs ->
  sends (SealApi.archiveEntities apiUrl apiToken fileRefs)
        (archiveRequests apiUrl hdrs (default [] fileRefs)).
Proof.
  intros Hcfg.
  destruct fileRefs as [[|ref refs]|]; cbn [SealApi.archiveEntities default];
    try (intros w h; reflexivity).
  rewrite <- (app_nil_r (archiveRequests _ _ _)).
  eapply sends_bind.
  - apply (archiveOutcomes_total _ _ _ _ Hcfg).
  - apply (archiveOutcomes_sends _ _ _ _ Hcfg).
  - intros os _. apply sends_ret.
Qed.

(** ** Linking *)

(** With no reference to link, nothing is sent. *)
Lemma linkFilesToEntityField_nil apiUrl apiToken entityId fieldName w h :
  SealApi.linkFilesToEntityField apiUrl apiToken entityId fieldName [] w h
  = ([Annotation LWarning
        "[linkFilesToEntityField] No file references provided. Skipping linking."],
     Ok tt).
Proof. reflexivity. Qed.

(** A request guarded by the shared [catch]: the request is sent, and
    nothing else is. *)
Lemma guarded_request config fn prefix withStatus w h :
  exists t r,
    try_catch (axios config) (SealApi.request_failed fn prefix withStatus) w h
    = (Http config :: t, r)
    /\ http_requests t = [].
Proof.
  rewrite run_try_catch, axios_eq.
  assert (Hf : forall e h', exists t e',
             SealApi.request_failed fn prefix withStatus (A := AxiosResponse) e w h'
             = (t, Throw e') /\ http_requests t = []).
  { intros e h'. unfold SealApi.request_failed.
    destruct (isAxiosError e); [destruct withStatus|];
      eexists _, _; split; reflexivity. }
  destruct (transport w h config) as [e|r].
  - destruct (Hf e (h ++ [Http config])) as (t & e' & E & Ht).
    rewrite E. exists t, (Throw e'). split; [reflexivity | exact Ht].
  - destruct (validateStatus (status r)).
    + exists [], (Ok r). split; reflexivity.
    + destruct (Hf {| message := "Request failed with status code "
                                 +:+ Js.num (status r);
                      isAxiosError := true; response := Some r;
                      error_json := "{}" |} (h ++ [Http config]))
        as (t & e' & E & Ht).
      rewrite E. exists t, (Throw e'). split; [reflexivity | exact Ht].
Qed.

(** With references to link and a usable token, exactly one request is sent:
    the PATCH whose body is the given list. *)
Lemma linkFilesToEntityField_sends apiUrl apiToken entityId fieldName hdrs refs :
  SealApi.createApiConfig apiToken ∅ = Ok hdrs ->
  refs <> [] ->
  sends (SealApi.linkFilesToEntityField apiUrl apiToken entityId fieldName refs)
        [patchRequest apiUrl hdrs entityId fieldName refs].
Proof.
  intros Hcfg Hne w h. unfold SealApi.linkFilesToEntityField.
  destruct refs as [|ref refs]; [contradiction|].
  cbn [length Nat.eqb].
  erewrite bind_ok; [|unfold lift; rewrite Hcfg; reflexivity].
  change {| headers := hdrs; method := PATCH; url := _; params := _; req_data := _ |}
    with (patchRequest apiUrl hdrs entityId fieldName (ref :: refs)).
  rewrite run_bind.
  destruct (guarded_request (patchRequest apiUrl hdrs entityId fieldName (ref :: refs))
              "linkFilesToEntityField"
              ("Failed to link files to entity field " +:+ quoted fieldName +:+ ": ")
              false w (h ++ [])) as (t & r & E & Ht).
  rewrite E. unfold prepend. cbn [fst snd app http_requests].
  destruct r as [r|e]; cbn [fst snd http_requests]; [|rewrite Ht; reflexivity].
  rewrite http_requests_app, Ht.
  destruct (negb (status r =? 200)%Z); [reflexivity|].
  destruct (Js.truthy (data_message (data r))); reflexivity.
Qed.

(** Steps 4a and 4b send the archive requests for what the field held, then
    the PATCH with the new references. *)
Lemma archiveAndLink_sends inputs entity hdrs refs :
  SealApi.createApiConfig (GithubContext.sealApiToken inputs) ∅ = Ok hdrs ->
  refs <> [] ->
  sends (UploadArtifacts.archiveAndLink inputs entity refs)
        (archiveRequests (GithubContext.sealApiBaseUrl inputs) hdrs
           (default [] (UploadArtifacts.existingFileRefs entity
                          (GithubContext.fieldName inputs)))
         ++ [patchRequest (GithubContext.sealApiBaseUrl inputs) hdrs (ent_id entity)
               (GithubContext.fieldName inputs) refs]).
Proof.
  intros Hcfg Hne. unfold UploadArtifacts.archiveAndLink.
  eapply sends_bind.
  - apply archiveEntities_total.
  - apply (archiveEntities_sends _ _ _ _ Hcfg).
  - intros _ _. apply (linkFilesToEntityField_sends _ _ _ _ _ _ Hcfg Hne).
Qed.

(** ** The version fetch and the batch loop *)

Lemma bind_inv {A B} (m : M A) (k : A -> M B) w h t b :
  (m ≫= k) w h = (t, Ok b) ->
  exists t1 a t2, m w h = (t1, Ok a) /\ k a w (h ++ t1) = (t2, Ok b) /\ t = t1 ++ t2.
Proof.
  rewrite run_bind. destruct (m w h) as [t1 [a|e]]; [|discriminate].
  unfold prepend. destruct (k a w (h ++ t1)) as [t2 r] eqn:Ek. cbn [fst snd].
  intros [= <- ->]. exists t1, a, t2. split; [reflexivity|]. split; [exact Ek | reflexivity].
Qed.

Lemma getSealFileVersion_eq apiUrl apiToken fileId hdrs w h :
  SealApi.createApiConfig apiToken ∅ = Ok hdrs ->
  exists t,
    SealApi.getSealFileVersion apiUrl apiToken fileId w h
    = (Http (detailsRequest apiUrl hdrs fileId) :: t,
       Ok (versionFrom (transport w h (detailsRequest apiUrl hdrs fileId))))
    /\ http_requests t = [].
Proof.
  intros Hcfg. unfold SealApi.getSealFileVersion.
  erewrite bind_ok; [|unfold lift; rewrite Hcfg; reflexivity].
  change {| headers := hdrs; method := GET; url := _; params := _; req_data := _ |}
    with (detailsRequest apiUrl hdrs fileId).
  rewrite run_bind, run_try_catch, run_bind, axios_eq, app_nil_r.
  unfold prepend, versionFrom. cbn [fst snd app].
  destruct (transport w h _) as [e|r].
  - cbn [fst snd]. destruct (isAxiosError e); eexists; split; reflexivity.
  - destruct (validateStatus (status r)) eqn:Hv.
    + cbn [fst snd mret M_ret ret app].
      destruct (status r =? 200)%Z; cbn [negb].
      * destruct (data_version (data r)); eexists; split; reflexivity.
      * eexists; split; reflexivity.
    + assert (Hs : (status r =? 200)%Z = false).
      { destruct (status r =? 200)%Z eqn:Hs; [|reflexivity].
        apply Z.eqb_eq in Hs. rewrite Hs in Hv. discriminate. }
      rewrite Hs. eexists; split; reflexivity.
Qed.

Section Loop.
Import GithubContext.
Variables (inputs : UploadArtifactsInputs) (prContext : PullRequestContext).

Lemma processingFailed_total acc relativePath fileId e :
  total (UploadArtifacts.processingFailed acc relativePath fileId e)
        (fun acc' => acc' = (fst acc, S (snd acc))).
Proof. intros w h. eexists _, _. split; reflexivity. Qed.

(** One iteration returns, having added either one reference or one
    failure. *)
Lemma processArtifact_total changeSetIndex timestamp acc filePath :
  total (UploadArtifacts.processArtifact inputs prContext changeSetIndex
           timestamp acc filePath)
        (fun acc' => length (fst acc') + snd acc' = S (length (fst acc) + snd acc)).
Proof.
  unfold UploadArtifacts.processArtifact.
  eapply total_bind with (P := fun _ => True);
    [intros w h; eexists _, _; split; [reflexivity | exact I]|].
  intros relativePath _.
  eapply total_bind with (P := fun _ => True).
  { apply total_try_catch; [intros; exact I|].
    intros e. apply total_ret. exact I. }
  intros [error|fileId] _.
  - intros w h.
    destruct (processingFailed_total acc relativePath None error w h)
      as (t & a & E & ->).
    exists t, (fst acc, S (snd acc)). split; [exact E|]. cbn [fst snd]. lia.
  - apply total_try_catch.
    + intros w h t a H.
      apply bind_inv in H. destruct H as (t1 & [] & t2 & _ & H & _).
      apply bind_inv in H. destruct H as (t3 & v & t4 & _ & H & _).
      injection H as _ <-. cbn [fst snd]. rewrite length_app. cbn [length]. lia.
    + intros e w h.
      destruct (processingFailed_total acc relativePath (Some fileId) e w h)
        as (t & a & E & ->).
      exists t, (fst acc, S (snd acc)). split; [exact E|]. cbn [fst snd]. lia.
Qed.

Lemma uploadArtifact_total acc filePath :
  total (LegacyUploadArtifacts.uploadArtifact inputs prContext acc filePath)
        (fun acc' =>
           length (fst (fst acc')) + snd (fst acc')
           = S (length (fst (fst acc)) + snd (fst acc))
           /\ snd acc' = S (snd acc)).
Proof.
  unfold LegacyUploadArtifacts.uploadArtifact.
  destruct acc as [[refs failed] counter].
  apply total_try_catch.
  - intros w h t a H.
    apply bind_inv in H. destruct H as (t1 & fileId & t2 & _ & H & _).
    apply bind_inv in H. destruct H as (t3 & v & t4 & _ & H & _).
    injection H as _ <-. cbn [fst snd]. rewrite length_app. cbn [length].
    split; [lia | reflexivity].
  - intros e w h. eexists _, _. split; [reflexivity|]. cbn [fst snd].
    split; [lia | reflexivity].
Qed.
End Loop.

(** A loop whose body returns and advances a counted invariant runs through
    the whole list. *)
Lemma forEach_total {S A} (body : S -> A -> M S) (I : nat -> S -> Prop) :
  (forall k s x, I k s -> total (body s x) (I (Datatypes.S k))) ->
  forall l k s, I k s -> total (forEach body s l) (I (k + length l)).
Proof.
  intros Hb l. induction l as [|x l IH]; intros k s Hs; cbn [forEach length].
  - rewrite Nat.add_0_r. apply total_ret. exact Hs.
  - eapply total_bind; [apply (Hb k s x Hs)|].
    intros s' Hs'. rewrite <- Nat.add_succ_comm. apply IH. exact Hs'.
Qed.

Lemma processArtifacts_total inputs prContext changeSetIndex timestamp foundFiles :
  total (UploadArtifacts.processArtifacts inputs prContext changeSetIndex timestamp
           foundFiles)
        (fun acc => length (fst acc) + snd acc = length foundFiles).
Proof.
  unfold UploadArtifacts.processArtifacts.
  apply (forEach_total _ (fun k (acc : UploadArtifacts.Acc) =>
                            length (fst acc) + snd acc = k) ) with (k := 0);
    [|reflexivity].
  intros k s x Hs w h.
  destruct (processArtifact_total inputs prContext changeSetIndex timestamp s x w h)
    as (t & a & E & Ha).
  exists t, a. split; [exact E | lia].
Qed.

Lemma uploadArtifacts_total inputs prContext foundFiles :
  total (LegacyUploadArtifacts.uploadArtifacts inputs prContext foundFiles)
        (fun acc => length (fst (fst acc)) + snd (fst acc) = length foundFiles
                    /\ snd acc = length foundFiles).
Proof.
  unfold LegacyUploadArtifacts.uploadArtifacts.
  apply (forEach_total _ (fun k (acc : LegacyUploadArtifacts.Acc) =>
                            length (fst (fst acc)) + snd (fst acc) = k
                            /\ snd acc = k)) with (k := 0);
    [|split; reflexivity].
  intros k s x [H1 H2] w h.
  destruct (uploadArtifact_total inputs prContext s x w h) as (t & a & E & Ha1 & Ha2).
  exists t, a. split; [exact E | split; lia].
Qed.

(** C3: the loop over the found files returns, whatever happens to each
    file, and the references collected plus the failures counted are as many
    as the files; so in both revisions of the action. *)
Theorem batch_loop_counts w h inputs prContext changeSetIndex timestamp foundFiles :
  (exists t refs failures,
     UploadArtifacts.processArtifacts inputs prContext changeSetIndex timestamp
       foundFiles w h = (t, Ok (refs, failures))
     /\ length refs + failures = length foundFiles)
  /\ (exists t refs failures counter,
        LegacyUploadArtifacts.uploadArtifacts inputs prContext foundFiles w h
        = (t, Ok (refs, failures, counter))
        /\ length refs + failures = length foundFiles
        /\ counter = length foundFiles).
Proof.
  split.
  - destruct (processArtifacts_total inputs prContext changeSetIndex timestamp
                foundFiles w h) as (t & [refs failures] & E & Hacc).
    exists t, refs, failures. split; [exact E | exact Hacc].
  - destruct (uploadArtifacts_total inputs prContext foundFiles w h)
      as (t & [[refs failures] counter] & E & Hacc & Hc).
    exists t, refs, failures, counter. repeat split; assumption.
Qed.

(** C6: with a usable token [getSealFileVersion] returns, whatever the
    answer to the details request: the version of a 200 response whose
    [version] is a number, and [null] on a transport error, on another
    status, and on a missing or non-numeric [version]; and in the loop, a
    file that was uploaded and added to the changeset (in the older
    revision: a file that was uploaded) is collected with the version so
    obtained, [null] included. *)
Theorem version_fetch_is_best_effort w h inputs hdrs fileId :
  let apiUrl := GithubContext.sealApiBaseUrl inputs in
  let apiToken := GithubContext.sealApiToken inputs in
  SealApi.createApiConfig apiToken ∅ = Ok hdrs ->
  let outcome := transport w h (detailsRequest apiUrl hdrs fileId) in
  let fetched := snd (SealApi.getSealFileVersion apiUrl apiToken fileId w h) in
  fetched = Ok (versionFrom outcome)
  /\ (forall e, outcome = Rejected e -> fetched = Ok None)
  /\ (forall r, outcome = Responded r -> status r <> 200%Z -> fetched = Ok None)
  /\ (forall r, outcome = Responded r ->
        (forall n, data_version (data r) <> Js.VNum n) -> fetched = Ok None)
  /\ (forall prContext changeSetIndex timestamp acc filePath t1 t2,
        SealApi.uploadSealFile apiUrl apiToken filePath
          (UploadArtifacts.sealFilename (Js.basename filePath)
             (GithubContext.prNumber prContext) timestamp)
          (GithubContext.sealFileTypeTitle inputs) w h = (t1, Ok fileId) ->
        SealApi.addEntityToChangeSet apiUrl apiToken fileId changeSetIndex
          w (h ++ t1) = (t2, Ok tt) ->
        exists t3,
          UploadArtifacts.processArtifact inputs prContext changeSetIndex timestamp
            acc filePath w h
          = (t1 ++ t2 ++ t3,
             Ok (fst acc ++
                 [{| ref_id := fileId;
                     ref_version :=
                       versionFrom (transport w (h ++ t1 ++ t2)
                                      (detailsRequest apiUrl hdrs fileId)) |}],
                 snd acc)))
  /\ (forall prContext refs failures counter filePath t1,
        LegacySealApi.uploadSealFile apiUrl apiToken filePath
          (LegacyUploadArtifacts.sealFilename (Js.basename filePath)
             (GithubContext.prNumber prContext) (S counter))
          (GithubContext.sealFileTypeTitle inputs) w h = (t1, Ok fileId) ->
        exists t3,
          LegacyUploadArtifacts.uploadArtifact inputs prContext
            (refs, failures, counter) filePath w h
          = (t1 ++ t3,
             Ok (refs ++
                 [{| ref_id := fileId;
                     ref_version :=
                       versionFrom (transport w (h ++ t1)
                                      (detailsRequest apiUrl hdrs fileId)) |}],
                 failures, S counter))).
Proof.
  cbv zeta. intros Hcfg.
  destruct (getSealFileVersion_eq (GithubContext.sealApiBaseUrl inputs) _ fileId hdrs
              w h Hcfg) as (t & E & _).
  rewrite E. cbn [snd].
  split; [reflexivity|].
  split; [intros e ->; reflexivity|].
  split.
  { intros r -> Hs. unfold versionFrom.
    destruct (status r =? 200)%Z eqn:Hst; [|reflexivity].
    apply Z.eqb_eq in Hst. contradiction. }
  split.
  { intros r -> Hv. unfold versionFrom.
    destruct (status r =? 200)%Z; [|reflexivity].
    destruct (data_version (data r)) as [| | |n|]; try reflexivity.
    exfalso. apply (Hv n). reflexivity. }
  split.
  2:{ intros prContext refs failures counter filePath t1 Hup.
      destruct (getSealFileVersion_eq (GithubContext.sealApiBaseUrl inputs) _ fileId
                  hdrs w (h ++ t1) Hcfg) as (t3 & E3 & _).
      exists (Http (detailsRequest (GithubContext.sealApiBaseUrl inputs) hdrs fileId)
              :: t3).
      unfold LegacyUploadArtifacts.uploadArtifact.
      erewrite try_catch_ok; [reflexivity|].
      erewrite bind_ok; [|exact Hup].
      erewrite bind_ok; [|exact E3].
      unfold prepend. cbn [fst snd app mret M_ret ret]. rewrite app_nil_r.
      reflexivity. }
  intros prContext changeSetIndex timestamp acc filePath t1 t2 Hup Hadd.
  destruct (getSealFileVersion_eq (GithubContext.sealApiBaseUrl inputs) _ fileId hdrs
              w (h ++ t1 ++ t2) Hcfg) as (t3 & E3 & _).
  exists (Http (detailsRequest (GithubContext.sealApiBaseUrl inputs) hdrs fileId) :: t3).
  unfold UploadArtifacts.processArtifact.
  erewrite bind_ok; [|reflexivity].
  erewrite bind_ok.
  2:{ apply try_catch_ok. erewrite bind_ok; [reflexivity|].
      rewrite app_nil_r. exact Hup. }
  unfold prepend at 2. unfold mret, M_ret, ret at 1. cbn [fst snd].
  rewrite !app_nil_r. cbn [app].
  erewrite try_catch_ok.
  2:{ erewrite bind_ok; [|exact Hadd].
      erewrite bind_ok; [|rewrite <- app_assoc; exact E3].
      reflexivity. }
  unfold prepend. cbn [fst snd app]. rewrite app_nil_r. reflexivity.
Qed.

(** ** The runs *)

Ltac emits_step :=
  first
    [ apply emits_ret | apply emits_throw | apply emits_lift | apply emits_ask
    | apply emits_emit; cbn; try tauto
    | apply emits_bind; [|intros ?]
    | apply emits_try_catch; [|intros ?]
    | match goal with
      | |- emits (if ?b then _ else _) _ => destruct b
      | |- emits (match ?x with _ => _ end) _ => destruct x
      end ].

Ltac emits_auto :=
  unfold core_warning, core_error, core_setFailed; repeat emits_step.

Lemma Forall_False_nil {A} (l : list A) : Forall (fun _ => False) l -> l = [].
Proof. intros H. destruct l as [|x l]; [reflexivity | inversion H; contradiction]. Qed.

Lemma getInput_silent name required : emits (GithubContext.getInput name required) (fun _ => False).
Proof. unfold GithubContext.getInput. emits_auto. Qed.

Lemma getUploadArtifactsInputs_silent :
  emits GithubContext.getUploadArtifactsInputs (fun _ => False).
Proof.
  unfold GithubContext.getUploadArtifactsInputs.
  repeat (apply emits_bind; [apply getInput_silent | intros ?]). apply emits_ret.
Qed.

Lemma getCodebaseSnapshotInputs_silent :
  emits GithubContext.getCodebaseSnapshotInputs (fun _ => False).
Proof.
  unfold GithubContext.getCodebaseSnapshotInputs.
  repeat (apply emits_bind; [apply getInput_silent | intros ?]). emits_auto.
Qed.

(** [getPullRequestContext] only warns. *)
Lemma getPullRequestContext_warns :
  emits GithubContext.getPullRequestContext
        (fun e => is_external e = false /\ is_setFailed e = false).
Proof.
  unfold GithubContext.getPullRequestContext, GithubContext.isPullRequestEvent.
  emits_auto.
Qed.

(** The shape shared by the three [run] functions: read the inputs, read the
    context, stop when there is none. *)
Lemma run_without_context {I} (getInputs : M I)
    (continue : I -> GithubContext.PullRequestContext -> M unit) w h :
  emits getInputs (fun _ => False) ->
  snd (GithubContext.getPullRequestContext w h) = Ok None ->
  let outcome :=
    (inputs ← getInputs;
     prContext ← GithubContext.getPullRequestContext;
     match prContext with
     | None => mret tt
     | Some prContext => continue inputs prContext
     end) w h in
  Forall (fun e => is_external e = false /\ is_setFailed e = false) (fst outcome)
  /\ (forall inputs, snd (getInputs w h) = Ok inputs -> snd outcome = Ok tt).
Proof.
  intros Hsilent Hctx. cbv zeta.
  rewrite run_bind.
  pose proof (Hsilent w h) as Ht0. apply Forall_False_nil in Ht0.
  destruct (getInputs w h) as [t0 [i|e]]; cbn [fst snd] in *; subst t0;
    [|split; [constructor | discriminate]].
  rewrite run_bind, app_nil_r.
  pose proof (getPullRequestContext_warns w h) as Hw.
  destruct (GithubContext.getPullRequestContext w h) as [t1 [[c|]|e]];
    cbn [fst snd] in *; try discriminate.
  unfold prepend. cbn [fst snd app]. rewrite app_nil_r.
  split; [exact Hw | reflexivity].
Qed.

(** C8: when [getPullRequestContext] returns [null], no run of the actions
    sends a request, runs a command, touches the file system or calls
    [core.setFailed]; and the run returns normally once its inputs have been
    read (they are read first, and a required input that is missing throws
    before the context is looked at). *)
Theorem no_pull_request_is_noop w h :
  snd (GithubContext.getPullRequestContext w h) = Ok None ->
  let quiet t := Forall (fun e => is_external e = false /\ is_setFailed e = false) t in
  (quiet (fst (UploadArtifacts.run w h))
   /\ quiet (fst (LegacyUploadArtifacts.run w h))
   /\ quiet (fst (CodebaseSnapshot.run w h)))
  /\ (forall inputs,
        snd (GithubContext.getUploadArtifactsInputs w h) = Ok inputs ->
        snd (UploadArtifacts.run w h) = Ok tt
        /\ snd (LegacyUploadArtifacts.run w h) = Ok tt)
  /\ (forall inputs,
        snd (GithubContext.getCodebaseSnapshotInputs w h) = Ok inputs ->
        snd (CodebaseSnapshot.run w h) = Ok tt).
Proof.
  intros Hctx. cbv zeta.
  pose proof (run_without_context GithubContext.getUploadArtifactsInputs
                (fun inputs prContext =>
                   try_catch (UploadArtifacts.main inputs prContext) setFailedWith)
                w h getUploadArtifactsInputs_silent Hctx) as [Hq1 Hr1].
  pose proof (run_without_context GithubContext.getUploadArtifactsInputs
                (fun inputs prContext =>
                   try_catch (LegacyUploadArtifacts.main inputs prContext) setFailedWith)
                w h getUploadArtifactsInputs_silent Hctx) as [Hq2 Hr2].
  pose proof (run_without_context GithubContext.getCodebaseSnapshotInputs
                (fun inputs prContext =>
                   made ← ask (fun w h => mkdtemp w h "codebase-snapshot-");
                   match made with
                   | inl error => setFailedWith error
                   | inr snapshotDir =>
                       emit (Mkdtemp snapshotDir);;
                       try_finally
                         (try_catch (CodebaseSnapshot.snapshotAndLink inputs prContext
                                       snapshotDir) setFailedWith)
                         (CodebaseSnapshot.cleanup snapshotDir)
                   end)
                w h getCodebaseSnapshotInputs_silent Hctx) as [Hq3 Hr3].
  split; [split; [exact Hq1 | split; [exact Hq2 | exact Hq3]]|].
  split.
  - intros inputs Hin. split; [exact (Hr1 inputs Hin) | exact (Hr2 inputs Hin)].
  - intros inputs Hin. exact (Hr3 inputs Hin).
Qed.

Lemma prepend_nil {A} (p : list Event * Result A) : prepend [] p = p.
Proof. destruct p. reflexivity. Qed.

Lemma prepend_prepend {A} t1 t2 (p : list Event * Result A) :
  prepend t1 (prepend t2 p) = prepend (t1 ++ t2) p.
Proof. unfold prepend. cbn [fst snd]. rewrite app_assoc. reflexivity. Qed.

(** A [try] whose body has got past its first call. *)
Lemma try_catch_bind_ok {A B} (m : M A) (k : A -> M B) handler w h t1 a :
  m w h = (t1, Ok a) ->
  try_catch (m ≫= k) handler w h = prepend t1 (try_catch (k a) handler w (h ++ t1)).
Proof.
  intros H. rewrite !run_try_catch, run_bind, H. unfold prepend.
  destruct (k a w (h ++ t1)) as [t2 [b|e]]; cbn [fst snd]; [reflexivity|].
  rewrite <- !app_assoc. reflexivity.
Qed.

(** The [catch] of [run] sends nothing. *)
Lemma try_catch_setFailed_requests (m : M unit) w h :
  http_requests (fst (try_catch m setFailedWith w h)) = http_requests (fst (m w h)).
Proof.
  rewrite run_try_catch. destruct (m w h) as [t [a|e]]; [reflexivity|].
  unfold prepend. cbn. rewrite http_requests_app. cbn. apply app_nil_r.
Qed.

Lemma silent_result {A} (m : M A) w h a :
  emits m (fun _ => False) -> snd (m w h) = Ok a -> m w h = ([], Ok a).
Proof.
  intros Hs H. pose proof (Hs w h) as Ht. apply Forall_False_nil in Ht.
  destruct (m w h) as [t r]. cbn [fst snd] in *. subst. reflexivity.
Qed.

(** When [getPullRequestContext] returns a context it has emitted nothing. *)
Lemma getPullRequestContext_some w h prContext :
  snd (GithubContext.getPullRequestContext w h) = Ok (Some prContext) ->
  GithubContext.getPullRequestContext w h = ([], Ok (Some prContext)).
Proof.
  unfold GithubContext.getPullRequestContext, GithubContext.isPullRequestEvent,
    mbind, M_bind, bind, ask, mret, M_ret, ret, core_warning, emit.
  cbn.
  repeat match goal with
         | |- context [match ?x with _ => _ end] =>
             lazymatch x with
             | context [match _ with _ => _ end] => fail
             | _ => destruct x; cbn
             end
         end;
    intros H; try discriminate; injection H as <-; reflexivity.
Qed.

Lemma length_eqb_0 {A} (l : list A) : l <> [] -> (length l =? 0)%nat = false.
Proof. destruct l; [contradiction | reflexivity]. Qed.

Section Run.
Import GithubContext.
Variables (w : World) (h : list Event).
Variables (inputs : UploadArtifactsInputs) (prContext : PullRequestContext).
Hypothesis Hinputs : snd (getUploadArtifactsInputs w h) = Ok inputs.
Hypothesis Hcontext : snd (getPullRequestContext w h) = Ok (Some prContext).

Lemma run_main :
  UploadArtifacts.run w h = try_catch (UploadArtifacts.main inputs prContext) setFailedWith w h.
Proof.
  unfold UploadArtifacts.run.
  erewrite bind_ok;
    [|apply silent_result; [apply getUploadArtifactsInputs_silent | exact Hinputs]].
  erewrite bind_ok;
    [|rewrite app_nil_r; apply getPullRequestContext_some; exact Hcontext].
  rewrite !prepend_nil, !app_nil_r. reflexivity.
Qed.

Variable foundFiles : list string.
Hypothesis Hglob :
  glob w h (Js.join newline (Js.split_ws (artifactPatterns inputs)))
       (Some (workspace prContext)) = inr foundFiles.

(** No file found: the run stops there. *)
Lemma run_no_files :
  foundFiles = [] ->
  exists t, UploadArtifacts.run w h = (t, Ok tt)
            /\ Forall (fun e => is_external e = false /\ is_setFailed e = false) t.
Proof.
  intros ->. rewrite run_main. unfold UploadArtifacts.main.
  destruct (length (Js.split_ws (artifactPatterns inputs)) =? 0)%nat.
  - eexists. split; [reflexivity|]. repeat constructor.
  - erewrite try_catch_bind_ok;
      [|unfold globFiles; erewrite bind_ok; [|reflexivity]; rewrite Hglob; reflexivity].
    eexists. split; [reflexivity|]. constructor.
Qed.

Variables (entity : SealEntityLite) (changeSetIndex : string).
Variables (t1 t2 t3 : list Event) (acc : UploadArtifacts.Acc).
Hypothesis Hpatterns : Js.split_ws (artifactPatterns inputs) <> [].
Hypothesis Hfiles : foundFiles <> [].
Hypothesis Hentity :
  SealApi.findSealEntity (sealApiBaseUrl inputs) (sealApiToken inputs)
    (prNumber prContext) (sealTemplateId inputs) w h = (t1, Ok entity).
Hypothesis HchangeSet :
  SealApi.getSealEntityChangeSetIndex (sealApiBaseUrl inputs) (sealApiToken inputs)
    (ent_id entity) w (h ++ t1) = (t2, Ok changeSetIndex).
Hypothesis Hloop :
  UploadArtifacts.processArtifacts inputs prContext changeSetIndex
    (now w (h ++ t1 ++ t2)) foundFiles w (h ++ t1 ++ t2) = (t3, Ok acc).

(** Files found, entity resolved, changeset known, loop done: what is left
    of the run is step 4 under the [catch] of [run]. *)
Lemma run_reaches_linkStep :
  UploadArtifacts.run w h
  = prepend (t1 ++ t2 ++ t3)
      (try_catch (UploadArtifacts.linkStep inputs entity acc) setFailedWith
         w (h ++ t1 ++ t2 ++ t3)).
Proof.
  rewrite run_main. unfold UploadArtifacts.main.
  rewrite (length_eqb_0 _ Hpatterns).
  erewrite try_catch_bind_ok;
    [|unfold globFiles; erewrite bind_ok; [|reflexivity]; rewrite Hglob; reflexivity].
  rewrite (length_eqb_0 _ Hfiles), prepend_nil, !app_nil_r.
  unfold UploadArtifacts.uploadAndLink.
  erewrite try_catch_bind_ok; [|exact Hentity].
  erewrite try_catch_bind_ok; [|exact HchangeSet].
  erewrite try_catch_bind_ok; [|reflexivity].
  erewrite try_catch_bind_ok; [|rewrite app_nil_r, <- app_assoc; exact Hloop].
  rewrite prepend_nil, !prepend_prepend, !app_nil_r, <- !app_assoc.
  reflexivity.
Qed.

(** In a run that gets to link a non-empty list of references, the requests
  after those of the earlier steps are the archive requests for what the
  field held, then the PATCH. *)
Lemma run_link_requests hdrs refs failures :
acc = (refs, failures) ->
refs <> [] ->
SealApi.createApiConfig (sealApiToken inputs) ∅ = Ok hdrs ->
http_requests (fst (UploadArtifacts.run w h))
= http_requests (t1 ++ t2 ++ t3)
  ++ archiveRequests (sealApiBaseUrl inputs) hdrs
       (default [] (UploadArtifacts.existingFileRefs entity (fieldName inputs)))
  ++ [patchRequest (sealApiBaseUrl inputs) hdrs (ent_id entity)
        (fieldName inputs) refs].
Proof.
intros Hacc Hne Hcfg. rewrite run_reaches_linkStep. unfold prepend. cbn [fst].
rewrite http_requests_app, try_catch_setFailed_requests. f_equal.
rewrite Hacc. unfold UploadArtifacts.linkStep. rewrite (length_eqb_0 _ Hne).
apply (archiveAndLink_sends inputs entity hdrs refs Hcfg Hne).
Qed.
End Run.

(** The files of a loop that collected a reference. *)
Lemma loop_files_nonempty w h inputs prContext changeSetIndex timestamp foundFiles
    t refs failures :
  UploadArtifacts.processArtifacts inputs prContext changeSetIndex timestamp
    foundFiles w h = (t, Ok (refs, failures)) ->
  refs <> [] -> foundFiles <> [].
Proof.
  intros Hloop Hne ->. cbn in Hloop. injection Hloop as _ <- _. contradiction.
Qed.

(** C2: when the field held [[A]] and the run collected [[B; C]], the body
    of the PATCH is exactly [{ value: [B, C] }], nothing of the prior value
    being in it; step 4 sends the archive request for [A] (none if [A] has
    no id) and then this PATCH; and these are the last requests of the whole
    run, in this order. *)
Theorem link_replaces_after_archive w h inputs entity hdrs A B C failures :
  SealApi.createApiConfig (GithubContext.sealApiToken inputs) ∅ = Ok hdrs ->
  UploadArtifacts.existingFileRefs entity (GithubContext.fieldName inputs)
  = Some [A] ->
  let apiUrl := GithubContext.sealApiBaseUrl inputs in
  let patch := patchRequest apiUrl hdrs (ent_id entity)
                 (GithubContext.fieldName inputs) [B; C] in
  let archive := if Js.is_empty (ref_id A) then []
                 else [archiveRequest apiUrl hdrs (ref_id A)] in
  req_data patch = ValueBody [B; C]
  /\ (forall h',
        http_requests
          (fst (UploadArtifacts.linkStep inputs entity ([B; C], failures) w h'))
        = archive ++ [patch])
  /\ (forall prContext foundFiles changeSetIndex t1 t2 t3,
        snd (GithubContext.getUploadArtifactsInputs w h) = Ok inputs ->
        snd (GithubContext.getPullRequestContext w h) = Ok (Some prContext) ->
        glob w h
          (Js.join newline (Js.split_ws (GithubContext.artifactPatterns inputs)))
          (Some (GithubContext.workspace prContext)) = inr foundFiles ->
        Js.split_ws (GithubContext.artifactPatterns inputs) <> [] ->
        SealApi.findSealEntity apiUrl (GithubContext.sealApiToken inputs)
          (GithubContext.prNumber prContext) (GithubContext.sealTemplateId inputs)
          w h = (t1, Ok entity) ->
        SealApi.getSealEntityChangeSetIndex apiUrl (GithubContext.sealApiToken inputs)
          (ent_id entity) w (h ++ t1) = (t2, Ok changeSetIndex) ->
        UploadArtifacts.processArtifacts inputs prContext changeSetIndex
          (now w (h ++ t1 ++ t2)) foundFiles w (h ++ t1 ++ t2)
        = (t3, Ok ([B; C], failures)) ->
        http_requests (fst (UploadArtifacts.run w h))
        = http_requests (t1 ++ t2 ++ t3) ++ archive ++ [patch]).
Proof.
  intros Hcfg Hold. cbv zeta.
  assert (Harch : archiveRequests (GithubContext.sealApiBaseUrl inputs) hdrs
                    (default [] (UploadArtifacts.existingFileRefs entity
                                   (GithubContext.fieldName inputs)))
                  = if Js.is_empty (ref_id A) then []
                    else [archiveRequest (GithubContext.sealApiBaseUrl inputs) hdrs
                            (ref_id A)]).
  { rewrite Hold. unfold archiveRequests, archiveRequestOf. simpl.
    destruct (Js.is_empty (ref_id A)); reflexivity. }
  split; [reflexivity|]. split.
  - intros h'. unfold UploadArtifacts.linkStep. cbn [length Nat.eqb].
    rewrite (archiveAndLink_sends inputs entity hdrs [B; C] Hcfg); [|discriminate].
    rewrite Harch. reflexivity.
  - intros prContext foundFiles changeSetIndex t1 t2 t3 Hin Hctx Hglob Hpat Hent Hcs
      Hloop.
    assert (Hfiles : foundFiles <> [])
      by (eapply loop_files_nonempty; [exact Hloop | discriminate]).
    rewrite (run_link_requests w h inputs prContext Hin Hctx foundFiles Hglob entity
               changeSetIndex t1 t2 t3 ([B; C], failures) Hpat Hfiles Hent Hcs Hloop
               hdrs [B; C] failures eq_refl ltac:(discriminate) Hcfg).
    rewrite Harch. reflexivity.
Qed.

(** C7: [archiveEntities] returns whatever the prior references, the token
    and the answers of the platform; with a usable token the outcomes are
    one per reference, each under its own reference (skipped when it has no
    id, success or failure otherwise), and a request is sent for every
    reference that has an id, whatever the other requests came to; and a run
    that has collected references goes on to send the PATCH of the field
    after them. *)
Theorem archiveEntities_never_aborts w h inputs entity refs :
  let apiUrl := GithubContext.sealApiBaseUrl inputs in
  let apiToken := GithubContext.sealApiToken inputs in
  let fieldName := GithubContext.fieldName inputs in
  let prior := UploadArtifacts.existingFileRefs entity fieldName in
  (forall h' old, exists t, SealApi.archiveEntities apiUrl apiToken old w h' = (t, Ok tt))
  /\ (forall hdrs h' old,
        SealApi.createApiConfig apiToken ∅ = Ok hdrs ->
        exists t outcomes,
          SealApi.archiveOutcomes apiUrl apiToken old w h' = (t, Ok outcomes)
          /\ Forall2 outcomeOf old outcomes
          /\ http_requests t = archiveRequests apiUrl hdrs old)
  /\ (forall hdrs prContext foundFiles changeSetIndex t1 t2 t3 failures,
        SealApi.createApiConfig apiToken ∅ = Ok hdrs ->
        refs <> [] ->
        snd (GithubContext.getUploadArtifactsInputs w h) = Ok inputs ->
        snd (GithubContext.getPullRequestContext w h) = Ok (Some prContext) ->
        glob w h
          (Js.join newline (Js.split_ws (GithubContext.artifactPatterns inputs)))
          (Some (GithubContext.workspace prContext)) = inr foundFiles ->
        Js.split_ws (GithubContext.artifactPatterns inputs) <> [] ->
        SealApi.findSealEntity apiUrl apiToken (GithubContext.prNumber prContext)
          (GithubContext.sealTemplateId inputs) w h = (t1, Ok entity) ->
        SealApi.getSealEntityChangeSetIndex apiUrl apiToken (ent_id entity)
          w (h ++ t1) = (t2, Ok changeSetIndex) ->
        UploadArtifacts.processArtifacts inputs prContext changeSetIndex
          (now w (h ++ t1 ++ t2)) foundFiles w (h ++ t1 ++ t2)
        = (t3, Ok (refs, failures)) ->
        http_requests (fst (UploadArtifacts.run w h))
        = http_requests (t1 ++ t2 ++ t3)
          ++ archiveRequests apiUrl hdrs (default [] prior)
          ++ [patchRequest apiUrl hdrs (ent_id entity) fieldName refs]).
Proof.
  cbv zeta. split; [|split].
  - intros h' old.
    destruct (archiveEntities_total (GithubContext.sealApiBaseUrl inputs)
                (GithubContext.sealApiToken inputs) old w h') as (t & [] & E & _).
    exists t. exact E.
  - intros hdrs h' old Hcfg.
    destruct (archiveOutcomes_total (GithubContext.sealApiBaseUrl inputs) _ _ old
                Hcfg w h') as (t & os & E & Hos).
    exists t, os. split; [exact E|]. split; [exact Hos|].
    rewrite <- (archiveOutcomes_sends (GithubContext.sealApiBaseUrl inputs) _ _ old
                  Hcfg w h'), E.
    reflexivity.
  - intros hdrs prContext foundFiles changeSetIndex t1 t2 t3 failures Hcfg Hne Hin
      Hctx Hglob Hpat Hent Hcs Hloop.
    assert (Hfiles : foundFiles <> [])
      by (eapply loop_files_nonempty; [exact Hloop | exact Hne]).
    apply (run_link_requests w h inputs prContext Hin Hctx foundFiles Hglob entity
             changeSetIndex t1 t2 t3 (refs, failures) Hpat Hfiles Hent Hcs Hloop
             hdrs refs failures eq_refl Hne Hcfg).
Qed.

Lemma failed_app t1 t2 : failed (t1 ++ t2) = failed t1 || failed t2.
Proof. unfold failed. apply existsb_app. Qed.

(** C4: in a run that has its inputs and its pull-request context,
    (1) when the glob finds no file the run returns without a request and
    without failure; (2) when the loop ends with no reference and at least
    one failure, the run ends by reporting the failure with
    [core.setFailed], after which nothing is archived or linked. *)
Theorem zero_references_fail_zero_files_noop w h inputs prContext foundFiles :
  snd (GithubContext.getUploadArtifactsInputs w h) = Ok inputs ->
  snd (GithubContext.getPullRequestContext w h) = Ok (Some prContext) ->
  glob w h (Js.join newline (Js.split_ws (GithubContext.artifactPatterns inputs)))
       (Some (GithubContext.workspace prContext)) = inr foundFiles ->
  (foundFiles = [] ->
   exists t, UploadArtifacts.run w h = (t, Ok tt)
             /\ http_requests t = [] /\ failed t = false)
  /\ (forall entity changeSetIndex t1 t2 t3 failures,
        Js.split_ws (GithubContext.artifactPatterns inputs) <> [] ->
        SealApi.findSealEntity (GithubContext.sealApiBaseUrl inputs)
          (GithubContext.sealApiToken inputs) (GithubContext.prNumber prContext)
          (GithubContext.sealTemplateId inputs) w h = (t1, Ok entity) ->
        SealApi.getSealEntityChangeSetIndex (GithubContext.sealApiBaseUrl inputs)
          (GithubContext.sealApiToken inputs) (ent_id entity) w (h ++ t1)
        = (t2, Ok changeSetIndex) ->
        UploadArtifacts.processArtifacts inputs prContext changeSetIndex
          (now w (h ++ t1 ++ t2)) foundFiles w (h ++ t1 ++ t2)
        = (t3, Ok ([], failures)) ->
        0 < failures ->
        UploadArtifacts.run w h
        = (t1 ++ t2 ++ t3
           ++ [SetFailed (pretty failures +:+ " artifact processing step(s) failed.")],
           Ok tt)
        /\ failed (fst (UploadArtifacts.run w h)) = true).
Proof.
  intros Hinputs Hcontext Hglob. split.
  - intros Hnil.
    destruct (run_no_files w h inputs prContext Hinputs Hcontext foundFiles Hglob Hnil)
      as (t & E & Hq).
    exists t. split; [exact E|].
    clear E. induction Hq as [|e t [He1 He2] _ IH]; [split; reflexivity|].
    destruct IH as [IH1 IH2]. destruct e; cbn in *; try discriminate; split; assumption.
  - intros entity changeSetIndex t1 t2 t3 failures Hpat Hent Hcs Hloop Hpos.
    assert (Hfiles : foundFiles <> []).
    { destruct (processArtifacts_total inputs prContext changeSetIndex
                  (now w (h ++ t1 ++ t2)) foundFiles w (h ++ t1 ++ t2))
        as (t & acc & E & Hacc).
      rewrite Hloop in E. injection E as _ <-. cbn [fst snd length] in Hacc.
      intros ->. cbn [length] in Hacc. lia. }
    assert (E : UploadArtifacts.run w h
                = (t1 ++ t2 ++ t3
                   ++ [SetFailed (pretty failures
                                  +:+ " artifact processing step(s) failed.")],
                   Ok tt)).
    { rewrite (run_reaches_linkStep w h inputs prContext Hinputs Hcontext foundFiles
                 Hglob entity changeSetIndex t1 t2 t3 ([], failures) Hpat Hfiles
                 Hent Hcs Hloop).
      unfold UploadArtifacts.linkStep. cbn [length Nat.eqb].
      destruct failures as [|n]; [lia|]. cbn [Nat.ltb Nat.leb].
      unfold prepend. cbn. rewrite <- !app_assoc. reflexivity. }
    split; [exact E|].
    rewrite E. cbn [fst]. rewrite !failed_app. cbn. rewrite !orb_true_r. reflexivity.
Qed.

(** C5, at the input where the code departs from it: two different files of
    one run that share their base name are uploaded under one and the same
    remote name, since the timestamp is read once before the loop; the older
    revision, which numbers the files, gives them different names. *)
Theorem sealFilename_collision :
  "/ws/a/README.md" <> "/ws/b/README.md"
  /\ uploadedNames (fst (UploadArtifacts.run Scenario.readmes []))
     = ["artifact-README.md-PR7-1700000000000";
        "artifact-README.md-PR7-1700000000000"]
  /\ uploadedNames (fst (LegacyUploadArtifacts.run Scenario.readmes []))
     = ["artifact-README.md-pr7-index1"; "artifact-README.md-pr7-index2"].
Proof.
  split; [discriminate|]. split; vm_compute; reflexivity.
Qed.

(** The collision in general: the name depends on the file through its base
    name only. *)
Lemma sealFilename_same_basename file1 file2 prNumber timestamp :
  Js.basename file1 = Js.basename file2 ->
  UploadArtifacts.sealFilename (Js.basename file1) prNumber timestamp
  = UploadArtifacts.sealFilename (Js.basename file2) prNumber timestamp.
Proof. intros ->. reflexivity. Qed.

(** ** No action ever patches a field with an empty list *)

Lemma emits_axios config : safeEvent (Http config) -> emits (axios config) safeEvent.
Proof.
  intros H. unfold axios.
  apply emits_bind; [apply emits_ask | intros outcome].
  apply emits_bind; [apply emits_emit; exact H | intros _].
  destruct outcome as [e|r]; [apply emits_throw|].
  destruct (validateStatus (status r)); [apply emits_ret | apply emits_throw].
Qed.

Ltac safe_step :=
  first
    [ apply emits_axios; cbn; discriminate
    | emits_step ].

Ltac safe_auto :=
  unfold core_warning, core_error, core_setFailed, setFailedWith; repeat safe_step.

Lemma request_failed_safe fn prefix withStatus {A} e :
  emits (SealApi.request_failed fn prefix withStatus (A := A) e) safeEvent.
Proof. unfold SealApi.request_failed. safe_auto. Qed.

Lemma searchMatching_safe fn apiUrl apiToken prNumber templateId :
  emits (SealApi.searchMatching fn apiUrl apiToken prNumber templateId) safeEvent.
Proof.
  unfold SealApi.searchMatching.
  destruct (Js.is_empty templateId); [apply emits_throw|].
  apply emits_bind; [apply emits_lift | intros hdrs].
  apply emits_bind.
  - apply emits_try_catch; [apply emits_axios; cbn; discriminate|].
    intros e. apply request_failed_safe.
  - intros r. safe_auto.
Qed.

Lemma findSealEntity_safe apiUrl apiToken prNumber templateId :
  emits (SealApi.findSealEntity apiUrl apiToken prNumber templateId) safeEvent.
Proof.
  unfold SealApi.findSealEntity.
  apply emits_bind; [apply searchMatching_safe | intros l]. safe_auto.
Qed.

Lemma findSealEntityId_safe apiUrl apiToken prNumber templateId :
  emits (LegacySealApi.findSealEntityId apiUrl apiToken prNumber templateId) safeEvent.
Proof.
  unfold LegacySealApi.findSealEntityId.
  apply emits_bind; [apply searchMatching_safe | intros l]. safe_auto.
Qed.

Lemma changeset_request_failed_safe fn {A} e :
  emits (SealApi.changeset_request_failed fn (A := A) e) safeEvent.
Proof. unfold SealApi.changeset_request_failed. safe_auto. Qed.

Lemma getSealEntityChangeSetIndex_safe apiUrl apiToken entityId :
  emits (SealApi.getSealEntityChangeSetIndex apiUrl apiToken entityId) safeEvent.
Proof.
  unfold SealApi.getSealEntityChangeSetIndex.
  apply emits_bind; [apply emits_lift | intros hdrs].
  apply emits_bind.
  - apply emits_try_catch; [apply emits_axios; cbn; discriminate|].
    intros e. apply changeset_request_failed_safe.
  - intros r. safe_auto.
Qed.

Lemma addEntityToChangeSet_safe apiUrl apiToken entityId changeSetIndex :
  emits (SealApi.addEntityToChangeSet apiUrl apiToken entityId changeSetIndex) safeEvent.
Proof.
  unfold SealApi.addEntityToChangeSet.
  apply emits_bind; [apply emits_lift | intros hdrs].
  apply emits_bind.
  - apply emits_try_catch; [apply emits_axios; cbn; discriminate|].
    intros e. apply changeset_request_failed_safe.
  - intros r. safe_auto.
Qed.

Lemma uploadSealFileWith_safe withCrc apiUrl apiToken filePath sealFilename fileTypeTitle :
  emits (SealApi.uploadSealFileWith withCrc apiUrl apiToken filePath sealFilename
           fileTypeTitle) safeEvent.
Proof.
  unfold SealApi.uploadSealFileWith, SealApi.calculateCRC32CHash.
  apply emits_bind; [safe_auto | intros crc].
  apply emits_bind; [apply emits_ask | intros stats].
  destruct stats as [e|size]; [apply emits_throw|].
  apply emits_bind; [apply emits_lift | intros hdrs].
  apply emits_bind.
  - apply emits_try_catch; [apply emits_axios; cbn; discriminate|].
    intros e. apply request_failed_safe.
  - intros r. safe_auto.
Qed.

Lemma getSealFileVersion_safe apiUrl apiToken fileId :
  emits (SealApi.getSealFileVersion apiUrl apiToken fileId) safeEvent.
Proof. unfold SealApi.getSealFileVersion. safe_auto. Qed.

Lemma linkFilesToEntityField_safe apiUrl apiToken entityId fieldName refs :
  emits (SealApi.linkFilesToEntityField apiUrl apiToken entityId fieldName refs)
        safeEvent.
Proof.
  unfold SealApi.linkFilesToEntityField.
  destruct refs as [|ref refs]; cbn [length Nat.eqb]; [safe_auto|].
  apply emits_bind; [apply emits_lift | intros hdrs].
  apply emits_bind.
  - apply emits_try_catch; [|intros e; apply request_failed_safe].
    apply emits_axios. cbn. intros _. exists (ref :: refs).
    split; [reflexivity | discriminate].
  - intros r. safe_auto.
Qed.

Lemma archiveEntities_safe apiUrl apiToken fileRefs :
  emits (SealApi.archiveEntities apiUrl apiToken fileRefs) safeEvent.
Proof.
  destruct fileRefs as [[|ref refs]|]; cbn [SealApi.archiveEntities];
    try apply emits_ret.
  apply emits_bind; [|intros os; apply emits_ret].
  unfold SealApi.archiveOutcomes.
  apply emits_bind.
  - apply emits_mapM. intros x. unfold SealApi.archiveStart. safe_auto.
  - intros ps. apply emits_mapM. intros p. unfold SealApi.archiveSettle. safe_auto.
Qed.

(** Whatever the world, a PATCH sent by any of the three actions carries a
    list of references that is not empty. *)
Lemma runs_never_patch_empty :
  emits UploadArtifacts.run safeEvent
  /\ emits LegacyUploadArtifacts.run safeEvent
  /\ emits CodebaseSnapshot.run safeEvent.
Proof.
  assert (Hin : emits GithubContext.getUploadArtifactsInputs safeEvent).
  { intros w h. pose proof (getUploadArtifactsInputs_silent w h) as H.
    apply Forall_False_nil in H. rewrite H. constructor. }
  assert (Hsn : emits GithubContext.getCodebaseSnapshotInputs safeEvent).
  { intros w h. pose proof (getCodebaseSnapshotInputs_silent w h) as H.
    apply Forall_False_nil in H. rewrite H. constructor. }
  assert (Hctx : emits GithubContext.getPullRequestContext safeEvent).
  { intros w h. eapply Forall_impl; [apply getPullRequestContext_warns|].
    intros [] [H1 H2]; cbn in *; try discriminate; exact I. }
  assert (Hglob : forall patterns cwd, emits (globFiles patterns cwd) safeEvent).
  { intros patterns cwd. unfold globFiles. safe_auto. }
  split; [|split].
  - unfold UploadArtifacts.run.
    apply emits_bind; [exact Hin | intros inputs].
    apply emits_bind; [exact Hctx | intros [prContext|]]; [|apply emits_ret].
    apply emits_try_catch; [|intros e; safe_auto].
    unfold UploadArtifacts.main.
    destruct (length _ =? 0)%nat; [safe_auto|].
    apply emits_bind; [apply Hglob | intros foundFiles].
    destruct (length _ =? 0)%nat; [apply emits_ret|].
    unfold UploadArtifacts.uploadAndLink.
    apply emits_bind; [apply findSealEntity_safe | intros entity].
    apply emits_bind; [apply getSealEntityChangeSetIndex_safe | intros idx].
    apply emits_bind; [apply emits_ask | intros ts].
    apply emits_bind.
    + unfold UploadArtifacts.processArtifacts. apply emits_forEach.
      intros acc filePath. unfold UploadArtifacts.processArtifact.
      apply emits_bind; [apply emits_ask | intros rel].
      apply emits_bind.
      * apply emits_try_catch; [|intros e; apply emits_ret].
        apply emits_bind; [apply uploadSealFileWith_safe | intros fileId; apply emits_ret].
      * intros [e|fileId]; [unfold UploadArtifacts.processingFailed; safe_auto|].
        apply emits_try_catch;
          [|intros e; unfold UploadArtifacts.processingFailed; safe_auto].
        apply emits_bind; [apply addEntityToChangeSet_safe | intros _].
        apply emits_bind; [apply getSealFileVersion_safe | intros v; apply emits_ret].
    + intros [refs failures]. unfold UploadArtifacts.linkStep.
      destruct (length refs =? 0)%nat; [safe_auto|].
      unfold UploadArtifacts.archiveAndLink.
      apply emits_bind; [apply archiveEntities_safe | intros _].
      apply linkFilesToEntityField_safe.
  - unfold LegacyUploadArtifacts.run.
    apply emits_bind; [exact Hin | intros inputs].
    apply emits_bind; [exact Hctx | intros [prContext|]]; [|apply emits_ret].
    apply emits_try_catch; [|intros e; safe_auto].
    unfold LegacyUploadArtifacts.main.
    destruct (length _ =? 0)%nat; [safe_auto|].
    apply emits_bind; [apply Hglob | intros foundFiles].
    destruct (length _ =? 0)%nat; [apply emits_ret|].
    apply emits_bind; [apply findSealEntityId_safe | intros entityId].
    apply emits_bind.
    + unfold LegacyUploadArtifacts.uploadArtifacts. apply emits_forEach.
      intros [[refs failures] counter] filePath.
      unfold LegacyUploadArtifacts.uploadArtifact.
      apply emits_try_catch; [|intros e; safe_auto].
      apply emits_bind; [apply uploadSealFileWith_safe | intros fileId].
      apply emits_bind; [apply getSealFileVersion_safe | intros v; apply emits_ret].
    + intros [[refs failures] counter].
      destruct (length refs =? 0)%nat; [safe_auto|].
      apply linkFilesToEntityField_safe.
  - unfold CodebaseSnapshot.run.
    apply emits_bind; [exact Hsn | intros inputs].
    apply emits_bind; [exact Hctx | intros [prContext|]]; [|apply emits_ret].
    apply emits_bind; [apply emits_ask | intros [e|snapshotDir]]; [safe_auto|].
    apply emits_bind; [apply emits_emit; exact I | intros _].
    apply emits_try_finally; [|unfold CodebaseSnapshot.cleanup; safe_auto].
    apply emits_try_catch; [|intros e; safe_auto].
    unfold CodebaseSnapshot.snapshotAndLink.
    apply emits_bind; [unfold CodebaseSnapshot.createArchive; safe_auto | intros path].
    apply emits_bind; [apply findSealEntityId_safe | intros entityId].
    apply emits_bind; [apply uploadSealFileWith_safe | intros fileId].
    apply emits_bind; [apply getSealFileVersion_safe | intros v].
    apply linkFilesToEntityField_safe.
Qed.

(** C10: with an empty list of references [linkFilesToEntityField] returns
    without sending anything; and whatever its arguments, a PATCH it sends
    carries the given list, which is then not empty; so no PATCH sent by a
    run of any of the three actions carries an empty list. *)
Theorem linkFilesToEntityField_empty_is_noop w h apiUrl apiToken entityId fieldName :
  snd (SealApi.linkFilesToEntityField apiUrl apiToken entityId fieldName [] w h) = Ok tt
  /\ http_requests
       (fst (SealApi.linkFilesToEntityField apiUrl apiToken entityId fieldName [] w h))
     = []
  /\ (forall refs config,
        In config (http_requests
                     (fst (SealApi.linkFilesToEntityField apiUrl apiToken entityId
                             fieldName refs w h))) ->
        req_data config = ValueBody refs /\ refs <> [])
  /\ Forall safeEvent (fst (UploadArtifacts.run w h))
  /\ Forall safeEvent (fst (LegacyUploadArtifacts.run w h))
  /\ Forall safeEvent (fst (CodebaseSnapshot.run w h)).
Proof.
  split; [reflexivity|]. split; [reflexivity|].
  split;
    [|destruct runs_never_patch_empty as (H1 & H2 & H3);
      split; [apply H1 | split; [apply H2 | apply H3]]].
  intros refs config Hin.
  destruct refs as [|ref refs]; [destruct Hin|].
  destruct (SealApi.createApiConfig apiToken ∅) as [hdrs|e] eqn:Hcfg.
  - rewrite (linkFilesToEntityField_sends _ _ _ _ _ (ref :: refs) Hcfg) in Hin;
      [|discriminate].
    destruct Hin as [<-|[]]. split; [reflexivity | discriminate].
  - unfold SealApi.linkFilesToEntityField in Hin. cbn [length Nat.eqb] in Hin.
    rewrite run_bind in Hin. unfold lift in Hin. rewrite Hcfg in Hin.
    destruct Hin.
Qed.

(** ** Worked examples on the simulated platform *)

(** Scenario 1: one of the two entities is of the template; it is returned. *)
Example scenario_one_of_two :
  snd (SealApi.findSealEntity "https://seal.test/api" "tok" 7 "tpl"
         Scenario.oneOfTwo [])
  = Ok (Scenario.entity "E1" "tpl" []).
Proof. vm_compute. reflexivity. Qed.

(** Scenario 3: three files, the second upload fails: two references, one
    failure, and the two references are linked. *)
Example scenario_second_upload_fails :
  snd (UploadArtifacts.processArtifacts Scenario.inputs Scenario.prContext "CS-1"
         1700000000000 ["/ws/a.txt"; "/ws/b.txt"; "/ws/c.txt"]
         Scenario.secondFails [])
  = Ok ([{| ref_id := "file-1"; ref_version := Some 3%Z |};
         {| ref_id := "file-3"; ref_version := Some 3%Z |}], 1).
Proof. vm_compute. reflexivity. Qed.

(** Scenario 4: the field holds [f1]; in the run, [f1] is archived and then
    the field is patched with the new reference alone. *)
Example scenario_relink :
  map (fun c => (method c, url c, req_data c))
      (http_requests (fst (UploadArtifacts.run Scenario.relink [])))
  = [(GET, "https://seal.test/api/entities/search", NoData);
     (GET, "https://seal.test/api/entities/E1/change-set", NoData);
     (POST, "https://seal.test/api/files", FileStream "/ws/a.txt");
     (POST, "https://seal.test/api/entities/file-1/add-to-change-set",
      AddToChangeSetBody "CS-1");
     (GET, "https://seal.test/api/entities/file-1", NoData);
     (POST, "https://seal.test/api/entities/f1/archive", NoData);
     (PATCH, "https://seal.test/api/entities/E1/fields/Release%20Artifact(s)",
      ValueBody [{| ref_id := "file-1"; ref_version := Some 3%Z |}])].
Proof. vm_compute. reflexivity. Qed.

(** Scenario 5: on a push event the run does nothing. *)
Example scenario_on_push : UploadArtifacts.run Scenario.onPush [] = ([], Ok tt).
Proof. vm_compute. reflexivity. Qed.

(** Scenario 6: the details request fails; the reference is collected with a
    [null] version. *)
Example scenario_no_version :
  snd (UploadArtifacts.processArtifacts Scenario.inputs Scenario.prContext "CS-1"
         1700000000000 ["/ws/a.txt"] Scenario.noVersion [])
  = Ok ([{| ref_id := "file-1"; ref_version := None |}], 0).
Proof. vm_compute. reflexivity. Qed.

(** ** The theorems at concrete inputs *)

Lemma findSealEntity_exactly_one_witness :
  matchCount "tpl" [Scenario.entity "E1" "tpl" []; Scenario.entity "E2" "other" []] = 1
  /\ exists entity,
       snd (SealApi.findSealEntity "https://seal.test/api" "tok" 7 "tpl"
              Scenario.oneOfTwo []) = Ok entity.
Proof.
  split; [reflexivity|].
  apply (proj2 (proj1 (findSealEntity_exactly_one Scenario.oneOfTwo []
                         "https://seal.test/api" "tok" 7 "tpl" Scenario.hdrs
                         {| status := 200; statusText := "";
                            data := {| data_json := "[...]"; data_nullish := false;
                                       data_array := Some [Scenario.entity "E1" "tpl" [];
                                                           Scenario.entity "E2" "other" []];
                                       data_id := None; data_index := Js.VUndefined;
                                       data_version := Js.VUndefined;
                                       data_message := Js.VUndefined |} |}
                         [Scenario.entity "E1" "tpl" []; Scenario.entity "E2" "other" []]
                         eq_refl ltac:(discriminate) eq_refl eq_refl eq_refl))).
  reflexivity.
Defined.

(** C9 as stated fails: with the two matching entities [ENT-A] and [ENT-B],
    the message of the error thrown names neither of them. *)
Lemma multiple_match_message_omits_ids :
  matchCount "tpl" [Scenario.entity "ENT-A" "tpl" []; Scenario.entity "ENT-B" "tpl" []] = 2
  /\ exists e,
       snd (SealApi.findSealEntity "https://seal.test/api" "tok" 7 "tpl"
              Scenario.twoMatches []) = Throw e
       /\ Js.includes (message e) "ENT-A" = false
       /\ Js.includes (message e) "ENT-B" = false.
Proof.
  split; [reflexivity|].
  eexists. split; [vm_compute; reflexivity|].
  split; vm_compute; reflexivity.
Qed.

Lemma findSealEntity_multiple_logs_ids_witness :
  Forall (fun id =>
            Js.includes
              "[findSealEntity] Found multiple entities (ENT-A, ENT-B) matching criteria. Cannot proceed."
              id = true)
         ["ENT-A"; "ENT-B"].
Proof.
  apply (proj2 (findSealEntity_multiple_logs_ids Scenario.twoMatches []
                  "https://seal.test/api" "tok" 7 "tpl" Scenario.hdrs
                  {| status := 200; statusText := "";
                     data := {| data_json := "[...]"; data_nullish := false;
                                data_array := Some [Scenario.entity "ENT-A" "tpl" [];
                                                    Scenario.entity "ENT-B" "tpl" []];
                                data_id := None; data_index := Js.VUndefined;
                                data_version := Js.VUndefined;
                                data_message := Js.VUndefined |} |}
                  [Scenario.entity "ENT-A" "tpl" []; Scenario.entity "ENT-B" "tpl" []]
                  eq_refl ltac:(discriminate) eq_refl eq_refl eq_refl
                  ltac:(vm_compute; lia))).
Defined.

Lemma link_replaces_after_archive_witness :
  map (fun c => (method c, url c, req_data c))
      (http_requests
         (fst (UploadArtifacts.linkStep Scenario.inputs
                 (Scenario.entity "E1" "tpl" [Scenario.A])
                 ([Scenario.B; Scenario.C], 0) Scenario.relink [])))
  = [(POST, "https://seal.test/api/entities/f1/archive", NoData);
     (PATCH, "https://seal.test/api/entities/E1/fields/Release%20Artifact(s)",
      ValueBody [Scenario.B; Scenario.C])].
Proof.
  rewrite (proj1 (proj2 (link_replaces_after_archive Scenario.relink []
                           Scenario.inputs (Scenario.entity "E1" "tpl" [Scenario.A])
                           Scenario.hdrs Scenario.A Scenario.B Scenario.C 0
                           eq_refl eq_refl)) []).
  reflexivity.
Defined.

Lemma zero_references_fail_zero_files_noop_witness :
  (exists t, UploadArtifacts.run Scenario.noFiles [] = (t, Ok tt)
             /\ http_requests t = [] /\ failed t = false)
  /\ failed (fst (UploadArtifacts.run Scenario.allFail [])) = true.
Proof.
  split.
  - apply (proj1 (zero_references_fail_zero_files_noop Scenario.noFiles []
                    Scenario.inputs Scenario.prContext [] eq_refl eq_refl eq_refl)).
    reflexivity.
  - pose (t1 := fst (SealApi.findSealEntity "https://seal.test/api" "tok" 7 "tpl"
                       Scenario.allFail [])).
    pose (t2 := fst (SealApi.getSealEntityChangeSetIndex "https://seal.test/api" "tok"
                       "E1" Scenario.allFail t1)).
    pose (t3 := fst (UploadArtifacts.processArtifacts Scenario.inputs
                       Scenario.prContext "CS-1" 1700000000000
                       ["/ws/a.txt"; "/ws/b.txt"] Scenario.allFail (t1 ++ t2))).
    apply (proj2 (zero_references_fail_zero_files_noop Scenario.allFail []
                    Scenario.inputs Scenario.prContext ["/ws/a.txt"; "/ws/b.txt"]
                    eq_refl eq_refl eq_refl)
             (Scenario.entity "E1" "tpl" []) "CS-1" t1 t2 t3 2).
    + vm_compute. discriminate.
    + vm_compute. reflexivity.
    + vm_compute. reflexivity.
    + vm_compute. reflexivity.
    + lia.
Defined.

Lemma version_fetch_is_best_effort_witness :
  snd (SealApi.getSealFileVersion "https://seal.test/api" "tok" "file-1"
         Scenario.noVersion []) = Ok None.
Proof.
  apply (proj1 (proj2 (proj2 (version_fetch_is_best_effort Scenario.noVersion []
                                Scenario.inputs Scenario.hdrs "file-1" eq_refl)))
           {| status := 404; statusText := "";
              data := {| data_json := "{...}"; data_nullish := false;
                         data_array := None; data_id := None;
                         data_index := Js.VUndefined; data_version := Js.VNum 3;
                         data_message := Js.VUndefined |} |}
           eq_refl).
  discriminate.
Defined.

Lemma archiveEntities_never_aborts_witness :
  exists t outcomes,
    SealApi.archiveOutcomes "https://seal.test/api" "tok"
      [Scenario.A; Scenario.C] Scenario.relink [] = (t, Ok outcomes)
    /\ Forall2 outcomeOf [Scenario.A; Scenario.C] outcomes
    /\ http_requests t
       = archiveRequests "https://seal.test/api" Scenario.hdrs [Scenario.A; Scenario.C].
Proof.
  apply (proj1 (proj2 (archiveEntities_never_aborts Scenario.relink [] Scenario.inputs
                         (Scenario.entity "E1" "tpl" [Scenario.A]) [Scenario.B]))
           Scenario.hdrs [] [Scenario.A; Scenario.C] eq_refl).
Defined.

Lemma no_pull_request_is_noop_witness :
  snd (UploadArtifacts.run Scenario.onPush []) = Ok tt
  /\ snd (LegacyUploadArtifacts.run Scenario.onPush []) = Ok tt.
Proof.
  apply (proj1 (proj2 (no_pull_request_is_noop Scenario.onPush [] eq_refl))
           Scenario.inputs eq_refl).
Defined.

Lemma linkFilesToEntityField_empty_is_noop_witness :
  req_data (patchRequest "https://seal.test/api" Scenario.hdrs "E1"
              "Release Artifact(s)" [Scenario.B]) = ValueBody [Scenario.B]
  /\ [Scenario.B] <> [].
Proof.
  apply (proj1 (proj2 (proj2 (linkFilesToEntityField_empty_is_noop Scenario.relink []
                                "https://seal.test/api" "tok" "E1"
                                "Release Artifact(s)")))
           [Scenario.B]).
  left. reflexivity.
Defined.

(** * Further properties of the code *)

(** * Further properties of the code *)

(** ** URL and headers *)

Lemma length_append (s1 s2 : string) :
  String.length (s1 +:+ s2) = String.length s1 + String.length s2.
Proof.
  induction s1 as [|c s1 IH]; [reflexivity|].
  change (String c s1 +:+ s2) with (String c (s1 +:+ s2)). cbn [String.length].
  rewrite IH. reflexivity.
Qed.

Lemma substring_last_slash (s : string) :
  substring (String.length s) 1 (s +:+ "/") = "/".
Proof.
  induction s as [|c s IH]; [reflexivity|].
  change (String c s +:+ "/") with (String c (s +:+ "/")). cbn [String.length substring].
  exact IH.
Qed.

Lemma endsWith_append_slash (s : string) : Js.endsWith (s +:+ "/") "/" = true.
Proof.
  unfold Js.endsWith. rewrite length_append. cbn [String.length].
  replace (String.length s + 1 - 1) with (String.length s) by lia.
  rewrite substring_last_slash.
  replace (1 <=? String.length s + 1)%nat with true
    by (symmetry; apply Nat.leb_le; lia).
  reflexivity.
Qed.

(** X1: [normalizeApiUrl] returns a URL that ends with a slash: the given one
    when it already does, the given one followed by a slash otherwise; a
    second normalisation changes nothing. *)
Theorem normalizeApiUrl_idempotent url :
  Js.endsWith (SealApi.normalizeApiUrl url) "/" = true
  /\ SealApi.normalizeApiUrl (SealApi.normalizeApiUrl url) = SealApi.normalizeApiUrl url
  /\ (Js.endsWith url "/" = true -> SealApi.normalizeApiUrl url = url)
  /\ (Js.endsWith url "/" = false -> SealApi.normalizeApiUrl url = url +:+ "/").
Proof.
  assert (H : Js.endsWith (SealApi.normalizeApiUrl url) "/" = true).
  { unfold SealApi.normalizeApiUrl. destruct (Js.endsWith url "/") eqn:E;
      [exact E | apply endsWith_append_slash]. }
  split; [exact H|]. split.
  - unfold SealApi.normalizeApiUrl at 1. rewrite H. reflexivity.
  - unfold SealApi.normalizeApiUrl. split; intros ->; reflexivity.
Qed.

Lemma normalizeApiUrl_idempotent_witness :
  SealApi.normalizeApiUrl "https://seal.test/api" = "https://seal.test/api/"
  /\ SealApi.normalizeApiUrl "https://seal.test/api/" = "https://seal.test/api/".
Proof.
  split.
  - apply (proj2 (proj2 (proj2 (normalizeApiUrl_idempotent "https://seal.test/api")))).
    reflexivity.
  - apply (proj1 (proj2 (proj2 (normalizeApiUrl_idempotent "https://seal.test/api/")))).
    reflexivity.
Defined.

(** X2: [createApiConfig] refuses an empty token; otherwise the headers are the
    caller's extra headers, which win, over [Authorization: Bearer <trimmed
    token>], [Content-Type: application/json] and [Accept: application/json]. *)
Theorem createApiConfig_headers apiToken extraHeaders :
  (apiToken = "" ->
   SealApi.createApiConfig apiToken extraHeaders
   = Throw (Error "Seal API token is required."))
  /\ (apiToken <> "" ->
      exists hdrs,
        SealApi.createApiConfig apiToken extraHeaders = Ok hdrs
        /\ (forall k v, extraHeaders !! k = Some v -> hdrs !! k = Some v)
        /\ (extraHeaders !! "Authorization" = None ->
            hdrs !! "Authorization" = Some ("Bearer " +:+ Js.trim apiToken))
        /\ (extraHeaders !! "Content-Type" = None ->
            hdrs !! "Content-Type" = Some "application/json")
        /\ (extraHeaders !! "Accept" = None ->
            hdrs !! "Accept" = Some "application/json")
        /\ (forall k, k <> "Authorization" -> k <> "Content-Type" -> k <> "Accept" ->
                      hdrs !! k = extraHeaders !! k)).
Proof.
  unfold SealApi.createApiConfig. split.
  - intros ->. reflexivity.
  - intros Hne. rewrite (is_empty_false _ Hne). eexists. split; [reflexivity|].
    split; [|split; [|split; [|split]]].
    + intros k v Hk. apply lookup_union_Some_raw. left. exact Hk.
    + intros Hk. rewrite lookup_union_r by exact Hk. apply lookup_insert_eq.
    + intros Hk. rewrite lookup_union_r by exact Hk.
      rewrite lookup_insert_ne by discriminate. apply lookup_insert_eq.
    + intros Hk. rewrite lookup_union_r by exact Hk.
      rewrite !lookup_insert_ne by discriminate. apply lookup_singleton_eq.
    + intros k H1 H2 H3. destruct (extraHeaders !! k) as [v|] eqn:Hk.
      * apply lookup_union_Some_raw. left. exact Hk.
      * rewrite lookup_union_r by exact Hk.
        rewrite !lookup_insert_ne by congruence. apply lookup_singleton_ne. congruence.
Qed.

Lemma createApiConfig_headers_witness :
  exists hdrs,
    SealApi.createApiConfig " tok "
      (<["Content-Type" := "application/octet-stream"]> {["Content-Length" := "10"]})
    = Ok hdrs
    /\ hdrs !! "Content-Type" = Some "application/octet-stream"
    /\ hdrs !! "Authorization" = Some "Bearer tok".
Proof.
  destruct (proj2 (createApiConfig_headers " tok "
                     (<["Content-Type" := "application/octet-stream"]>
                      {["Content-Length" := "10"]}))
              ltac:(discriminate)) as (hdrs & E & Hextra & Hauth & _).
  exists hdrs. split; [exact E|]. split.
  - apply Hextra. reflexivity.
  - rewrite Hauth; reflexivity.
Defined.

(** ** Guards *)

Lemma archiveEntities_empty_token apiUrl fileRefs :
  sends (SealApi.archiveEntities apiUrl "" fileRefs) [].
Proof.
  destruct fileRefs as [[|ref refs]|]; cbn [SealApi.archiveEntities];
    try apply sends_ret.
  assert (Ht : forall x, total (SealApi.archiveStart (SealApi.normalizeApiUrl apiUrl) "" x)
                               (fun _ => True)).
  { intros x. apply archiveStart_never_throws. }
  assert (Hs : forall x, sends (SealApi.archiveStart (SealApi.normalizeApiUrl apiUrl) "" x)
                               []).
  { intros x w h. unfold SealApi.archiveStart.
    destruct (Js.is_empty (ref_id x)); reflexivity. }
  change (@nil AxiosRequestConfig) with ((@nil AxiosRequestConfig) ++ []).
  eapply sends_bind with (P := fun _ => True); [|
    |intros os _; apply sends_ret].
  - intros w h.
    destruct (archiveEntities_total apiUrl "" (Some (ref :: refs)) w h)
      as (t & [] & E & _).
    cbn [SealApi.archiveEntities] in E. apply bind_inv in E.
    destruct E as (t1 & os & t2 & E & _ & _). exists t1, os. split; [exact E | exact I].
  - unfold SealApi.archiveOutcomes.
    change (@nil AxiosRequestConfig) with ((@nil AxiosRequestConfig) ++ []).
    eapply sends_bind with (P := fun _ => True).
    + intros w h. destruct (total_mapM _ _ Ht (ref :: refs) w h) as (t & ps & E & _).
      exists t, ps. split; [exact E | exact I].
    + rewrite <- (flat_map_nil (B := AxiosRequestConfig) (ref :: refs)).
      eapply sends_mapM; [exact Ht | exact Hs].
    + intros ps _. rewrite <- (flat_map_nil (B := AxiosRequestConfig) ps).
      eapply sends_mapM; [apply archiveSettle_total | intros p; apply archiveSettle_sends].
Qed.

(** X3: With an empty token every call of the client throws the token error
    before anything is sent (so does [getSealFileVersion], whose
    configuration is built outside its [try]); [archiveEntities] alone
    returns, having sent nothing. *)
Theorem empty_token_sends_nothing w h apiUrl :
  let tokenRequired := Error "Seal API token is required." in
  (forall prNumber templateId,
     templateId <> "" ->
     SealApi.findSealEntity apiUrl "" prNumber templateId w h = ([], Throw tokenRequired))
  /\ (forall entityId,
        SealApi.getSealEntityChangeSetIndex apiUrl "" entityId w h = ([], Throw tokenRequired))
  /\ (forall entityId changeSetIndex,
        SealApi.addEntityToChangeSet apiUrl "" entityId changeSetIndex w h
        = ([], Throw tokenRequired))
  /\ (forall fileId,
        SealApi.getSealFileVersion apiUrl "" fileId w h = ([], Throw tokenRequired))
  /\ (forall entityId fieldName refs,
        refs <> [] ->
        SealApi.linkFilesToEntityField apiUrl "" entityId fieldName refs w h
        = ([], Throw tokenRequired))
  /\ (forall filePath sealFilename fileTypeTitle,
        http_requests (fst (SealApi.uploadSealFile apiUrl "" filePath sealFilename
                              fileTypeTitle w h)) = []
        /\ forall fileId, snd (SealApi.uploadSealFile apiUrl "" filePath sealFilename
                                 fileTypeTitle w h) <> Ok fileId)
  /\ (forall fileRefs,
        exists t, SealApi.archiveEntities apiUrl "" fileRefs w h = (t, Ok tt)
                  /\ http_requests t = []).
Proof.
  cbv zeta.
  split.
  { intros prNumber templateId Hne.
    unfold SealApi.findSealEntity, SealApi.searchMatching.
    rewrite (is_empty_false _ Hne). reflexivity. }
  split; [reflexivity|]. split; [reflexivity|]. split; [reflexivity|].
  split.
  { intros entityId fieldName refs Hne.
    destruct refs as [|ref refs]; [contradiction | reflexivity]. }
  split.
  { intros filePath sealFilename fileTypeTitle.
    assert (E : exists e, SealApi.uploadSealFile apiUrl "" filePath sealFilename
                            fileTypeTitle w h = ([], Throw e)).
    { unfold SealApi.uploadSealFile, SealApi.uploadSealFileWith,
        SealApi.calculateCRC32CHash, mbind, M_bind, bind, ask, mret, M_ret, ret, throw,
        lift.
      cbn.
      destruct (hashFile w h filePath) as [msg|digest]; [eexists; reflexivity|].
      cbn. destruct (statSize w _ filePath) as [e|size]; eexists; reflexivity. }
    destruct E as [e ->]. split; [reflexivity | discriminate]. }
  intros fileRefs.
  destruct (archiveEntities_total apiUrl "" fileRefs w h) as (t & [] & E & _).
  exists t. split; [exact E|].
  change t with (fst (t, @Ok unit tt)). rewrite <- E.
  apply archiveEntities_empty_token.
Qed.

Lemma empty_token_sends_nothing_witness :
  SealApi.getSealFileVersion "https://seal.test/api" "" "file-1" Scenario.relink []
  = ([], Throw (Error "Seal API token is required."))
  /\ SealApi.linkFilesToEntityField "https://seal.test/api" "" "E1" "F" [Scenario.B]
       Scenario.relink []
     = ([], Throw (Error "Seal API token is required.")).
Proof.
  split.
  - apply (proj1 (proj2 (proj2 (proj2 (empty_token_sends_nothing Scenario.relink []
                                          "https://seal.test/api"))))).
  - apply (proj1 (proj2 (proj2 (proj2 (proj2 (empty_token_sends_nothing Scenario.relink
                                                 [] "https://seal.test/api")))))).
    discriminate.
Defined.

(** ** The calls of the client, one request each *)

(** What the shared [catch] throws. *)
Lemma request_failed_eq fn prefix withStatus {A} e w h :
  exists t,
    SealApi.request_failed fn prefix withStatus (A := A) e w h
    = (t, Throw (Error (prefix +:+ (if isAxiosError e
                                    then "Axios error: " +:+ message e
                                    else message e))))
    /\ http_requests t = [].
Proof.
  unfold SealApi.request_failed.
  destruct (isAxiosError e); [destruct withStatus|]; eexists; split; reflexivity.
Qed.

Lemma changeset_request_failed_eq fn {A} e w h :
  exists t,
    SealApi.changeset_request_failed fn (A := A) e w h
    = (t, Throw (changeSetError fn e))
    /\ http_requests t = [].
Proof.
  unfold SealApi.changeset_request_failed, changeSetError.
  destruct (isAxiosError e); eexists; split; reflexivity.
Qed.

(** A guarded request: it is sent once, and a failure of axios becomes the
    error of the handler. *)
Lemma guarded_result config (handler : JsError -> M AxiosResponse)
    (err : JsError -> JsError) w h :
  (forall e h', exists t, handler e w h' = (t, Throw (err e)) /\ http_requests t = []) ->
  exists t,
    try_catch (axios config) handler w h
    = (Http config :: t,
       match snd (axios config w h) with
       | Ok r => Ok r
       | Throw e => Throw (err e)
       end)
    /\ http_requests t = [].
Proof.
  intros Hh. rewrite run_try_catch, axios_eq. cbn [snd].
  destruct (transport w h config) as [e|r].
  - destruct (Hh e (h ++ [Http config])) as (t & E & Ht). rewrite E.
    exists t. split; [reflexivity | exact Ht].
  - destruct (validateStatus (status r)).
    + exists []. split; reflexivity.
    + match goal with
      | |- context [handler ?e w ?h'] =>
          destruct (Hh e h') as (t & E & Ht); rewrite E
      end.
      exists t. split; [reflexivity | exact Ht].
Qed.

(** What [searchMatching] comes to, for every answer to the search. *)
Lemma searchMatching_summary fn w h apiUrl apiToken prNumber templateId hdrs :
  SealApi.createApiConfig apiToken ∅ = Ok hdrs ->
  templateId <> "" ->
  exists t,
    SealApi.searchMatching fn apiUrl apiToken prNumber templateId w h
    = (Http (searchRequest apiUrl hdrs prNumber) :: t,
       match snd (axios (searchRequest apiUrl hdrs prNumber) w h) with
       | Throw e =>
           Throw (Error ("Failed to search for Seal entity: "
                         +:+ (if isAxiosError e then "Axios error: " +:+ message e
                              else message e)))
       | Ok r =>
           if (status r =? 200)%Z then
             match data_array (data r) with
             | None => Throw (Error "Invalid response format from Seal API search.")
             | Some results =>
                 match List.filter (SealApi.matches templateId) results with
                 | [] => Throw (Error (SealApi.notFoundMessage
                                         ("#" +:+ Js.num prNumber) templateId))
                 | [entity] => Ok [entity]
                 | _ :: _ :: _ =>
                     Throw (Error (SealApi.multipleMessage
                                     ("#" +:+ Js.num prNumber) templateId))
                 end
             end
           else Throw (Error ("Seal API search failed with status "
                              +:+ Js.num (status r) +:+ ": "
                              +:+ data_json (data r)))
       end)
    /\ http_requests t = [].
Proof.
  intros Hcfg Htpl. unfold SealApi.searchMatching.
  rewrite (is_empty_false _ Htpl).
  erewrite bind_ok; [|unfold lift; rewrite Hcfg; reflexivity].
  change {| headers := hdrs; method := GET; url := _; params := _; req_data := _ |}
    with (searchRequest apiUrl hdrs prNumber).
  rewrite prepend_nil, app_nil_r, run_bind.
  destruct (guarded_result (searchRequest apiUrl hdrs prNumber)
              (SealApi.request_failed fn "Failed to search for Seal entity: " false)
              (fun e => Error ("Failed to search for Seal entity: "
                               +:+ (if isAxiosError e
                                    then "Axios error: " +:+ message e
                                    else message e)))
              w h (fun e h' => request_failed_eq _ _ _ e w h')) as (t & E & Ht).
  rewrite E. clear E.
  destruct (snd (axios (searchRequest apiUrl hdrs prNumber) w h)) as [r|e];
    [|exists t; split; [reflexivity | exact Ht]].
  unfold prepend.
  destruct (status r =? 200)%Z; cbn [negb].
  - destruct (data_array (data r)) as [results|].
    + destruct (List.filter (SealApi.matches templateId) results) as [|e1 [|e2 l]];
        eexists; (split; [cbn; reflexivity|]); rewrite ?app_nil_r; cbn;
        rewrite ?http_requests_app, ?Ht; reflexivity.
    + eexists. split; [cbn; reflexivity|]. cbn. rewrite http_requests_app, Ht.
      reflexivity.
  - eexists. split; [cbn; reflexivity|]. cbn. rewrite http_requests_app, Ht.
    reflexivity.
Qed.

(** X4: [findSealEntity] sends its search once, whatever comes back, and every
    answer other than a 200 with an array makes it throw: a failure of the
    transport, another status, a body that is not an array. *)
Theorem findSealEntity_failure_modes w h apiUrl apiToken prNumber templateId hdrs :
  SealApi.createApiConfig apiToken ∅ = Ok hdrs ->
  templateId <> "" ->
  let req := searchRequest apiUrl hdrs prNumber in
  let run := SealApi.findSealEntity apiUrl apiToken prNumber templateId w h in
  http_requests (fst run) = [req]
  /\ (forall e,
        snd (axios req w h) = Throw e ->
        snd run = Throw (Error ("Failed to search for Seal entity: "
                                +:+ (if isAxiosError e
                                     then "Axios error: " +:+ message e
                                     else message e))))
  /\ (forall r,
        snd (axios req w h) = Ok r -> status r <> 200%Z ->
        snd run = Throw (Error ("Seal API search failed with status "
                                +:+ Js.num (status r) +:+ ": "
                                +:+ data_json (data r))))
  /\ (forall r,
        snd (axios req w h) = Ok r -> status r = 200%Z ->
        data_array (data r) = None ->
        snd run = Throw (Error "Invalid response format from Seal API search.")).
Proof.
  intros Hcfg Htpl. cbv zeta.
  unfold SealApi.findSealEntity. rewrite run_bind.
  destruct (searchMatching_summary "findSealEntity" w h apiUrl apiToken prNumber
              templateId hdrs Hcfg Htpl) as (t & E & Ht).
  rewrite E. clear E.
  destruct (snd (axios (searchRequest apiUrl hdrs prNumber) w h)) as [r|e].
  - destruct (status r =? 200)%Z eqn:Hst.
    + apply Z.eqb_eq in Hst.
      destruct (data_array (data r)) as [results|] eqn:Harr.
      * destruct (List.filter (SealApi.matches templateId) results) as [|e1 [|e2 l]];
          (split; [cbn; rewrite ?app_nil_r, ?Ht; reflexivity|]);
          (split; [discriminate|]);
          (split; [intros r' [= <-] Hr; contradiction|]);
          intros r' [= <-] _ Hn; congruence.
      * split; [cbn; rewrite Ht; reflexivity|].
        split; [discriminate|].
        split; [intros r' [= <-] Hr; contradiction|]. reflexivity.
    + apply Z.eqb_neq in Hst.
      split; [cbn; rewrite Ht; reflexivity|].
      split; [discriminate|].
      split; [intros r' [= <-] _; reflexivity|].
      intros r' [= <-] Hr. contradiction.
  - split; [cbn; rewrite Ht; reflexivity|].
    split; [intros e' [= <-]; reflexivity|].
    split; discriminate.
Qed.

Ltac summary_done Ht :=
  eexists; (split; [cbn; reflexivity|]); cbn;
  rewrite ?app_nil_r, ?http_requests_app, ?Ht; reflexivity.

Lemma getSealEntityChangeSetIndex_summary w h apiUrl apiToken entityId hdrs :
  SealApi.createApiConfig apiToken ∅ = Ok hdrs ->
  let fn := "getSealEntityChangeSetIndex" in
  exists t,
    SealApi.getSealEntityChangeSetIndex apiUrl apiToken entityId w h
    = (Http (changeSetRequest apiUrl hdrs entityId) :: t,
       match snd (axios (changeSetRequest apiUrl hdrs entityId) w h) with
       | Throw e => Throw (changeSetError fn e)
       | Ok r =>
           if (status r =? 200)%Z then
             match data_index (data r) with
             | Js.VStr changeSetIndex =>
                 if Js.is_empty changeSetIndex
                 then Throw (Error ("[" +:+ fn +:+ "] Missing or invalid changeset index in API response."))
                 else Ok changeSetIndex
             | _ => Throw (Error ("[" +:+ fn +:+ "] Missing or invalid changeset index in API response."))
             end
           else Throw (Error ("[" +:+ fn +:+ "] API Error: " +:+ Js.num (status r)
                              +:+ " - " +:+ data_json (data r)))
       end)
    /\ http_requests t = [].
Proof.
  intros Hcfg. cbv zeta. unfold SealApi.getSealEntityChangeSetIndex.
  erewrite bind_ok; [|unfold lift; rewrite Hcfg; reflexivity].
  change {| headers := hdrs; method := GET; url := _; params := _; req_data := _ |}
    with (changeSetRequest apiUrl hdrs entityId).
  rewrite prepend_nil, app_nil_r, run_bind.
  destruct (guarded_result (changeSetRequest apiUrl hdrs entityId)
              (SealApi.changeset_request_failed "getSealEntityChangeSetIndex")
              (changeSetError "getSealEntityChangeSetIndex")
              w h (fun e h' => changeset_request_failed_eq _ e w h')) as (t & E & Ht).
  rewrite E. clear E.
  destruct (snd (axios (changeSetRequest apiUrl hdrs entityId) w h)) as [r|e];
    [|exists t; split; [reflexivity | exact Ht]].
  unfold prepend.
  destruct (status r =? 200)%Z; cbn [negb]; [|summary_done Ht].
  destruct (data_index (data r)) as [| | | |idx]; try summary_done Ht.
  destruct (Js.is_empty idx); summary_done Ht.
Qed.

(** X5: [getSealEntityChangeSetIndex] sends one request and returns an index
    exactly when the answer is a 200 whose [index] is a non-empty string;
    then it returns that string. *)
Theorem getSealEntityChangeSetIndex_returns_iff w h apiUrl apiToken entityId hdrs :
  SealApi.createApiConfig apiToken ∅ = Ok hdrs ->
  let req := changeSetRequest apiUrl hdrs entityId in
  let run := SealApi.getSealEntityChangeSetIndex apiUrl apiToken entityId w h in
  http_requests (fst run) = [req]
  /\ forall changeSetIndex,
       snd run = Ok changeSetIndex <->
       exists r, snd (axios req w h) = Ok r /\ status r = 200%Z
                 /\ data_index (data r) = Js.VStr changeSetIndex
                 /\ changeSetIndex <> "".
Proof.
  intros Hcfg. cbv zeta.
  destruct (getSealEntityChangeSetIndex_summary w h apiUrl apiToken entityId hdrs Hcfg)
    as (t & E & Ht).
  rewrite E. cbn [fst snd http_requests]. rewrite Ht. split; [reflexivity|].
  intros idx.
  destruct (snd (axios (changeSetRequest apiUrl hdrs entityId) w h)) as [r|e].
  - destruct (status r =? 200)%Z eqn:Hst.
    + apply Z.eqb_eq in Hst.
      destruct (data_index (data r)) as [| | | |s] eqn:Hidx;
        try (split; [discriminate | intros (r' & [= <-] & _ & Hi & _); congruence]).
      destruct (Js.is_empty s) eqn:Hs.
      * apply is_empty_true in Hs. subst s.
        split; [discriminate | intros (r' & [= <-] & _ & Hi & Hne); congruence].
      * split.
        -- intros [= <-]. exists r. repeat split; try assumption.
           intros ->. discriminate.
        -- intros (r' & [= <-] & _ & Hi & _). congruence.
    + apply Z.eqb_neq in Hst.
      split; [discriminate | intros (r' & [= <-] & Hs & _); contradiction].
  - split; [discriminate | intros (r' & [=] & _)].
Qed.

Lemma addEntityToChangeSet_summary w h apiUrl apiToken entityId changeSetIndex hdrs :
  SealApi.createApiConfig apiToken ∅ = Ok hdrs ->
  let fn := "addEntityToChangeSet" in
  let req := addToChangeSetRequest apiUrl hdrs entityId changeSetIndex in
  exists t,
    SealApi.addEntityToChangeSet apiUrl apiToken entityId changeSetIndex w h
    = (Http req :: t,
       match snd (axios req w h) with
       | Throw e => Throw (changeSetError fn e)
       | Ok r =>
           if (status r =? 200)%Z then Ok tt
           else Throw (Error ("[" +:+ fn +:+ "] API Error: " +:+ Js.num (status r)
                              +:+ " - " +:+ data_json (data r)))
       end)
    /\ http_requests t = [].
Proof.
  intros Hcfg. cbv zeta. unfold SealApi.addEntityToChangeSet.
  erewrite bind_ok; [|unfold lift; rewrite Hcfg; reflexivity].
  change {| headers := hdrs; method := POST; url := _; params := _; req_data := _ |}
    with (addToChangeSetRequest apiUrl hdrs entityId changeSetIndex).
  rewrite prepend_nil, app_nil_r, run_bind.
  destruct (guarded_result (addToChangeSetRequest apiUrl hdrs entityId changeSetIndex)
              (SealApi.changeset_request_failed "addEntityToChangeSet")
              (changeSetError "addEntityToChangeSet")
              w h (fun e h' => changeset_request_failed_eq _ e w h')) as (t & E & Ht).
  rewrite E. clear E.
  destruct (snd (axios _ w h)) as [r|e];
    [|exists t; split; [reflexivity | exact Ht]].
  unfold prepend.
  destruct (status r =? 200)%Z; cbn [negb]; summary_done Ht.
Qed.

(** X6: [addEntityToChangeSet] sends one POST whose body is the changeset index
    and returns exactly when the answer is a 200; a 201 or a 204 is an
    error. *)
Theorem addEntityToChangeSet_returns_iff w h apiUrl apiToken entityId changeSetIndex
    hdrs :
  SealApi.createApiConfig apiToken ∅ = Ok hdrs ->
  let req := addToChangeSetRequest apiUrl hdrs entityId changeSetIndex in
  let run := SealApi.addEntityToChangeSet apiUrl apiToken entityId changeSetIndex w h in
  http_requests (fst run) = [req]
  /\ req_data req = AddToChangeSetBody changeSetIndex
  /\ (snd run = Ok tt <-> exists r, snd (axios req w h) = Ok r /\ status r = 200%Z).
Proof.
  intros Hcfg. cbv zeta.
  destruct (addEntityToChangeSet_summary w h apiUrl apiToken entityId changeSetIndex
              hdrs Hcfg) as (t & E & Ht).
  rewrite E. cbn [fst snd http_requests]. rewrite Ht.
  split; [reflexivity|]. split; [reflexivity|].
  destruct (snd (axios _ w h)) as [r|e].
  - destruct (status r =? 200)%Z eqn:Hst.
    + apply Z.eqb_eq in Hst. split; [intros _; exists r; split; [reflexivity | exact Hst]
                                    | reflexivity].
    + apply Z.eqb_neq in Hst.
      split; [discriminate | intros (r' & [= <-] & Hs); contradiction].
  - split; [discriminate | intros (r' & [=] & _)].
Qed.

(** What [uploadSealFile] comes to once the file has been hashed and sized. *)
Lemma uploadSealFile_summary w h apiUrl apiToken filePath sealFilename fileTypeTitle
    hashNumber fileSizeInBytes hdrs :
  hashFile w h filePath = inr hashNumber ->
  statSize w h filePath = inr fileSizeInBytes ->
  SealApi.createApiConfig apiToken (uploadHeaders fileSizeInBytes) = Ok hdrs ->
  let req := uploadRequest apiUrl hdrs filePath sealFilename fileTypeTitle
               (pretty hashNumber) in
  exists t,
    SealApi.uploadSealFile apiUrl apiToken filePath sealFilename fileTypeTitle w h
    = (Http req :: t,
       match snd (axios req w h) with
       | Throw e =>
           Throw (Error (("Failed to upload file " +:+ quoted sealFilename
                          +:+ (" (CRC32C: " +:+ pretty hashNumber +:+ ")") +:+ ": ")
                         +:+ (if isAxiosError e then "Axios error: " +:+ message e
                              else message e)))
       | Ok r =>
           if negb (status r =? 200)%Z && negb (status r =? 201)%Z then
             Throw (Error ("Seal API file upload failed with status "
                           +:+ Js.num (status r) +:+ ": " +:+ data_json (data r)))
           else
             match data_id (data r) with
             | Some fileId =>
                 if Js.is_empty fileId
                 then Throw (Error "Missing file ID in Seal API response after upload.")
                 else Ok fileId
             | None => Throw (Error "Missing file ID in Seal API response after upload.")
             end
       end)
    /\ http_requests t = [].
Proof.
  intros Hhash Hstat Hcfg. cbv zeta.
  unfold SealApi.uploadSealFile, SealApi.uploadSealFileWith.
  erewrite bind_ok;
    [|unfold SealApi.calculateCRC32CHash; erewrite bind_ok;
      [|unfold ask; rewrite Hhash; reflexivity]; reflexivity].
  rewrite !prepend_nil, !app_nil_r.
  erewrite bind_ok; [|unfold ask; rewrite Hstat; reflexivity].
  rewrite !prepend_nil, !app_nil_r.
  erewrite bind_ok; [|unfold lift; fold (uploadHeaders fileSizeInBytes);
                      rewrite Hcfg; reflexivity].
  rewrite !prepend_nil, !app_nil_r. cbn [app].
  change {| headers := hdrs; method := POST; url := _; params := _; req_data := _ |}
    with (uploadRequest apiUrl hdrs filePath sealFilename fileTypeTitle
            (pretty hashNumber)).
  rewrite run_bind.
  match goal with
  | |- context [try_catch _ (SealApi.request_failed ?fn ?p ?ws)] =>
      destruct (guarded_result
                  (uploadRequest apiUrl hdrs filePath sealFilename fileTypeTitle
                     (pretty hashNumber))
                  (SealApi.request_failed fn p ws)
                  (fun e => Error (p +:+ (if isAxiosError e
                                          then "Axios error: " +:+ message e
                                          else message e)))
                  w h (fun e h' => request_failed_eq fn p ws e w h')) as (t & E & Ht)
  end.
  rewrite E. clear E.
  destruct (snd (axios _ w h)) as [r|e];
    [|exists t; split; [reflexivity | exact Ht]].
  unfold prepend.
  destruct (negb (status r =? 200)%Z && negb (status r =? 201)%Z);
    [summary_done Ht|].
  destruct (data_id (data r)) as [fileId|]; [|summary_done Ht].
  destruct (Js.is_empty fileId); summary_done Ht.
Qed.

(** X7: [uploadSealFile]: with the file readable, one POST to [files] carrying
    the file name, the type title and the CRC32C digest in decimal, with the
    file streamed as the body; a file id is returned exactly when the answer
    is a 200 or a 201 whose [id] is a non-empty string. *)
Theorem uploadSealFile_returns_iff w h apiUrl apiToken filePath sealFilename
    fileTypeTitle hashNumber fileSizeInBytes hdrs :
  hashFile w h filePath = inr hashNumber ->
  statSize w h filePath = inr fileSizeInBytes ->
  SealApi.createApiConfig apiToken (uploadHeaders fileSizeInBytes) = Ok hdrs ->
  let req := uploadRequest apiUrl hdrs filePath sealFilename fileTypeTitle
               (pretty hashNumber) in
  let run := SealApi.uploadSealFile apiUrl apiToken filePath sealFilename
               fileTypeTitle w h in
  http_requests (fst run) = [req]
  /\ headers req !! "Content-Type" = Some "application/octet-stream"
  /\ headers req !! "Content-Length" = Some (pretty fileSizeInBytes)
  /\ forall fileId,
       snd run = Ok fileId <->
       exists r, snd (axios req w h) = Ok r
                 /\ (status r = 200%Z \/ status r = 201%Z)
                 /\ data_id (data r) = Some fileId /\ fileId <> "".
Proof.
  intros Hhash Hstat Hcfg. cbv zeta.
  destruct (uploadSealFile_summary w h apiUrl apiToken filePath sealFilename
              fileTypeTitle hashNumber fileSizeInBytes hdrs Hhash Hstat Hcfg)
    as (t & E & Ht).
  rewrite E. cbn [fst snd http_requests]. rewrite Ht. split; [reflexivity|].
  assert (Hh : forall k v, uploadHeaders fileSizeInBytes !! k = Some v ->
                            hdrs !! k = Some v).
  { intros k v Hk. revert Hcfg. unfold SealApi.createApiConfig.
    destruct (Js.is_empty apiToken); [discriminate|]. intros [= <-].
    apply lookup_union_Some_raw. left. exact Hk. }
  split; [apply Hh; reflexivity|]. split; [apply Hh; reflexivity|].
  intros fileId.
  destruct (snd (axios _ w h)) as [r|e];
    [|split; [discriminate | intros (r' & [=] & _)]].
  destruct (status r =? 200)%Z eqn:H200; destruct (status r =? 201)%Z eqn:H201;
    cbn [negb andb];
    try (apply Z.eqb_neq in H200; apply Z.eqb_neq in H201;
         split; [discriminate | intros (r' & [= <-] & [Hs|Hs] & _); contradiction]).
  all: assert (Hst : status r = 200%Z \/ status r = 201%Z)
         by (first [left; apply Z.eqb_eq; assumption
                   | right; apply Z.eqb_eq; assumption]).
  all: destruct (data_id (data r)) as [i|] eqn:Hid;
         [|split; [discriminate | intros (r' & [= <-] & _ & Hi & _); congruence]].
  all: destruct (Js.is_empty i) eqn:Hi;
         [apply is_empty_true in Hi; subst i;
          split; [discriminate | intros (r' & [= <-] & _ & Hi & Hne); congruence]
         |].
  all: split; [intros [= <-]; exists r; repeat split; try assumption;
               intros ->; discriminate
              | intros (r' & [= <-] & _ & Hi' & _); congruence].
Qed.

(** X8: When the file cannot be hashed or its size cannot be read,
    [uploadSealFile] throws before any request is sent. *)
Theorem uploadSealFile_unreadable_sends_nothing w h apiUrl apiToken filePath
    sealFilename fileTypeTitle :
  (exists msg, hashFile w h filePath = inl msg)
  \/ (exists e, statSize w h filePath = inl e) ->
  let run := SealApi.uploadSealFile apiUrl apiToken filePath sealFilename
               fileTypeTitle w h in
  fst run = [] /\ exists e, snd run = Throw e.
Proof.
  intros Hbad. cbv zeta.
  unfold SealApi.uploadSealFile, SealApi.uploadSealFileWith,
    SealApi.calculateCRC32CHash.
  destruct (hashFile w h filePath) as [msg|n] eqn:Hhash.
  - unfold mbind, M_bind, bind, ask, throw. rewrite Hhash. cbn.
    split; [reflexivity | eexists; reflexivity].
  - destruct Hbad as [[msg [=]]|[e Hstat]].
    erewrite bind_ok;
      [|erewrite bind_ok; [|unfold ask; rewrite Hhash; reflexivity]; reflexivity].
    rewrite !prepend_nil, !app_nil_r.
    erewrite bind_ok; [|unfold ask; rewrite Hstat; reflexivity].
    rewrite !prepend_nil, !app_nil_r.
    split; [reflexivity | eexists; reflexivity].
Qed.

Lemma findSealEntity_failure_modes_witness :
  snd (SealApi.findSealEntity "https://seal.test/api" "tok" 7 "tpl" Faults.notFound [])
  = Throw (Error "Seal API search failed with status 404: {}").
Proof.
  apply (proj1 (proj2 (proj2 (findSealEntity_failure_modes Faults.notFound []
                                "https://seal.test/api" "tok" 7 "tpl" Scenario.hdrs
                                eq_refl ltac:(discriminate))))
           {| status := 404; statusText := ""; data := Scenario.noData |} eq_refl).
  discriminate.
Defined.

Lemma getSealEntityChangeSetIndex_returns_iff_witness :
  snd (SealApi.getSealEntityChangeSetIndex "https://seal.test/api" "tok" "E1"
         Scenario.relink []) = Ok "CS-1".
Proof.
  apply (proj2 (getSealEntityChangeSetIndex_returns_iff Scenario.relink []
                  "https://seal.test/api" "tok" "E1" Scenario.hdrs eq_refl) "CS-1").
  eexists. split; [reflexivity|]. split; [reflexivity|]. split; [reflexivity|].
  discriminate.
Defined.

Lemma addEntityToChangeSet_returns_iff_witness :
  snd (SealApi.addEntityToChangeSet "https://seal.test/api" "tok" "file-1" "CS-1"
         Scenario.relink []) = Ok tt
  /\ snd (SealApi.addEntityToChangeSet "https://seal.test/api" "tok" "file-1" "CS-1"
            Faults.notFound []) <> Ok tt.
Proof.
  split.
  - apply (proj2 (proj2 (addEntityToChangeSet_returns_iff Scenario.relink []
                           "https://seal.test/api" "tok" "file-1" "CS-1" Scenario.hdrs
                           eq_refl))).
    eexists. split; reflexivity.
  - intros H.
    apply (proj2 (proj2 (addEntityToChangeSet_returns_iff Faults.notFound []
                           "https://seal.test/api" "tok" "file-1" "CS-1" Scenario.hdrs
                           eq_refl))) in H.
    destruct H as (r & [= <-] & Hs). discriminate.
Defined.

Lemma uploadSealFile_returns_iff_witness :
  snd (SealApi.uploadSealFile "https://seal.test/api" "tok" "/ws/a.txt"
         "artifact-a.txt-PR7-1700000000000" "GitHub-Artifacts" Scenario.relink [])
  = Ok "file-1".
Proof.
  apply (proj2 (proj2 (proj2 (uploadSealFile_returns_iff Scenario.relink []
                                "https://seal.test/api" "tok" "/ws/a.txt"
                                "artifact-a.txt-PR7-1700000000000" "GitHub-Artifacts"
                                305419896 1024 _ eq_refl eq_refl eq_refl))) "file-1").
  eexists. split; [reflexivity|]. split; [right; reflexivity|].
  split; [reflexivity | discriminate].
Defined.

Lemma uploadSealFile_unreadable_sends_nothing_witness :
  fst (SealApi.uploadSealFile "https://seal.test/api" "tok" "/ws/a.txt"
         "artifact-a.txt-PR7-1700000000000" "GitHub-Artifacts" Faults.unreadable [])
  = [].
Proof.
  apply (proj1 (uploadSealFile_unreadable_sends_nothing Faults.unreadable []
                  "https://seal.test/api" "tok" "/ws/a.txt"
                  "artifact-a.txt-PR7-1700000000000" "GitHub-Artifacts"
                  (or_introl (ex_intro _ _ eq_refl)))).
Defined.

Lemma linkFilesToEntityField_summary w h apiUrl apiToken entityId fieldName refs hdrs :
  SealApi.createApiConfig apiToken ∅ = Ok hdrs ->
  refs <> [] ->
  let req := patchRequest apiUrl hdrs entityId fieldName refs in
  exists t,
    SealApi.linkFilesToEntityField apiUrl apiToken entityId fieldName refs w h
    = (Http req :: t,
       match snd (axios req w h) with
       | Throw e =>
           Throw (Error (("Failed to link files to entity field " +:+ quoted fieldName
                          +:+ ": ")
                         +:+ (if isAxiosError e then "Axios error: " +:+ message e
                              else message e)))
       | Ok r =>
           if (status r =? 200)%Z then Ok tt
           else Throw (Error ("Seal API linking failed with status "
                              +:+ Js.num (status r) +:+ ": " +:+ data_json (data r)
                              +:+ ". Files were uploaded but not linked."))
       end)
    /\ http_requests t = [].
Proof.
  intros Hcfg Hne. cbv zeta. unfold SealApi.linkFilesToEntityField.
  rewrite (length_eqb_0 refs Hne).
  erewrite bind_ok; [|unfold lift; rewrite Hcfg; reflexivity].
  change {| headers := hdrs; method := PATCH; url := _; params := _; req_data := _ |}
    with (patchRequest apiUrl hdrs entityId fieldName refs).
  rewrite prepend_nil, app_nil_r, run_bind.
  match goal with
  | |- context [try_catch _ (SealApi.request_failed ?fn ?p ?ws)] =>
      destruct (guarded_result (patchRequest apiUrl hdrs entityId fieldName refs)
                  (SealApi.request_failed fn p ws)
                  (fun e => Error (p +:+ (if isAxiosError e
                                          then "Axios error: " +:+ message e
                                          else message e)))
                  w h (fun e h' => request_failed_eq fn p ws e w h')) as (t & E & Ht)
  end.
  rewrite E. clear E.
  destruct (snd (axios _ w h)) as [r|e];
    [|exists t; split; [reflexivity | exact Ht]].
  unfold prepend.
  destruct (status r =? 200)%Z; cbn [negb]; [|summary_done Ht].
  destruct (Js.truthy (data_message (data r))); summary_done Ht.
Qed.

(** X9: [linkFilesToEntityField] with a non-empty list returns exactly when the
    PATCH is answered with a 200, whatever the body says; every other
    answer is thrown with a message that starts with the status or with the
    name of the field. *)
Theorem linkFilesToEntityField_returns_iff w h apiUrl apiToken entityId fieldName
    refs hdrs :
  SealApi.createApiConfig apiToken ∅ = Ok hdrs ->
  refs <> [] ->
  let req := patchRequest apiUrl hdrs entityId fieldName refs in
  let run := SealApi.linkFilesToEntityField apiUrl apiToken entityId fieldName
               refs w h in
  (snd run = Ok tt <-> exists r, snd (axios req w h) = Ok r /\ status r = 200%Z)
  /\ (forall r, snd (axios req w h) = Ok r -> status r <> 200%Z ->
        snd run = Throw (Error ("Seal API linking failed with status "
                                +:+ Js.num (status r) +:+ ": " +:+ data_json (data r)
                                +:+ ". Files were uploaded but not linked.")))
  /\ (forall e, snd (axios req w h) = Throw e ->
        exists reason,
          snd run = Throw (Error (("Failed to link files to entity field "
                                   +:+ quoted fieldName +:+ ": ") +:+ reason))
          /\ Js.includes reason (message e) = true).
Proof.
  intros Hcfg Hne. cbv zeta.
  destruct (linkFilesToEntityField_summary w h apiUrl apiToken entityId fieldName refs
              hdrs Hcfg Hne) as (t & E & Ht).
  rewrite E. cbn [fst snd].
  destruct (snd (axios _ w h)) as [r|e].
  - split; [|split].
    + destruct (status r =? 200)%Z eqn:Hst.
      * apply Z.eqb_eq in Hst.
        split; [intros _; exists r; split; [reflexivity | exact Hst] | reflexivity].
      * apply Z.eqb_neq in Hst.
        split; [discriminate | intros (r' & [= <-] & Hs); contradiction].
    + intros r' [= <-] Hs. apply Z.eqb_neq in Hs. rewrite Hs. reflexivity.
    + intros e [=].
  - split; [|split].
    + split; [discriminate | intros (r' & [=] & _)].
    + intros r [=].
    + intros e' [= <-].
      exists (if isAxiosError e then "Axios error: " +:+ message e else message e).
      split.
      * reflexivity.
      * assert (Hself : Js.includes (message e) (message e) = true)
          by (rewrite <- (append_empty_r (message e)) at 1;
              apply includes_self_append).
        destruct (isAxiosError e); [apply includes_append_r|]; exact Hself.
Qed.

Lemma linkFilesToEntityField_returns_iff_witness :
  snd (SealApi.linkFilesToEntityField "https://seal.test/api" "tok" "E1"
         "Release Artifact(s)" [Scenario.B] Faults.notFound [])
  = Throw (Error "Seal API linking failed with status 404: {}. Files were uploaded but not linked.").
Proof.
  apply (proj1 (proj2 (linkFilesToEntityField_returns_iff Faults.notFound []
                         "https://seal.test/api" "tok" "E1" "Release Artifact(s)"
                         [Scenario.B] Scenario.hdrs eq_refl ltac:(discriminate)))
           {| status := 404; statusText := ""; data := Scenario.noData |} eq_refl).
  discriminate.
Defined.

(** ** One iteration of the loop *)

(** X10: A failed upload is counted and nothing else is asked of the platform for
    that file; a file that was uploaded but could not be added to the
    changeset is counted as failed too, is not referenced, and its version
    is not fetched.  Either way the iteration returns, so the loop goes
    on. *)
Theorem processArtifact_failure_isolated w h inputs prContext changeSetIndex
    timestamp acc filePath :
  let apiUrl := GithubContext.sealApiBaseUrl inputs in
  let apiToken := GithubContext.sealApiToken inputs in
  let relativePath := path_relative w (GithubContext.workspace prContext) filePath in
  let upload :=
    SealApi.uploadSealFile apiUrl apiToken filePath
      (UploadArtifacts.sealFilename (Js.basename filePath)
         (GithubContext.prNumber prContext) timestamp)
      (GithubContext.sealFileTypeTitle inputs) w h in
  let step := UploadArtifacts.processArtifact inputs prContext changeSetIndex
                timestamp acc filePath w h in
  (forall t1 e,
     upload = (t1, Throw e) ->
     step = (t1 ++ [Annotation LError
                      ("Processing failed for " +:+ quoted relativePath
                       +:+ " during " +:+ "upload" +:+ ": " +:+ message e)],
             Ok (fst acc, S (snd acc))))
  /\ (forall t1 fileId t2 e,
        upload = (t1, Ok fileId) ->
        SealApi.addEntityToChangeSet apiUrl apiToken fileId changeSetIndex w (h ++ t1)
        = (t2, Throw e) ->
        step = (t1 ++ t2
                ++ [Annotation LError
                      ("Processing failed for " +:+ quoted relativePath
                       +:+ " during " +:+ "add to changeset or get version"
                       +:+ ": " +:+ message e)],
                Ok (fst acc, S (snd acc)))).
Proof.
  cbv zeta. split.
  - intros t1 e Hup.
    unfold UploadArtifacts.processArtifact.
    erewrite bind_ok; [|reflexivity].
    rewrite prepend_nil, app_nil_r.
    erewrite bind_ok.
    2:{ rewrite run_try_catch, run_bind, Hup. reflexivity. }
    unfold prepend. cbn. rewrite !app_nil_r. reflexivity.
  - intros t1 fileId t2 e Hup Hadd.
    unfold UploadArtifacts.processArtifact.
    erewrite bind_ok; [|reflexivity].
    rewrite prepend_nil, app_nil_r.
    erewrite bind_ok.
    2:{ apply try_catch_ok. erewrite bind_ok; [reflexivity | exact Hup]. }
    unfold ret at 1 2. cbn [fst snd]. rewrite !app_nil_r.
    rewrite run_try_catch, run_bind, Hadd.
    unfold prepend. cbn. rewrite <- !app_assoc. reflexivity.
Qed.

Lemma processArtifact_failure_isolated_witness :
  exists t,
    UploadArtifacts.processArtifact Scenario.inputs Scenario.prContext "CS-1"
      1700000000000 ([], 0) "/ws/a.txt" Faults.unreadable []
    = (t, Ok ([], 1)) /\ http_requests t = [].
Proof.
  eexists. split.
  - apply (proj1 (processArtifact_failure_isolated Faults.unreadable [] Scenario.inputs
                    Scenario.prContext "CS-1" 1700000000000 ([], 0) "/ws/a.txt")
             [] _ eq_refl).
  - reflexivity.
Defined.

(** ** The names under which a run uploads *)

Lemma emits_axios_gen config (Q : Event -> Prop) :
  Q (Http config) -> emits (axios config) Q.
Proof.
  intros H. unfold axios.
  apply emits_bind; [apply emits_ask | intros outcome].
  apply emits_bind; [apply emits_emit; exact H | intros _].
  destruct outcome as [e|r]; [apply emits_throw|].
  destruct (validateStatus (status r)); [apply emits_ret | apply emits_throw].
Qed.

Ltac gen_step :=
  first
    [ apply emits_axios_gen; cbn; first [reflexivity | discriminate | tauto]
    | emits_step ].

Ltac gen_auto :=
  unfold core_warning, core_error, core_setFailed, setFailedWith; repeat gen_step.

Lemma uploadedNames_app t1 t2 :
  uploadedNames (t1 ++ t2) = uploadedNames t1 ++ uploadedNames t2.
Proof.
  unfold uploadedNames.
  rewrite http_requests_app, List.filter_app, List.map_app. reflexivity.
Qed.

Lemma uploadedNames_none t :
  Forall (fun e => match e with
                   | Http c => isUpload c = false
                   | _ => True
                   end) t ->
  uploadedNames t = [].
Proof.
  induction 1 as [|e t He _ IH]; [reflexivity|].
  destruct e; try exact IH.
  unfold uploadedNames in *. cbn. rewrite He. exact IH.
Qed.

Lemma uploadedNames_no_requests t : http_requests t = [] -> uploadedNames t = [].
Proof. unfold uploadedNames. intros ->. reflexivity. Qed.

Lemma after_upload_no_upload inputs changeSetIndex acc relativePath fileId :
  emits
    (try_catch
       (SealApi.addEntityToChangeSet (GithubContext.sealApiBaseUrl inputs)
          (GithubContext.sealApiToken inputs) fileId changeSetIndex;;
        fileVersion ← SealApi.getSealFileVersion (GithubContext.sealApiBaseUrl inputs)
                        (GithubContext.sealApiToken inputs) fileId;
        mret (fst acc ++ [{| ref_id := fileId; ref_version := fileVersion |}],
              snd acc))
       (UploadArtifacts.processingFailed acc relativePath (Some fileId)))
    (fun e => match e with
              | Http c => isUpload c = false
              | _ => True
              end).
Proof.
  unfold SealApi.addEntityToChangeSet, SealApi.getSealFileVersion,
    SealApi.changeset_request_failed, UploadArtifacts.processingFailed.
  gen_auto.
Qed.

Lemma processArtifact_uploads w h inputs prContext changeSetIndex timestamp acc
    filePath :
  GithubContext.sealApiToken inputs <> "" ->
  (exists n, hashFile w h filePath = inr n) ->
  (exists n, statSize w h filePath = inr n) ->
  uploadedNames
    (fst (UploadArtifacts.processArtifact inputs prContext changeSetIndex timestamp
            acc filePath w h))
  = [UploadArtifacts.sealFilename (Js.basename filePath)
       (GithubContext.prNumber prContext) timestamp].
Proof.
  intros Htok [n Hhash] [size Hstat].
  destruct (SealApi.createApiConfig (GithubContext.sealApiToken inputs)
              (uploadHeaders size)) as [hdrs|e] eqn:Hcfg.
  2:{ unfold SealApi.createApiConfig in Hcfg.
      rewrite (is_empty_false _ Htok) in Hcfg. discriminate. }
  destruct (uploadSealFile_summary w h (GithubContext.sealApiBaseUrl inputs)
              (GithubContext.sealApiToken inputs) filePath
              (UploadArtifacts.sealFilename (Js.basename filePath)
                 (GithubContext.prNumber prContext) timestamp)
              (GithubContext.sealFileTypeTitle inputs) n size hdrs Hhash Hstat Hcfg)
    as (t & E & Ht).
  destruct (SealApi.uploadSealFile _ _ _ _ _ w h) as [tu R] eqn:Eu.
  injection E as -> _.
  assert (Hup : uploadedNames (Http (uploadRequest (GithubContext.sealApiBaseUrl inputs)
                                      hdrs filePath
                                      (UploadArtifacts.sealFilename (Js.basename filePath)
                                         (GithubContext.prNumber prContext) timestamp)
                                      (GithubContext.sealFileTypeTitle inputs)
                                      (pretty n)) :: t)
                = [UploadArtifacts.sealFilename (Js.basename filePath)
                     (GithubContext.prNumber prContext) timestamp]).
  { change (Http ?c :: t) with ([Http c] ++ t).
    rewrite uploadedNames_app, (uploadedNames_no_requests t Ht). reflexivity. }
  unfold UploadArtifacts.processArtifact.
  erewrite bind_ok; [|reflexivity].
  rewrite prepend_nil, app_nil_r.
  destruct R as [fileId|e].
  - erewrite bind_ok.
    2:{ apply try_catch_ok. erewrite bind_ok; [reflexivity | exact Eu]. }
    unfold ret at 1 2. cbn [fst snd]. rewrite !app_nil_r.
    unfold prepend. cbn [fst snd].
    rewrite uploadedNames_app, Hup.
    match goal with
    | |- _ ++ uploadedNames ?x = _ => assert (Hx : uploadedNames x = [])
    end.
    { apply uploadedNames_none.
      apply (after_upload_no_upload inputs changeSetIndex acc _ fileId). }
    rewrite Hx. reflexivity.
  - erewrite bind_ok.
    2:{ rewrite run_try_catch, run_bind, Eu. reflexivity. }
    unfold prepend. cbn [fst snd ret UploadArtifacts.processingFailed].
    rewrite !app_nil_r, uploadedNames_app, Hup. reflexivity.
Qed.

Lemma forEach_uploadedNames {S} (body : S -> string -> M S) (name : string -> string)
    w (l : list string) :
  (forall s x, total (body s x) (fun _ => True)) ->
  (forall s x h, In x l -> uploadedNames (fst (body s x w h)) = [name x]) ->
  forall s h, uploadedNames (fst (forEach body s l w h)) = map name l.
Proof.
  intros Htot. induction l as [|x l IH]; intros Hname s h; [reflexivity|].
  cbn [forEach map]. rewrite run_bind.
  destruct (Htot s x w h) as (t1 & s' & E & _).
  pose proof (Hname s x h (or_introl eq_refl)) as H1. rewrite E in *.
  unfold prepend. cbn [fst snd] in *.
  rewrite uploadedNames_app, H1, IH; [reflexivity|].
  intros s0 x0 h0 Hin. apply Hname. right. exact Hin.
Qed.

Lemma append_inj_l (s a b : string) : s +:+ a = s +:+ b -> a = b.
Proof.
  induction s as [|c s IH]; [trivial|].
  change (String c s +:+ ?x) with (String c (s +:+ x)).
  intros [= H]. apply IH. exact H.
Qed.

Lemma append_inj_r (s a b : string) : a +:+ s = b +:+ s -> a = b.
Proof.
  revert b. induction a as [|c a IH]; intros [|d b] H.
  - reflexivity.
  - apply (f_equal String.length) in H.
    rewrite (length_append (String d b) s) in H. change ("" +:+ s) with s in H.
    cbn [String.length] in H. lia.
  - apply (f_equal String.length) in H.
    rewrite (length_append (String c a) s) in H. change ("" +:+ s) with s in H.
    cbn [String.length] in H. lia.
  - change (String ?c ?a +:+ s) with (String c (a +:+ s)) in H.
    injection H as -> H. f_equal. apply IH. exact H.
Qed.

(** X11: With a token and readable files, the loop uploads every found file,
    in order, under the name made of its base name, the PR number and the
    timestamp read before the loop; hence the names of one run are pairwise
    different exactly when the base names of the found files are. *)
Theorem processArtifacts_uploaded_names w h inputs prContext changeSetIndex timestamp
    foundFiles :
  GithubContext.sealApiToken inputs <> "" ->
  (forall h' f, In f foundFiles -> exists n, hashFile w h' f = inr n) ->
  (forall h' f, In f foundFiles -> exists n, statSize w h' f = inr n) ->
  let names :=
    uploadedNames
      (fst (UploadArtifacts.processArtifacts inputs prContext changeSetIndex
              timestamp foundFiles w h)) in
  names = map (fun f => UploadArtifacts.sealFilename (Js.basename f)
                          (GithubContext.prNumber prContext) timestamp) foundFiles
  /\ (NoDup names <-> NoDup (map Js.basename foundFiles)).
Proof.
  intros Htok Hhash Hstat. cbv zeta.
  assert (E : uploadedNames
                (fst (UploadArtifacts.processArtifacts inputs prContext
                        changeSetIndex timestamp foundFiles w h))
              = map (fun f => UploadArtifacts.sealFilename (Js.basename f)
                                (GithubContext.prNumber prContext) timestamp)
                    foundFiles).
  { unfold UploadArtifacts.processArtifacts.
    apply (forEach_uploadedNames
             (UploadArtifacts.processArtifact inputs prContext changeSetIndex
                timestamp)
             (fun f => UploadArtifacts.sealFilename (Js.basename f)
                         (GithubContext.prNumber prContext) timestamp)).
    - intros s x w' h'.
      destruct (processArtifact_total inputs prContext changeSetIndex timestamp s x
                  w' h') as (t & a & Ea & _).
      exists t, a. split; [exact Ea | exact I].
    - intros s x h' Hin.
      apply processArtifact_uploads;
        [exact Htok | apply Hhash; exact Hin | apply Hstat; exact Hin]. }
  split; [exact E|]. rewrite E.
  rewrite <- (List.map_map Js.basename
                (fun b => UploadArtifacts.sealFilename b
                            (GithubContext.prNumber prContext) timestamp)).
  assert (Hinj : Inj (=) (=) (fun b => UploadArtifacts.sealFilename b
                                         (GithubContext.prNumber prContext) timestamp)).
  { intros b1 b2 Hb. unfold UploadArtifacts.sealFilename in Hb.
    apply append_inj_l in Hb. apply append_inj_r in Hb. exact Hb. }
  apply (NoDup_fmap _).
Qed.

Lemma processArtifacts_uploaded_names_witness :
  uploadedNames
    (fst (UploadArtifacts.processArtifacts Scenario.inputs Scenario.prContext "CS-1"
            1700000000000 ["/ws/a/README.md"; "/ws/b/README.md"] Scenario.readmes []))
  = ["artifact-README.md-PR7-1700000000000"; "artifact-README.md-PR7-1700000000000"].
Proof.
  apply (proj1 (processArtifacts_uploaded_names Scenario.readmes [] Scenario.inputs
                  Scenario.prContext "CS-1" 1700000000000
                  ["/ws/a/README.md"; "/ws/b/README.md"]
                  ltac:(discriminate)
                  (fun _ _ _ => ex_intro _ _ eq_refl)
                  (fun _ _ _ => ex_intro _ _ eq_refl))).
Defined.

(** ** How a run reports failure *)

(** Events that are neither a job failure nor a change of the runner's file
    system: requests and annotations. *)
Section Quiet.
Variable Q : Event -> Prop.
Hypothesis QHttp : forall c, Q (Http c).
Hypothesis QAnnotation : forall l msg, Q (Annotation l msg).

Ltac q_step :=
  first
    [ apply emits_ret | apply emits_throw | apply emits_lift | apply emits_ask
    | apply emits_axios_gen; apply QHttp
    | apply emits_emit; apply QAnnotation
    | apply emits_forEach; intros ? ?
    | apply emits_mapM; intros ?
    | apply emits_bind; [|intros ?]
    | apply emits_try_catch; [|intros ?]
    | match goal with
      | |- emits (if ?b then _ else _) _ => destruct b
      | |- emits (match ?x with _ => _ end) _ => destruct x
      | |- emits (let '(_, _) := ?x in _) _ => destruct x
      end ].

Ltac q_auto := unfold core_warning, core_error; repeat q_step.

Lemma searchMatching_quiet fn apiUrl apiToken prNumber templateId :
  emits (SealApi.searchMatching fn apiUrl apiToken prNumber templateId) Q.
Proof. unfold SealApi.searchMatching, SealApi.request_failed. q_auto. Qed.

Lemma findSealEntity_quiet apiUrl apiToken prNumber templateId :
  emits (SealApi.findSealEntity apiUrl apiToken prNumber templateId) Q.
Proof.
  unfold SealApi.findSealEntity.
  apply emits_bind; [apply searchMatching_quiet | intros l]. q_auto.
Qed.

Lemma findSealEntityId_quiet apiUrl apiToken prNumber templateId :
  emits (LegacySealApi.findSealEntityId apiUrl apiToken prNumber templateId) Q.
Proof.
  unfold LegacySealApi.findSealEntityId.
  apply emits_bind; [apply searchMatching_quiet | intros l]. q_auto.
Qed.

Lemma getSealEntityChangeSetIndex_quiet apiUrl apiToken entityId :
  emits (SealApi.getSealEntityChangeSetIndex apiUrl apiToken entityId) Q.
Proof.
  unfold SealApi.getSealEntityChangeSetIndex, SealApi.changeset_request_failed.
  q_auto.
Qed.

Lemma addEntityToChangeSet_quiet apiUrl apiToken entityId changeSetIndex :
  emits (SealApi.addEntityToChangeSet apiUrl apiToken entityId changeSetIndex) Q.
Proof.
  unfold SealApi.addEntityToChangeSet, SealApi.changeset_request_failed. q_auto.
Qed.

Lemma uploadSealFileWith_quiet withCrc apiUrl apiToken filePath sealFilename
    fileTypeTitle :
  emits (SealApi.uploadSealFileWith withCrc apiUrl apiToken filePath sealFilename
           fileTypeTitle) Q.
Proof.
  unfold SealApi.uploadSealFileWith, SealApi.calculateCRC32CHash,
    SealApi.request_failed.
  q_auto.
Qed.

Lemma getSealFileVersion_quiet apiUrl apiToken fileId :
  emits (SealApi.getSealFileVersion apiUrl apiToken fileId) Q.
Proof. unfold SealApi.getSealFileVersion. q_auto. Qed.

Lemma linkFilesToEntityField_quiet apiUrl apiToken entityId fieldName refs :
  emits (SealApi.linkFilesToEntityField apiUrl apiToken entityId fieldName refs) Q.
Proof. unfold SealApi.linkFilesToEntityField, SealApi.request_failed. q_auto. Qed.

Lemma archiveEntities_quiet apiUrl apiToken fileRefs :
  emits (SealApi.archiveEntities apiUrl apiToken fileRefs) Q.
Proof.
  destruct fileRefs as [[|ref refs]|]; cbn [SealApi.archiveEntities];
    try apply emits_ret.
  unfold SealApi.archiveOutcomes.
  apply emits_bind; [|intros os; apply emits_ret].
  apply emits_bind.
  - apply emits_mapM. intros x. unfold SealApi.archiveStart. q_auto.
  - intros ps. apply emits_mapM. intros p. unfold SealApi.archiveSettle. q_auto.
Qed.

Lemma processArtifacts_quiet inputs prContext changeSetIndex timestamp foundFiles :
  emits (UploadArtifacts.processArtifacts inputs prContext changeSetIndex timestamp
           foundFiles) Q.
Proof.
  unfold UploadArtifacts.processArtifacts. apply emits_forEach.
  intros acc filePath. unfold UploadArtifacts.processArtifact.
  apply emits_bind; [apply emits_ask | intros rel].
  apply emits_bind.
  - apply emits_try_catch; [|intros e; apply emits_ret].
    apply emits_bind; [apply uploadSealFileWith_quiet | intros fileId; apply emits_ret].
  - intros [e|fileId]; [unfold UploadArtifacts.processingFailed; q_auto|].
    apply emits_try_catch;
      [|intros e; unfold UploadArtifacts.processingFailed; q_auto].
    apply emits_bind; [apply addEntityToChangeSet_quiet | intros _].
    apply emits_bind; [apply getSealFileVersion_quiet | intros v; apply emits_ret].
Qed.

Lemma linkStep_quiet inputs entity acc :
  emits (UploadArtifacts.linkStep inputs entity acc) Q.
Proof.
  destruct acc as [refs failures]. unfold UploadArtifacts.linkStep.
  destruct (length refs =? 0)%nat; [q_auto|].
  unfold UploadArtifacts.archiveAndLink.
  apply emits_bind; [apply archiveEntities_quiet | intros _].
  apply linkFilesToEntityField_quiet.
Qed.

Lemma upload_main_quiet inputs prContext :
  emits (UploadArtifacts.main inputs prContext) Q.
Proof.
  unfold UploadArtifacts.main.
  destruct (length _ =? 0)%nat; [q_auto|].
  apply emits_bind; [unfold globFiles; q_auto | intros foundFiles].
  destruct (length _ =? 0)%nat; [apply emits_ret|].
  unfold UploadArtifacts.uploadAndLink.
  apply emits_bind; [apply findSealEntity_quiet | intros entity].
  apply emits_bind; [apply getSealEntityChangeSetIndex_quiet | intros idx].
  apply emits_bind; [apply emits_ask | intros ts].
  apply emits_bind; [apply processArtifacts_quiet | intros acc].
  apply linkStep_quiet.
Qed.

Lemma legacy_main_quiet inputs prContext :
  emits (LegacyUploadArtifacts.main inputs prContext) Q.
Proof.
  unfold LegacyUploadArtifacts.main.
  destruct (length _ =? 0)%nat; [q_auto|].
  apply emits_bind; [unfold globFiles; q_auto | intros foundFiles].
  destruct (length _ =? 0)%nat; [apply emits_ret|].
  apply emits_bind; [apply findSealEntityId_quiet | intros entityId].
  apply emits_bind.
  - unfold LegacyUploadArtifacts.uploadArtifacts. apply emits_forEach.
    intros [[refs failures] counter] filePath.
    unfold LegacyUploadArtifacts.uploadArtifact.
    apply emits_try_catch; [|intros e; q_auto].
    apply emits_bind; [apply uploadSealFileWith_quiet | intros fileId].
    apply emits_bind; [apply getSealFileVersion_quiet | intros v; apply emits_ret].
  - intros [[refs failures] counter].
    destruct (length refs =? 0)%nat; [q_auto|].
    apply linkFilesToEntityField_quiet.
Qed.

End Quiet.

Lemma failed_false t : Forall (fun e => is_setFailed e = false) t -> failed t = false.
Proof.
  induction 1 as [|e t He _ IH]; [reflexivity|].
  unfold failed in *. cbn. rewrite He, IH. reflexivity.
Qed.

(** A run that has its inputs and its context is what follows them. *)
Lemma run_with_context {I} (getInputs : M I)
    (continue : I -> GithubContext.PullRequestContext -> M unit) w h inputs prContext :
  emits getInputs (fun _ => False) ->
  snd (getInputs w h) = Ok inputs ->
  snd (GithubContext.getPullRequestContext w h) = Ok (Some prContext) ->
  (inputs ← getInputs;
   prContext ← GithubContext.getPullRequestContext;
   match prContext with
   | None => mret tt
   | Some prContext => continue inputs prContext
   end) w h = continue inputs prContext w h.
Proof.
  intros Hs Hin Hctx.
  erewrite bind_ok; [|apply silent_result; [exact Hs | exact Hin]].
  erewrite bind_ok; [|rewrite app_nil_r; apply getPullRequestContext_some; exact Hctx].
  rewrite !prepend_nil, !app_nil_r. reflexivity.
Qed.

Lemma report_failure (m : M unit) w h :
  failed (fst (m w h)) = false ->
  let report :=
    (fst (m w h) ++ match snd (m w h) with
                    | Throw e => [SetFailed (message e)]
                    | Ok _ => []
                    end, Ok tt) in
  try_catch m setFailedWith w h = report
  /\ (failed (fst report) = true <-> exists e, snd (m w h) = Throw e).
Proof.
  intros Hq. cbv zeta. rewrite run_try_catch.
  destruct (m w h) as [t [[]|e]]; cbn [fst snd] in *.
  - rewrite app_nil_r. split; [reflexivity|]. rewrite Hq.
    split; [discriminate | intros [e [=]]].
  - split; [reflexivity|]. rewrite failed_app, Hq.
    split; [intros _; exists e; reflexivity | reflexivity].
Qed.

(** X12: Both revisions of the upload action, once the inputs and the context
    are read: the run itself always resolves; the job is marked failed
    exactly when the body threw, once, as the last event, with the message
    of the error; the body never marks the job failed by itself. *)
Theorem upload_run_failed_iff_main_throws w h inputs prContext :
  snd (GithubContext.getUploadArtifactsInputs w h) = Ok inputs ->
  snd (GithubContext.getPullRequestContext w h) = Ok (Some prContext) ->
  let report (body : list Event * Result unit) : list Event * Result unit :=
    (fst body ++ match snd body with
                 | Throw e => [SetFailed (message e)]
                 | Ok _ => []
                 end, Ok tt) in
  let current := UploadArtifacts.main inputs prContext w h in
  let legacy := LegacyUploadArtifacts.main inputs prContext w h in
  (UploadArtifacts.run w h = report current
   /\ failed (fst current) = false
   /\ (failed (fst (UploadArtifacts.run w h)) = true <-> exists e, snd current = Throw e))
  /\ (LegacyUploadArtifacts.run w h = report legacy
      /\ failed (fst legacy) = false
      /\ (failed (fst (LegacyUploadArtifacts.run w h)) = true
          <-> exists e, snd legacy = Throw e)).
Proof.
  intros Hin Hctx. cbv zeta.
  assert (Hc : failed (fst (UploadArtifacts.main inputs prContext w h)) = false).
  { apply failed_false.
    apply (upload_main_quiet (fun e => is_setFailed e = false)); reflexivity. }
  assert (Hl : failed (fst (LegacyUploadArtifacts.main inputs prContext w h)) = false).
  { apply failed_false.
    apply (legacy_main_quiet (fun e => is_setFailed e = false)); reflexivity. }
  split.
  - assert (Er : UploadArtifacts.run w h
                 = try_catch (UploadArtifacts.main inputs prContext) setFailedWith w h)
      by exact (run_with_context _
                  (fun inputs prContext =>
                     try_catch (UploadArtifacts.main inputs prContext) setFailedWith)
                  w h inputs prContext getUploadArtifactsInputs_silent Hin Hctx).
    rewrite Er.
    destruct (report_failure (UploadArtifacts.main inputs prContext) w h Hc) as [E Hiff].
    rewrite E. split; [reflexivity|]. split; [exact Hc | exact Hiff].
  - assert (Er : LegacyUploadArtifacts.run w h
                 = try_catch (LegacyUploadArtifacts.main inputs prContext)
                     setFailedWith w h)
      by exact (run_with_context _
                  (fun inputs prContext =>
                     try_catch (LegacyUploadArtifacts.main inputs prContext)
                       setFailedWith)
                  w h inputs prContext getUploadArtifactsInputs_silent Hin Hctx).
    rewrite Er.
    destruct (report_failure (LegacyUploadArtifacts.main inputs prContext) w h Hl)
      as [E Hiff].
    rewrite E. split; [reflexivity|]. split; [exact Hl | exact Hiff].
Qed.

Lemma upload_run_failed_iff_main_throws_witness :
  failed (fst (UploadArtifacts.run Scenario.allFail [])) = true
  /\ failed (fst (UploadArtifacts.run Scenario.relink [])) = false.
Proof.
  split.
  - apply (proj2 (proj2 (proj1 (upload_run_failed_iff_main_throws Scenario.allFail []
                                  Scenario.inputs Scenario.prContext eq_refl eq_refl)))).
    eexists. vm_compute. reflexivity.
  - rewrite (proj1 (proj1 (upload_run_failed_iff_main_throws Scenario.relink []
                             Scenario.inputs Scenario.prContext eq_refl eq_refl))).
    vm_compute. reflexivity.
Defined.

(** ** What stops a run before the loop *)

(** X13: In a run that has its inputs, its context and at least one pattern:
    when the glob fails, or the entity cannot be resolved, or its changeset
    index cannot be read, the run ends there, marking the job failed with
    the message of that error; nothing is sent after the failing step, so
    no file is uploaded. *)
Theorem run_stops_before_loop w h inputs prContext :
  snd (GithubContext.getUploadArtifactsInputs w h) = Ok inputs ->
  snd (GithubContext.getPullRequestContext w h) = Ok (Some prContext) ->
  Js.split_ws (GithubContext.artifactPatterns inputs) <> [] ->
  let apiUrl := GithubContext.sealApiBaseUrl inputs in
  let apiToken := GithubContext.sealApiToken inputs in
  let found :=
    glob w h (Js.join newline (Js.split_ws (GithubContext.artifactPatterns inputs)))
         (Some (GithubContext.workspace prContext)) in
  let resolve :=
    SealApi.findSealEntity apiUrl apiToken (GithubContext.prNumber prContext)
      (GithubContext.sealTemplateId inputs) w h in
  (forall e, found = inl e ->
     UploadArtifacts.run w h = ([SetFailed (message e)], Ok tt))
  /\ (forall foundFiles t1 e,
        found = inr foundFiles -> foundFiles <> [] ->
        resolve = (t1, Throw e) ->
        UploadArtifacts.run w h = (t1 ++ [SetFailed (message e)], Ok tt))
  /\ (forall foundFiles t1 entity t2 e,
        found = inr foundFiles -> foundFiles <> [] ->
        resolve = (t1, Ok entity) ->
        SealApi.getSealEntityChangeSetIndex apiUrl apiToken (ent_id entity) w (h ++ t1)
        = (t2, Throw e) ->
        UploadArtifacts.run w h = (t1 ++ t2 ++ [SetFailed (message e)], Ok tt)).
Proof.
  intros Hin Hctx Hpat. cbv zeta.
  rewrite (run_main w h inputs prContext Hin Hctx).
  unfold UploadArtifacts.main. rewrite (length_eqb_0 _ Hpat).
  split; [|split].
  - intros e Hglob.
    rewrite run_try_catch, run_bind. unfold globFiles.
    erewrite bind_ok; [|reflexivity]. rewrite Hglob. reflexivity.
  - intros foundFiles t1 e Hglob Hfiles Hent.
    erewrite try_catch_bind_ok;
      [|unfold globFiles; erewrite bind_ok; [|reflexivity]; rewrite Hglob; reflexivity].
    rewrite (length_eqb_0 _ Hfiles), prepend_nil, !app_nil_r.
    unfold UploadArtifacts.uploadAndLink.
    rewrite run_try_catch, run_bind, Hent. reflexivity.
  - intros foundFiles t1 entity t2 e Hglob Hfiles Hent Hcs.
    erewrite try_catch_bind_ok;
      [|unfold globFiles; erewrite bind_ok; [|reflexivity]; rewrite Hglob; reflexivity].
    rewrite (length_eqb_0 _ Hfiles), prepend_nil, !app_nil_r.
    unfold UploadArtifacts.uploadAndLink.
    erewrite try_catch_bind_ok; [|exact Hent].
    rewrite run_try_catch, run_bind, Hcs.
    unfold prepend. cbn. rewrite ?app_nil_r, <- ?app_assoc. reflexivity.
Qed.

Lemma run_stops_before_loop_witness :
  exists t,
    UploadArtifacts.run Scenario.twoMatches [] =
    (t ++ [SetFailed (SealApi.multipleMessage "#7" "tpl")], Ok tt)
    /\ uploadedNames t = [].
Proof.
  eexists. split.
  - apply (proj1 (proj2 (run_stops_before_loop Scenario.twoMatches [] Scenario.inputs
                           Scenario.prContext eq_refl eq_refl ltac:(discriminate)))
             ["/ws/a/README.md"] _ (Error (SealApi.multipleMessage "#7" "tpl"))
             eq_refl ltac:(discriminate)).
    vm_compute. reflexivity.
  - reflexivity.
Defined.

(** ** The codebase-snapshot action *)


Lemma snapshotAndLink_quiet (Q : Event -> Prop) inputs prContext snapshotDir :
  (forall c, Q (Http c)) ->
  (forall l msg, Q (Annotation l msg)) ->
  (forall command args cwd, Q (Exec command args cwd)) ->
  emits (CodebaseSnapshot.snapshotAndLink inputs prContext snapshotDir) Q.
Proof.
  intros QHttp QAnnotation QExec.
  unfold CodebaseSnapshot.snapshotAndLink.
  apply emits_bind; [|intros path].
  { unfold CodebaseSnapshot.createArchive.
    apply emits_bind; [apply emits_ask | intros ts].
    apply emits_bind; [apply emits_ask | intros path].
    apply emits_bind; [apply emits_ask | intros r].
    apply emits_bind; [apply emits_emit; apply QExec | intros _].
    destruct r as [e|code]; [apply emits_throw|].
    destruct (negb _); [apply emits_throw|].
    apply emits_bind; [|intros _; apply emits_ret].
    apply emits_try_catch; [|intros e; apply emits_throw].
    apply emits_bind; [apply emits_ask | intros [e|size]]; [apply emits_throw|].
    destruct (size =? 0)%N; [apply emits_throw | apply emits_ret]. }
  apply emits_bind; [apply findSealEntityId_quiet; assumption | intros entityId].
  apply emits_bind; [apply uploadSealFileWith_quiet; assumption | intros fileId].
  apply emits_bind; [apply getSealFileVersion_quiet; assumption | intros v].
  apply linkFilesToEntityField_quiet; assumption.
Qed.

(** X16: Once the temporary directory exists, the run removes it exactly once,
    after everything else, whether the body returned or threw; a body that
    threw marks the job failed before the removal; a removal that fails only
    warns; the run itself resolves.  When the directory cannot be created
    the run marks the job failed and does nothing else. *)
Theorem snapshot_run_cleans_up w h inputs prContext :
  snd (GithubContext.getCodebaseSnapshotInputs w h) = Ok inputs ->
  snd (GithubContext.getPullRequestContext w h) = Ok (Some prContext) ->
  (forall e, mkdtemp w h "codebase-snapshot-" = inl e ->
     CodebaseSnapshot.run w h = ([SetFailed (message e)], Ok tt))
  /\ (forall snapshotDir,
        mkdtemp w h "codebase-snapshot-" = inr snapshotDir ->
        snapshotDir <> "" ->
        let body := CodebaseSnapshot.snapshotAndLink inputs prContext snapshotDir
                      w (h ++ [Mkdtemp snapshotDir]) in
        let reported := match snd body with
                        | Throw e => [SetFailed (message e)]
                        | Ok _ => []
                        end in
        let before := Mkdtemp snapshotDir :: fst body ++ reported in
        let warned :=
          match rm w (h ++ before) snapshotDir with
          | Some cleanupError =>
              [Annotation LWarning ("Failed to remove temporary directory "
                                    +:+ quoted snapshotDir +:+ ": "
                                    +:+ message cleanupError)]
          | None => []
          end in
        CodebaseSnapshot.run w h = (before ++ Rm snapshotDir :: warned, Ok tt)
        /\ Forall (fun e => match e with
                            | Rm _ | Mkdtemp _ | SetFailed _ => False
                            | _ => True
                            end) (fst body)).
Proof.
  intros Hin Hctx.
  assert (Er : CodebaseSnapshot.run w h
               = (made ← ask (fun w h => mkdtemp w h "codebase-snapshot-");
                  match made with
                  | inl error => setFailedWith error
                  | inr snapshotDir =>
                      emit (Mkdtemp snapshotDir);;
                      try_finally
                        (try_catch (CodebaseSnapshot.snapshotAndLink inputs prContext
                                      snapshotDir) setFailedWith)
                        (CodebaseSnapshot.cleanup snapshotDir)
                  end) w h)
    by exact (run_with_context _
                (fun inputs prContext =>
                   made ← ask (fun w h => mkdtemp w h "codebase-snapshot-");
                   match made with
                   | inl error => setFailedWith error
                   | inr snapshotDir =>
                       emit (Mkdtemp snapshotDir);;
                       try_finally
                         (try_catch (CodebaseSnapshot.snapshotAndLink inputs prContext
                                       snapshotDir) setFailedWith)
                         (CodebaseSnapshot.cleanup snapshotDir)
                   end)
                w h inputs prContext getCodebaseSnapshotInputs_silent Hin Hctx).
  rewrite Er. clear Er.
  erewrite bind_ok; [|reflexivity]. rewrite prepend_nil, app_nil_r.
  split.
  - intros e ->. reflexivity.
  - intros snapshotDir -> Hne. cbv zeta. split.
    2:{ apply (snapshotAndLink_quiet _ inputs prContext snapshotDir);
          intros; exact I. }
    erewrite bind_ok; [|reflexivity].
    unfold prepend, try_finally. cbn [fst snd].
    rewrite run_try_catch.
    destruct (CodebaseSnapshot.snapshotAndLink inputs prContext snapshotDir w
                (h ++ [Mkdtemp snapshotDir])) as [t [[]|e]]; cbn [fst snd].
    + unfold CodebaseSnapshot.cleanup. rewrite (is_empty_false _ Hne).
      rewrite app_nil_r.
      erewrite bind_ok; [|reflexivity]. rewrite prepend_nil, app_nil_r.
      rewrite <- app_assoc. cbn [app].
      destruct (rm w (h ++ Mkdtemp snapshotDir :: t) snapshotDir);
        unfold mbind, M_bind, bind, core_warning, mret, M_ret, ret;
        cbn [fst snd]; unfold emit; cbn [fst snd app];
        rewrite <- ?app_assoc; reflexivity.
    + unfold prepend. cbn [fst snd setFailedWith core_setFailed emit].
      unfold CodebaseSnapshot.cleanup. rewrite (is_empty_false _ Hne).
      erewrite bind_ok; [|reflexivity]. rewrite prepend_nil, app_nil_r.
      rewrite <- !app_assoc. cbn [app].
      destruct (rm w (h ++ Mkdtemp snapshotDir :: t ++ [SetFailed (message e)])
                  snapshotDir);
        unfold mbind, M_bind, bind, core_warning, mret, M_ret, ret;
        cbn [fst snd]; unfold emit; cbn [fst snd app];
        rewrite <- ?app_assoc; reflexivity.
Qed.

Lemma snapshot_run_cleans_up_witness :
  exists before warned,
    CodebaseSnapshot.run Scenario.relink []
    = (before ++ Rm "/tmp/codebase-snapshot-XXXX" :: warned, Ok tt).
Proof.
  eexists _, _.
  apply (proj1 (proj2 (snapshot_run_cleans_up Scenario.relink [] _ Scenario.prContext
                         eq_refl eq_refl)
                  "/tmp/codebase-snapshot-XXXX" eq_refl ltac:(discriminate))).
Defined.

(** ** The CI context *)



(** ** The inputs of the actions *)

(** X19: With its three required inputs supplied, [getCodebaseSnapshotInputs]
    returns exactly when [archive_type] is empty, [zip] or [tar]; an empty
    one means [zip]; anything else is refused with a message that quotes
    it.  Empty optional inputs are replaced by their defaults, so the field
    name and the file type title of the result are never empty. *)
Theorem getCodebaseSnapshotInputs_returns_iff w h :
  input w "seal_api_token" <> "" ->
  input w "seal_api_base_url" <> "" ->
  input w "seal_template_id" <> "" ->
  let requested := input w "archive_type" in
  let run := GithubContext.getCodebaseSnapshotInputs w h in
  ((exists inputs, snd run = Ok inputs)
   <-> requested = "" \/ requested = "zip" \/ requested = "tar")
  /\ (requested <> "" -> requested <> "zip" -> requested <> "tar" ->
      run = ([], Throw (Error ("Unsupported archive_type: " +:+ requested
                               +:+ ". Must be 'zip' or 'tar'."))))
  /\ (forall inputs,
        snd run = Ok inputs ->
        (GithubContext.archiveType inputs = GithubContext.tar <-> requested = "tar")
        /\ GithubContext.snapshotFieldName inputs <> ""
        /\ GithubContext.cs_sealFileTypeTitle inputs <> ""
        /\ (input w "seal_snapshot_field_name" = "" ->
            GithubContext.snapshotFieldName inputs = "Code Snapshot")
        /\ (input w "seal_file_type_title" = "" ->
            GithubContext.cs_sealFileTypeTitle inputs = "GitHub Artifacts")
        /\ GithubContext.excludePatterns inputs = input w "exclude_patterns").
Proof.
  intros Htok Hurl Htpl. cbv zeta.
  assert (Hdef : forall a b, b <> "" -> GithubContext.or_default a b <> "").
  { intros a b Hb. unfold GithubContext.or_default.
    destruct (Js.is_empty a) eqn:Ha; [exact Hb|].
    intros ->. discriminate. }
  assert (Hdef0 : forall b, GithubContext.or_default "" b = b) by reflexivity.
  assert (Harch : forall a,
            (GithubContext.or_default a "zip" = "zip" <-> a = "" \/ a = "zip")
            /\ (GithubContext.or_default a "zip" = "tar" <-> a = "tar")).
  { intros a. unfold GithubContext.or_default.
    destruct (Js.is_empty a) eqn:Ha.
    - apply is_empty_true in Ha. subst a.
      split; [split; [intros _; left; reflexivity | intros _; reflexivity]
             |split; intros [=]].
    - assert (a <> "") by (intros ->; discriminate).
      split; [split; [intros ->; right; reflexivity | tauto] | tauto]. }
  unfold GithubContext.getCodebaseSnapshotInputs, GithubContext.getInput,
    mbind, M_bind, bind, ask, mret, M_ret, ret, throw.
  cbn [fst snd app andb].
  rewrite (is_empty_false _ Htok), (is_empty_false _ Hurl), (is_empty_false _ Htpl).
  cbn [fst snd app andb].
  destruct (Harch (input w "archive_type")) as [Hz Ht].
  destruct (String.eqb_spec (GithubContext.or_default (input w "archive_type") "zip")
              "zip") as [Ez|Ez];
    [|destruct (String.eqb_spec
                  (GithubContext.or_default (input w "archive_type") "zip") "tar")
        as [Et|Et]];
    cbn [fst snd app].
  - split; [split; [intros _; apply Hz in Ez; tauto | intros _; eexists; reflexivity]|].
    split; [intros H1 H2 _; apply Hz in Ez; tauto|].
    intros inputs [= <-]. cbn.
    split; [split; [discriminate | intros H; apply Ht in H; congruence]|].
    split; [apply Hdef; discriminate|]. split; [apply Hdef; discriminate|].
    split; [intros ->; reflexivity|]. split; [intros ->; reflexivity | reflexivity].
  - split; [split; [intros _; apply Ht in Et; tauto | intros _; eexists; reflexivity]|].
    split; [intros _ _ H; apply Ht in Et; contradiction|].
    intros inputs [= <-]. cbn.
    split; [split; [intros _; apply Ht; exact Et | reflexivity]|].
    split; [apply Hdef; discriminate|]. split; [apply Hdef; discriminate|].
    split; [intros ->; reflexivity|]. split; [intros ->; reflexivity | reflexivity].
  - assert (Hreq : GithubContext.or_default (input w "archive_type") "zip"
                   = input w "archive_type").
    { unfold GithubContext.or_default.
      destruct (Js.is_empty (input w "archive_type")) eqn:Ha; [|reflexivity].
      apply is_empty_true in Ha. exfalso. apply Ez. apply Hz. left. exact Ha. }
    split; [split; [intros [inputs [=]] | intros H; exfalso; tauto]|].
    split; [intros _ _ _; rewrite Hreq; reflexivity|].
    intros inputs [=].
Qed.

Lemma getCodebaseSnapshotInputs_returns_iff_witness :
  exists inputs,
    snd (GithubContext.getCodebaseSnapshotInputs Scenario.relink []) = Ok inputs
    /\ GithubContext.archiveType inputs = GithubContext.zip
    /\ GithubContext.snapshotFieldName inputs = "Code Snapshot".
Proof.
  destruct (proj2 (proj1 (getCodebaseSnapshotInputs_returns_iff Scenario.relink []
                            ltac:(discriminate) ltac:(discriminate)
                            ltac:(discriminate)))
              (or_introl eq_refl)) as [inputs E].
  exists inputs. split; [exact E|].
  injection E as <-. split; reflexivity.
Defined.

(** ** The patterns handed to the glob *)






(** ** The older revision *)

Lemma legacy_uploadSealFile_summary w h apiUrl apiToken filePath sealFilename
    fileTypeTitle fileSizeInBytes hdrs :
  statSize w h filePath = inr fileSizeInBytes ->
  SealApi.createApiConfig apiToken (uploadHeaders fileSizeInBytes) = Ok hdrs ->
  let req := legacyUploadRequest apiUrl hdrs filePath sealFilename fileTypeTitle in
  exists t,
    LegacySealApi.uploadSealFile apiUrl apiToken filePath sealFilename fileTypeTitle w h
    = (Http req :: t,
       match snd (axios req w h) with
       | Throw e =>
           Throw (Error (("Failed to upload file " +:+ quoted sealFilename
                          +:+ "" +:+ ": ")
                         +:+ (if isAxiosError e then "Axios error: " +:+ message e
                              else message e)))
       | Ok r =>
           if negb (status r =? 200)%Z && negb (status r =? 201)%Z then
             Throw (Error ("Seal API file upload failed with status "
                           +:+ Js.num (status r) +:+ ": " +:+ data_json (data r)))
           else
             match data_id (data r) with
             | Some fileId =>
                 if Js.is_empty fileId
                 then Throw (Error "Missing file ID in Seal API response after upload.")
                 else Ok fileId
             | None => Throw (Error "Missing file ID in Seal API response after upload.")
             end
       end)
    /\ http_requests t = [].
Proof.
  intros Hstat Hcfg. cbv zeta.
  unfold LegacySealApi.uploadSealFile, SealApi.uploadSealFileWith.
  erewrite bind_ok; [|reflexivity].
  rewrite !prepend_nil, !app_nil_r.
  erewrite bind_ok; [|unfold ask; rewrite Hstat; reflexivity].
  rewrite !prepend_nil, !app_nil_r.
  erewrite bind_ok; [|unfold lift; fold (uploadHeaders fileSizeInBytes);
                      rewrite Hcfg; reflexivity].
  rewrite !prepend_nil, !app_nil_r. cbn [app].
  change {| headers := hdrs; method := POST; url := _; params := _; req_data := _ |}
    with (legacyUploadRequest apiUrl hdrs filePath sealFilename fileTypeTitle).
  rewrite run_bind.
  match goal with
  | |- context [try_catch _ (SealApi.request_failed ?fn ?p ?ws)] =>
      destruct (guarded_result
                  (legacyUploadRequest apiUrl hdrs filePath sealFilename fileTypeTitle)
                  (SealApi.request_failed fn p ws)
                  (fun e => Error (p +:+ (if isAxiosError e
                                          then "Axios error: " +:+ message e
                                          else message e)))
                  w h (fun e h' => request_failed_eq fn p ws e w h')) as (t & E & Ht)
  end.
  rewrite E. clear E.
  destruct (snd (axios _ w h)) as [r|e];
    [|exists t; split; [reflexivity | exact Ht]].
  unfold prepend.
  destruct (negb (status r =? 200)%Z && negb (status r =? 201)%Z);
    [summary_done Ht|].
  destruct (data_id (data r)) as [fileId|]; [|summary_done Ht].
  destruct (Js.is_empty fileId); summary_done Ht.
Qed.

(** X23: The older [uploadSealFile] does not read the file before the request:
    once the file is sized it sends one POST with the two parameters
    [filename] and [typeTitle] and no digest, whatever hashing the file would
    give; it returns a file id exactly when the answer is a 200 or a 201
    whose [id] is a non-empty string. *)
Theorem legacy_uploadSealFile_returns_iff w h apiUrl apiToken filePath sealFilename
    fileTypeTitle fileSizeInBytes hdrs :
  statSize w h filePath = inr fileSizeInBytes ->
  SealApi.createApiConfig apiToken (uploadHeaders fileSizeInBytes) = Ok hdrs ->
  let req := legacyUploadRequest apiUrl hdrs filePath sealFilename fileTypeTitle in
  let run := LegacySealApi.uploadSealFile apiUrl apiToken filePath sealFilename
               fileTypeTitle w h in
  http_requests (fst run) = [req]
  /\ params req = [("filename", sealFilename); ("typeTitle", fileTypeTitle)]
  /\ forall fileId,
       snd run = Ok fileId <->
       exists r, snd (axios req w h) = Ok r
                 /\ (status r = 200%Z \/ status r = 201%Z)
                 /\ data_id (data r) = Some fileId /\ fileId <> "".
Proof.
  intros Hstat Hcfg. cbv zeta.
  destruct (legacy_uploadSealFile_summary w h apiUrl apiToken filePath sealFilename
              fileTypeTitle fileSizeInBytes hdrs Hstat Hcfg) as (t & E & Ht).
  rewrite E. cbn [fst snd http_requests]. rewrite Ht. split; [reflexivity|].
  split; [reflexivity|].
  intros fileId.
  destruct (snd (axios _ w h)) as [r|e];
    [|split; [discriminate | intros (r' & [=] & _)]].
  destruct (status r =? 200)%Z eqn:H200; destruct (status r =? 201)%Z eqn:H201;
    cbn [negb andb];
    try (apply Z.eqb_neq in H200; apply Z.eqb_neq in H201;
         split; [discriminate | intros (r' & [= <-] & [Hs|Hs] & _); contradiction]).
  all: assert (Hst : status r = 200%Z \/ status r = 201%Z)
         by (first [left; apply Z.eqb_eq; assumption
                   | right; apply Z.eqb_eq; assumption]).
  all: destruct (data_id (data r)) as [i|] eqn:Hid;
         [|split; [discriminate | intros (r' & [= <-] & _ & Hi & _); congruence]].
  all: destruct (Js.is_empty i) eqn:Hi;
         [apply is_empty_true in Hi; subst i;
          split; [discriminate | intros (r' & [= <-] & _ & Hi & Hne); congruence]
         |].
  all: split; [intros [= <-]; exists r; repeat split; try assumption;
               intros ->; discriminate
              | intros (r' & [= <-] & _ & Hi' & _); congruence].
Qed.

Lemma legacy_uploadSealFile_returns_iff_witness :
  snd (LegacySealApi.uploadSealFile "https://seal.test/api" "tok" "/ws/a.txt"
         "artifact-a.txt-pr7-index1" "GitHub-Artifacts" Faults.unreadable [])
  = Ok "file-1".
Proof.
  apply (proj2 (proj2 (legacy_uploadSealFile_returns_iff Faults.unreadable []
                         "https://seal.test/api" "tok" "/ws/a.txt"
                         "artifact-a.txt-pr7-index1" "GitHub-Artifacts"
                         1024 _ eq_refl eq_refl)) "file-1").
  eexists. split; [reflexivity|]. split; [right; reflexivity|].
  split; [reflexivity | discriminate].
Defined.

(** X24: The older upload action, once the files are found, the entity is
    resolved and the loop is done: with at least one reference the only
    request left is the PATCH of the field with the collected references,
    nothing is archived; with none and a failure the job is marked failed
    and nothing is linked. *)
Theorem legacy_run_links_without_archiving w h inputs prContext foundFiles entityId
    t1 t2 refs failures counter :
  snd (GithubContext.getUploadArtifactsInputs w h) = Ok inputs ->
  snd (GithubContext.getPullRequestContext w h) = Ok (Some prContext) ->
  Js.split_ws (GithubContext.artifactPatterns inputs) <> [] ->
  glob w h (Js.join newline (Js.split_ws (GithubContext.artifactPatterns inputs))) None
  = inr foundFiles ->
  foundFiles <> [] ->
  LegacySealApi.findSealEntityId (GithubContext.sealApiBaseUrl inputs)
    (GithubContext.sealApiToken inputs) (GithubContext.prNumber prContext)
    (GithubContext.sealTemplateId inputs) w h = (t1, Ok entityId) ->
  LegacyUploadArtifacts.uploadArtifacts inputs prContext foundFiles w (h ++ t1)
  = (t2, Ok (refs, failures, counter)) ->
  (refs <> [] ->
   forall hdrs,
     SealApi.createApiConfig (GithubContext.sealApiToken inputs) ∅ = Ok hdrs ->
     http_requests (fst (LegacyUploadArtifacts.run w h))
     = http_requests (t1 ++ t2)
       ++ [patchRequest (GithubContext.sealApiBaseUrl inputs) hdrs entityId
             (GithubContext.fieldName inputs) refs])
  /\ (refs = [] -> 0 < failures ->
      LegacyUploadArtifacts.run w h
      = (t1 ++ t2 ++ [SetFailed (pretty failures +:+ " artifact upload(s) failed.")],
         Ok tt)).
Proof.
  intros Hin Hctx Hpat Hglob Hfiles Hent Hloop.
  assert (Er : LegacyUploadArtifacts.run w h
               = try_catch (LegacyUploadArtifacts.main inputs prContext)
                   setFailedWith w h)
    by exact (run_with_context _
                (fun inputs prContext =>
                   try_catch (LegacyUploadArtifacts.main inputs prContext)
                     setFailedWith)
                w h inputs prContext getUploadArtifactsInputs_silent Hin Hctx).
  rewrite Er. clear Er.
  unfold LegacyUploadArtifacts.main. rewrite (length_eqb_0 _ Hpat).
  erewrite try_catch_bind_ok;
    [|unfold globFiles; erewrite bind_ok; [|reflexivity]; rewrite Hglob; reflexivity].
  rewrite (length_eqb_0 _ Hfiles), prepend_nil, !app_nil_r.
  erewrite try_catch_bind_ok; [|exact Hent].
  erewrite try_catch_bind_ok; [|exact Hloop].
  rewrite prepend_prepend.
  split.
  - intros Hne hdrs Hcfg. rewrite (length_eqb_0 _ Hne).
    unfold prepend. cbn [fst].
    rewrite http_requests_app, try_catch_setFailed_requests. f_equal.
    apply (linkFilesToEntityField_sends _ _ _ _ hdrs refs Hcfg Hne).
  - intros -> Hpos. cbn [length Nat.eqb].
    destruct failures as [|n]; [lia|]. cbn [Nat.ltb Nat.leb].
    unfold prepend. cbn. rewrite <- !app_assoc. reflexivity.
Qed.

Lemma legacy_run_links_without_archiving_witness :
  map (fun c => (method c, url c))
      (http_requests (fst (LegacyUploadArtifacts.run Scenario.relink [])))
  = [(GET, "https://seal.test/api/entities/search");
     (POST, "https://seal.test/api/files");
     (GET, "https://seal.test/api/entities/file-1");
     (PATCH, "https://seal.test/api/entities/E1/fields/Release%20Artifact(s)")].
Proof.
  rewrite (proj1 (legacy_run_links_without_archiving Scenario.relink []
                    Scenario.inputs Scenario.prContext ["/ws/a.txt"] "E1"
                    _ _ [{| ref_id := "file-1"; ref_version := Some 3%Z |}] 0 1
                    eq_refl eq_refl ltac:(discriminate) eq_refl ltac:(discriminate)
                    eq_refl eq_refl)
             ltac:(discriminate) Scenario.hdrs eq_refl).
  vm_compute. reflexivity.
Defined.

Lemma createArchive_sends inputs prContext snapshotDir :
  sends (CodebaseSnapshot.createArchive inputs prContext snapshotDir) [].
Proof.
  intros w h.
  assert (H : Forall (fun e => match e with Http _ => False | _ => True end)
                (fst (CodebaseSnapshot.createArchive inputs prContext snapshotDir w h))).
  { revert w h. change (emits (CodebaseSnapshot.createArchive inputs prContext
                                 snapshotDir)
                          (fun e => match e with Http _ => False | _ => True end)).
    unfold CodebaseSnapshot.createArchive. emits_auto. }
  induction H as [|e t He _ IH]; [reflexivity|].
  destruct e; try contradiction; exact IH.
Qed.

(** X17: A snapshot run that gets its archive, its entity and its upload: the
    archive is uploaded under its own base name, the version of the new
    file is fetched, and the field is patched with exactly one reference,
    the new file with that version; nothing is archived on the platform. *)
Theorem snapshot_links_one_reference w h inputs prContext snapshotDir
    t0 archivePath t1 entityId t2 fileId hdrs :
  let apiUrl := GithubContext.cs_sealApiBaseUrl inputs in
  let apiToken := GithubContext.cs_sealApiToken inputs in
  CodebaseSnapshot.createArchive inputs prContext snapshotDir w h
  = (t0, Ok archivePath) ->
  LegacySealApi.findSealEntityId apiUrl apiToken (GithubContext.prNumber prContext)
    (GithubContext.cs_sealTemplateId inputs) w (h ++ t0) = (t1, Ok entityId) ->
  LegacySealApi.uploadSealFile apiUrl apiToken archivePath (Js.basename archivePath)
    (GithubContext.cs_sealFileTypeTitle inputs) w (h ++ t0 ++ t1) = (t2, Ok fileId) ->
  SealApi.createApiConfig apiToken ∅ = Ok hdrs ->
  let version :=
    versionFrom (transport w (h ++ t0 ++ t1 ++ t2) (detailsRequest apiUrl hdrs fileId)) in
  http_requests
    (fst (CodebaseSnapshot.snapshotAndLink inputs prContext snapshotDir w h))
  = http_requests (t1 ++ t2)
    ++ [detailsRequest apiUrl hdrs fileId;
        patchRequest apiUrl hdrs entityId (GithubContext.snapshotFieldName inputs)
          [{| ref_id := fileId; ref_version := version |}]].
Proof.
  cbv zeta. intros Harch Hent Hup Hcfg.
  destruct (getSealFileVersion_eq (GithubContext.cs_sealApiBaseUrl inputs)
              (GithubContext.cs_sealApiToken inputs) fileId hdrs w
              (h ++ t0 ++ t1 ++ t2) Hcfg) as (t3 & E3 & Ht3).
  unfold CodebaseSnapshot.snapshotAndLink.
  erewrite bind_ok; [|exact Harch].
  erewrite bind_ok; [|exact Hent].
  erewrite bind_ok; [|rewrite <- app_assoc; exact Hup].
  erewrite bind_ok; [|rewrite <- !app_assoc; exact E3].
  unfold prepend. cbn [fst snd].
  rewrite !http_requests_app.
  pose proof (createArchive_sends inputs prContext snapshotDir w h) as H0.
  rewrite Harch in H0. cbn [fst] in H0. rewrite H0. cbn [app http_requests].
  rewrite Ht3. cbn [app].
  rewrite (linkFilesToEntityField_sends _ _ _ _ hdrs _ Hcfg); [|discriminate].
  rewrite <- !app_assoc. reflexivity.
Qed.

Lemma snapshot_links_one_reference_witness :
  map (fun c => (method c, url c, req_data c))
      (http_requests
         (fst (CodebaseSnapshot.snapshotAndLink
                 {| GithubContext.cs_sealApiToken := "tok";
                    GithubContext.cs_sealApiBaseUrl := "https://seal.test/api";
                    GithubContext.cs_sealTemplateId := "tpl";
                    GithubContext.cs_sealFileTypeTitle := "GitHub Artifacts";
                    GithubContext.snapshotFieldName := "Code Snapshot";
                    GithubContext.excludePatterns := "";
                    GithubContext.archiveType := GithubContext.zip |}
                 Scenario.prContext "/tmp/snap" Scenario.relink [])))
  = [(GET, "https://seal.test/api/entities/search", NoData);
     (POST, "https://seal.test/api/files",
      FileStream "/tmp/snap/demo-PR7-1700000000000.zip");
     (GET, "https://seal.test/api/entities/file-1", NoData);
     (PATCH, "https://seal.test/api/entities/E1/fields/Code%20Snapshot",
      ValueBody [{| ref_id := "file-1"; ref_version := Some 3%Z |}])].
Proof.
  rewrite (snapshot_links_one_reference Scenario.relink []
             {| GithubContext.cs_sealApiToken := "tok";
                GithubContext.cs_sealApiBaseUrl := "https://seal.test/api";
                GithubContext.cs_sealTemplateId := "tpl";
                GithubContext.cs_sealFileTypeTitle := "GitHub Artifacts";
                GithubContext.snapshotFieldName := "Code Snapshot";
                GithubContext.excludePatterns := "";
                GithubContext.archiveType := GithubContext.zip |}
             Scenario.prContext "/tmp/snap" _ _ _ "E1" _ "file-1" Scenario.hdrs
             eq_refl eq_refl eq_refl eq_refl).
  vm_compute. reflexivity.
Defined.

(** ** The names of the older revision never collide *)

Lemma pretty_N_char_digit x : is_digit (pretty_N_char x) = true.
Proof.
  destruct x as [|p]; [reflexivity|].
  do 4 (try (destruct p as [p|p|]; try reflexivity)).
Qed.

Lemma pretty_N_go_digits x : forall s, digits s -> digits (pretty_N_go x s).
Proof.
  induction (N.lt_wf_0 x) as [x _ IH]. intros s Hs.
  destruct (N.eq_dec x 0%N) as [->|Hx]; [rewrite pretty_N_go_0; exact Hs|].
  rewrite pretty_N_go_step by lia.
  apply IH; [apply N.div_lt; lia|].
  unfold digits. cbn [list_ascii_of_string forallb].
  rewrite pretty_N_char_digit. exact Hs.
Qed.

Lemma pretty_nat_digits (n : nat) : digits (pretty n).
Proof.
  unfold pretty, pretty_nat, pretty, pretty_N.
  destruct (decide (N.of_nat n = 0%N)); [reflexivity|].
  apply pretty_N_go_digits. reflexivity.
Qed.

Lemma digits_append_r (a b : string) : digits (a +:+ b) -> digits b.
Proof.
  unfold digits. induction a as [|c a IH]; [trivial|].
  change (String c a +:+ b) with (String c (a +:+ b)).
  cbn [list_ascii_of_string forallb]. intros H.
  apply andb_true_iff in H as [_ H]. apply IH. exact H.
Qed.

(** A string that ends with a non-digit followed by digits is read in one
    way only. *)
Lemma digit_suffix_unique (x : ascii) (a1 a2 d1 d2 : string) :
  is_digit x = false -> digits d1 -> digits d2 ->
  a1 +:+ String x d1 = a2 +:+ String x d2 -> a1 = a2 /\ d1 = d2.
Proof.
  intros Hx Hd1 Hd2. revert a2.
  assert (Hno : forall a d, digits d -> d <> a +:+ String x d2 /\ d <> a +:+ String x d1).
  { intros a d Hd. split; intros ->; apply digits_append_r in Hd;
      unfold digits in Hd; cbn [list_ascii_of_string forallb] in Hd;
      rewrite Hx in Hd; discriminate. }
  induction a1 as [|c a1 IH]; intros [|c' a2] H.
  - change ("" +:+ ?s) with s in H. injection H as H. split; [reflexivity | exact H].
  - change ("" +:+ ?s) with s in H.
    change (String c' a2 +:+ ?s) with (String c' (a2 +:+ s)) in H.
    injection H as _ H. destruct (Hno a2 d1 Hd1) as [Hc _]. contradiction.
  - change ("" +:+ ?s) with s in H.
    change (String c a1 +:+ ?s) with (String c (a1 +:+ s)) in H.
    injection H as _ H. destruct (Hno a1 d2 Hd2) as [_ Hc]. symmetry in H.
    contradiction.
  - change (String ?c ?a +:+ ?s) with (String c (a +:+ s)) in H.
    injection H as -> H. destruct (IH a2 H) as [-> ->]. split; reflexivity.
Qed.

Lemma append_assoc (a b c : string) : (a +:+ b) +:+ c = a +:+ (b +:+ c).
Proof.
  induction a as [|x a IH]; [reflexivity|].
  change (String x a +:+ ?s) with (String x (a +:+ s)).
  change (String x (a +:+ b) +:+ c) with (String x ((a +:+ b) +:+ c)).
  rewrite IH. reflexivity.
Qed.

Lemma legacy_sealFilename_inj b1 b2 prNumber c1 c2 :
  LegacyUploadArtifacts.sealFilename b1 prNumber c1
  = LegacyUploadArtifacts.sealFilename b2 prNumber c2 ->
  b1 = b2 /\ c1 = c2.
Proof.
  unfold LegacyUploadArtifacts.sealFilename. intros H.
  apply append_inj_l in H.
  assert (E : forall b (c : nat),
            b +:+ "-pr" +:+ Js.num prNumber +:+ "-index" +:+ pretty c
            = (b +:+ "-pr" +:+ Js.num prNumber +:+ "-inde")
              +:+ String "x" (pretty c)).
  { intros b c. rewrite !append_assoc. reflexivity. }
  rewrite !E in H.
  apply digit_suffix_unique in H as [Hb Hc];
    [|reflexivity | apply pretty_nat_digits | apply pretty_nat_digits].
  split.
  - apply (append_inj_r ("-pr" +:+ Js.num prNumber +:+ "-inde")). exact Hb.
  - apply (inj pretty). exact Hc.
Qed.

Lemma uploadedNames_try_catch_bind {A B} (m : M A) (k : A -> M B)
    (handler : JsError -> M B) w h :
  (forall a, emits (k a) nonUpload) ->
  (forall e, emits (handler e) nonUpload) ->
  uploadedNames (fst (try_catch (m ≫= k) handler w h)) = uploadedNames (fst (m w h)).
Proof.
  intros Hk Hh. rewrite run_try_catch, run_bind.
  destruct (m w h) as [t1 [a|e]]; cbn [fst].
  - pose proof (Hk a w (h ++ t1)) as Ha.
    destruct (k a w (h ++ t1)) as [t2 [b|e]]; unfold prepend; cbn [fst snd] in *.
    + rewrite uploadedNames_app, (uploadedNames_none t2 Ha). apply app_nil_r.
    + rewrite !uploadedNames_app, (uploadedNames_none t2 Ha),
        (uploadedNames_none _ (Hh e w _)), !app_nil_r.
      reflexivity.
  - unfold prepend. cbn [fst].
    rewrite uploadedNames_app, (uploadedNames_none _ (Hh e w _)). apply app_nil_r.
Qed.

Lemma uploadArtifact_uploads w h inputs prContext refs failures counter filePath :
  GithubContext.sealApiToken inputs <> "" ->
  (exists n, statSize w h filePath = inr n) ->
  uploadedNames
    (fst (LegacyUploadArtifacts.uploadArtifact inputs prContext
            (refs, failures, counter) filePath w h))
  = [LegacyUploadArtifacts.sealFilename (Js.basename filePath)
       (GithubContext.prNumber prContext) (S counter)].
Proof.
  intros Htok [size Hstat].
  destruct (SealApi.createApiConfig (GithubContext.sealApiToken inputs)
              (uploadHeaders size)) as [hdrs|e] eqn:Hcfg.
  2:{ unfold SealApi.createApiConfig in Hcfg.
      rewrite (is_empty_false _ Htok) in Hcfg. discriminate. }
  unfold LegacyUploadArtifacts.uploadArtifact.
  rewrite uploadedNames_try_catch_bind.
  - destruct (legacy_uploadSealFile_summary w h (GithubContext.sealApiBaseUrl inputs)
                (GithubContext.sealApiToken inputs) filePath
                (LegacyUploadArtifacts.sealFilename (Js.basename filePath)
                   (GithubContext.prNumber prContext) (S counter))
                (GithubContext.sealFileTypeTitle inputs) size hdrs Hstat Hcfg)
      as (t & E & Ht).
    rewrite E. cbn [fst].
    change (Http ?c :: t) with ([Http c] ++ t).
    rewrite uploadedNames_app, (uploadedNames_no_requests t Ht). reflexivity.
  - intros fileId. unfold SealApi.getSealFileVersion. unfold nonUpload. gen_auto.
  - intros e. unfold nonUpload. gen_auto.
Qed.

Lemma legacy_forEach_names w inputs prContext :
  GithubContext.sealApiToken inputs <> "" ->
  forall foundFiles,
    (forall h' f, In f foundFiles -> exists n, statSize w h' f = inr n) ->
    forall refs failures counter h,
      uploadedNames
        (fst (forEach (LegacyUploadArtifacts.uploadArtifact inputs prContext)
                (refs, failures, counter) foundFiles w h))
      = legacyNames (GithubContext.prNumber prContext) counter foundFiles.
Proof.
  intros Htok. induction foundFiles as [|f l IH]; intros Hstat refs failures counter h;
    [reflexivity|].
  cbn [forEach legacyNames]. rewrite run_bind.
  destruct (uploadArtifact_total inputs prContext (refs, failures, counter) f w h)
    as (t1 & [[refs' failures'] counter'] & E & _ & Hc).
  cbn [snd] in Hc. subst counter'.
  pose proof (uploadArtifact_uploads w h inputs prContext refs failures counter f Htok
                (Hstat h f (or_introl eq_refl))) as H1.
  rewrite E in *. unfold prepend. cbn [fst snd] in *.
  rewrite uploadedNames_app, H1, IH; [reflexivity|].
  intros h' f' Hin. apply Hstat. right. exact Hin.
Qed.

Lemma legacyNames_counter prNumber k foundFiles name :
  In name (legacyNames prNumber k foundFiles) ->
  exists b j, k < j /\ name = LegacyUploadArtifacts.sealFilename b prNumber j.
Proof.
  revert k. induction foundFiles as [|f l IH]; intros k; [intros []|].
  cbn [legacyNames]. intros [<-|Hin].
  - exists (Js.basename f), (S k). split; [lia | reflexivity].
  - destruct (IH (S k) Hin) as (b & j & Hj & ->).
    exists b, j. split; [lia | reflexivity].
Qed.

Lemma legacyNames_NoDup prNumber k foundFiles :
  NoDup (legacyNames prNumber k foundFiles).
Proof.
  revert k. induction foundFiles as [|f l IH]; intros k; [constructor|].
  cbn [legacyNames]. constructor; [|apply IH].
  intros Hin. apply list_elem_of_In in Hin.
  apply legacyNames_counter in Hin as (b & j & Hj & E).
  apply legacy_sealFilename_inj in E as [_ E]. lia.
Qed.

(** X25: With a token and files that can be sized, the older loop uploads every
    found file, in order, under the name made of its base name, the PR
    number and its position in the list, counted from 1; these names are
    pairwise different whatever the files are. *)
Theorem legacy_uploaded_names_distinct w h inputs prContext foundFiles :
  GithubContext.sealApiToken inputs <> "" ->
  (forall h' f, In f foundFiles -> exists n, statSize w h' f = inr n) ->
  let names :=
    uploadedNames
      (fst (LegacyUploadArtifacts.uploadArtifacts inputs prContext foundFiles w h)) in
  names = legacyNames (GithubContext.prNumber prContext) 0 foundFiles
  /\ NoDup names.
Proof.
  intros Htok Hstat. cbv zeta.
  unfold LegacyUploadArtifacts.uploadArtifacts.
  rewrite (legacy_forEach_names w inputs prContext Htok foundFiles Hstat).
  split; [reflexivity | apply legacyNames_NoDup].
Qed.

Lemma legacy_uploaded_names_distinct_witness :
  uploadedNames
    (fst (LegacyUploadArtifacts.uploadArtifacts Scenario.inputs Scenario.prContext
            ["/ws/a/README.md"; "/ws/b/README.md"] Scenario.readmes []))
  = ["artifact-README.md-pr7-index1"; "artifact-README.md-pr7-index2"].
Proof.
  apply (proj1 (legacy_uploaded_names_distinct Scenario.readmes [] Scenario.inputs
                  Scenario.prContext ["/ws/a/README.md"; "/ws/b/README.md"]
                  ltac:(discriminate) (fun _ _ _ => ex_intro _ _ eq_refl))).
Defined.

(** ** Failures of single files do not fail the job *)

(** X14: In a run of the current upload action whose loop collected at least
    one reference, the job is marked failed exactly when the PATCH of the
    field is not answered with a 200: neither the files that failed in the
    loop, nor the archiving of the previous files, nor a version that could
    not be read marks the job failed. *)
Theorem job_fails_iff_link_fails w h inputs prContext foundFiles entity
    changeSetIndex t1 t2 t3 refs failures hdrs :
  let apiUrl := GithubContext.sealApiBaseUrl inputs in
  let apiToken := GithubContext.sealApiToken inputs in
  let fieldName := GithubContext.fieldName inputs in
  snd (GithubContext.getUploadArtifactsInputs w h) = Ok inputs ->
  snd (GithubContext.getPullRequestContext w h) = Ok (Some prContext) ->
  glob w h (Js.join newline (Js.split_ws (GithubContext.artifactPatterns inputs)))
       (Some (GithubContext.workspace prContext)) = inr foundFiles ->
  Js.split_ws (GithubContext.artifactPatterns inputs) <> [] ->
  SealApi.findSealEntity apiUrl apiToken (GithubContext.prNumber prContext)
    (GithubContext.sealTemplateId inputs) w h = (t1, Ok entity) ->
  SealApi.getSealEntityChangeSetIndex apiUrl apiToken (ent_id entity) w (h ++ t1)
  = (t2, Ok changeSetIndex) ->
  UploadArtifacts.processArtifacts inputs prContext changeSetIndex
    (now w (h ++ t1 ++ t2)) foundFiles w (h ++ t1 ++ t2) = (t3, Ok (refs, failures)) ->
  refs <> [] ->
  SealApi.createApiConfig apiToken ∅ = Ok hdrs ->
  let before := h ++ t1 ++ t2 ++ t3 in
  let archived :=
    fst (SealApi.archiveEntities apiUrl apiToken
           (UploadArtifacts.existingFileRefs entity fieldName) w before) in
  let patch := patchRequest apiUrl hdrs (ent_id entity) fieldName refs in
  failed (fst (UploadArtifacts.run w h)) = false
  <-> exists r, snd (axios patch w (before ++ archived)) = Ok r /\ status r = 200%Z.
Proof.
  cbv zeta. intros Hin Hctx Hglob Hpat Hent Hcs Hloop Hne Hcfg.
  assert (Hfiles : foundFiles <> [])
    by (eapply loop_files_nonempty; [exact Hloop | exact Hne]).
  rewrite (run_reaches_linkStep w h inputs prContext Hin Hctx foundFiles Hglob entity
             changeSetIndex t1 t2 t3 (refs, failures) Hpat Hfiles Hent Hcs Hloop).
  unfold prepend. cbn [fst].
  assert (H1 : failed t1 = false).
  { pose proof (f_equal fst Hent) as Ht. cbn [fst] in Ht. rewrite <- Ht.
    apply failed_false, findSealEntity_quiet; intros; reflexivity. }
  assert (H2 : failed t2 = false).
  { pose proof (f_equal fst Hcs) as Ht. cbn [fst] in Ht. rewrite <- Ht.
    apply failed_false, getSealEntityChangeSetIndex_quiet; intros; reflexivity. }
  assert (H3 : failed t3 = false).
  { pose proof (f_equal fst Hloop) as Ht. cbn [fst] in Ht. rewrite <- Ht.
    apply failed_false, processArtifacts_quiet; intros; reflexivity. }
  rewrite !failed_app, H1, H2, H3. cbn [orb].
  assert (H4 : failed (fst (UploadArtifacts.linkStep inputs entity (refs, failures) w
                              (h ++ t1 ++ t2 ++ t3))) = false)
    by (apply failed_false, linkStep_quiet; intros; reflexivity).
  destruct (report_failure (UploadArtifacts.linkStep inputs entity (refs, failures))
              w (h ++ t1 ++ t2 ++ t3) H4) as [E Hiff].
  rewrite E. cbn [fst] in *.
  assert (Hlink : snd (UploadArtifacts.linkStep inputs entity (refs, failures) w
                         (h ++ t1 ++ t2 ++ t3))
                  = snd (SealApi.linkFilesToEntityField
                           (GithubContext.sealApiBaseUrl inputs)
                           (GithubContext.sealApiToken inputs) (ent_id entity)
                           (GithubContext.fieldName inputs) refs w
                           ((h ++ t1 ++ t2 ++ t3)
                            ++ fst (SealApi.archiveEntities
                                      (GithubContext.sealApiBaseUrl inputs)
                                      (GithubContext.sealApiToken inputs)
                                      (UploadArtifacts.existingFileRefs entity
                                         (GithubContext.fieldName inputs))
                                      w (h ++ t1 ++ t2 ++ t3))))).
  { unfold UploadArtifacts.linkStep. rewrite (length_eqb_0 _ Hne).
    unfold UploadArtifacts.archiveAndLink.
    destruct (archiveEntities_total (GithubContext.sealApiBaseUrl inputs)
                (GithubContext.sealApiToken inputs)
                (UploadArtifacts.existingFileRefs entity (GithubContext.fieldName inputs))
                w (h ++ t1 ++ t2 ++ t3)) as (ta & [] & Ea & _).
    erewrite bind_ok; [|exact Ea]. rewrite Ea. reflexivity. }
  destruct (linkFilesToEntityField_summary w
              ((h ++ t1 ++ t2 ++ t3)
               ++ fst (SealApi.archiveEntities (GithubContext.sealApiBaseUrl inputs)
                         (GithubContext.sealApiToken inputs)
                         (UploadArtifacts.existingFileRefs entity
                            (GithubContext.fieldName inputs))
                         w (h ++ t1 ++ t2 ++ t3)))
              (GithubContext.sealApiBaseUrl inputs) (GithubContext.sealApiToken inputs)
              (ent_id entity) (GithubContext.fieldName inputs) refs hdrs Hcfg Hne)
    as (tl & El & _).
  rewrite El in Hlink. cbn [snd] in Hlink.
  match goal with |- ?f = false <-> _ => destruct f eqn:Hf end.
  - destruct (proj1 Hiff eq_refl) as [e He]. rewrite Hlink in He.
    split; [discriminate|].
    intros (r & Hax & Hst). rewrite Hax in He.
    apply Z.eqb_eq in Hst. rewrite Hst in He. discriminate.
  - split; [intros _ | reflexivity].
    destruct (snd (axios _ w _)) as [r|e] eqn:Hax.
    + destruct (status r =? 200)%Z eqn:Hst.
      * exists r. split; [reflexivity | apply Z.eqb_eq; exact Hst].
      * assert (Ht : false = true) by (apply Hiff; eexists; exact Hlink).
        discriminate.
    + assert (Ht : false = true) by (apply Hiff; eexists; exact Hlink).
      discriminate.
Qed.

Lemma job_fails_iff_link_fails_witness :
  failed (fst (UploadArtifacts.run Scenario.secondFails [])) = false.
Proof.
  apply (proj2 (job_fails_iff_link_fails Scenario.secondFails [] Scenario.inputs
                  Scenario.prContext ["/ws/a.txt"; "/ws/b.txt"; "/ws/c.txt"]
                  (Scenario.entity "E1" "tpl" []) "CS-1" _ _ _
                  [{| ref_id := "file-1"; ref_version := Some 3%Z |};
                   {| ref_id := "file-3"; ref_version := Some 3%Z |}] 1 Scenario.hdrs
                  eq_refl eq_refl eq_refl ltac:(discriminate) eq_refl eq_refl eq_refl
                  ltac:(discriminate) eq_refl)).
  eexists. split; reflexivity.
Defined.

(** X20: With its four required inputs supplied, [getUploadArtifactsInputs]
    returns them as they are, without any event; an empty field name is
    replaced by [Release Artifact(s)] and an empty file type title by
    [GitHub-Artifacts], so neither is ever empty in the result. *)
Theorem getUploadArtifactsInputs_defaults w h :
  input w "seal_api_token" <> "" ->
  input w "seal_api_base_url" <> "" ->
  input w "seal_template_id" <> "" ->
  input w "artifact_patterns" <> "" ->
  exists inputs,
    GithubContext.getUploadArtifactsInputs w h = ([], Ok inputs)
    /\ GithubContext.sealApiToken inputs = input w "seal_api_token"
    /\ GithubContext.sealApiBaseUrl inputs = input w "seal_api_base_url"
    /\ GithubContext.sealTemplateId inputs = input w "seal_template_id"
    /\ GithubContext.artifactPatterns inputs = input w "artifact_patterns"
    /\ GithubContext.fieldName inputs <> ""
    /\ GithubContext.sealFileTypeTitle inputs <> ""
    /\ GithubContext.fieldName inputs
       = (if Js.is_empty (input w "seal_field_name") then "Release Artifact(s)"
          else input w "seal_field_name")
    /\ GithubContext.sealFileTypeTitle inputs
       = (if Js.is_empty (input w "seal_file_type_title") then "GitHub-Artifacts"
          else input w "seal_file_type_title").
Proof.
  intros Htok Hurl Htpl Hpat.
  assert (Hdef : forall a b, b <> "" -> GithubContext.or_default a b <> "").
  { intros a b Hb. unfold GithubContext.or_default.
    destruct (Js.is_empty a) eqn:Ha; [exact Hb|].
    intros ->. discriminate. }
  unfold GithubContext.getUploadArtifactsInputs, GithubContext.getInput,
    mbind, M_bind, bind, ask, mret, M_ret, ret, throw.
  cbn [fst snd app andb].
  rewrite (is_empty_false _ Htok), (is_empty_false _ Hurl), (is_empty_false _ Htpl),
    (is_empty_false _ Hpat).
  cbn [fst snd app andb].
  eexists. split; [reflexivity|]. cbn.
  repeat (split; [reflexivity|]).
  split; [apply Hdef; discriminate|]. split; [apply Hdef; discriminate|].
  split; reflexivity.
Qed.

Lemma getUploadArtifactsInputs_defaults_witness :
  exists inputs,
    GithubContext.getUploadArtifactsInputs Scenario.relink [] = ([], Ok inputs)
    /\ GithubContext.fieldName inputs = "Release Artifact(s)"
    /\ GithubContext.sealFileTypeTitle inputs = "GitHub-Artifacts".
Proof.
  destruct (getUploadArtifactsInputs_defaults Scenario.relink []
              ltac:(discriminate) ltac:(discriminate) ltac:(discriminate)
              ltac:(discriminate))
    as (inputs & E & _ & _ & _ & _ & _ & _ & Hfield & Htitle).
  exists inputs. split; [exact E|]. split; [exact Hfield | exact Htitle].
Defined.

Lemma findSealEntityId_exactly_one_witness :
  snd (LegacySealApi.findSealEntityId "https://seal.test/api" "tok" 7 "tpl"
         Scenario.oneOfTwo []) = Ok "E1".
Proof.
  apply (proj2 (findSealEntityId_exactly_one Scenario.oneOfTwo []
                  "https://seal.test/api" "tok" 7 "tpl" Scenario.hdrs
                  {| status := 200; statusText := "";
                     data := {| data_json := "[...]"; data_nullish := false;
                                data_array := Some [Scenario.entity "E1" "tpl" [];
                                                    Scenario.entity "E2" "other" []];
                                data_id := None; data_index := Js.VUndefined;
                                data_version := Js.VUndefined;
                                data_message := Js.VUndefined |} |}
                  [Scenario.entity "E1" "tpl" []; Scenario.entity "E2" "other" []]
                  eq_refl ltac:(discriminate) eq_refl eq_refl eq_refl "E1")).
  split; [discriminate|].
  eexists. split; reflexivity.
Defined.
